(** * The x402 payment interceptor of the agent runner

    A shallow embedding of

    - [src/container/agent-runner/src/x402/header-factory.ts]
    - [src/container/agent-runner/src/x402/signature-sources.ts]
    - [src/container/agent-runner/src/x402/client.ts]

    together with the properties its specification states about the
    authorization lifecycle.

    ** Conventions of the embedding

    - A JavaScript string is a [string]: a sequence of code units
      U+0000..U+00FF.  Every operation on strings is exact on that
      fragment ([toLowerCase] follows the Latin-1 part of the Unicode case
      table).
    - A JavaScript number is a [Num.t]: NaN, or a double whose value is an
      integer.  [parseInt] rounds what it reads to the nearest double, and
      so does the one sum whose operand is not bounded by the clock.  The
      clock itself, [Date.now()], is a time value: an integer of magnitude
      at most 8.64e15, on which the division by 1000, the floor and the
      addition of an hour are exact; such a number is a [Z].
    - An async function is a state transformer that answers an [outcome]:
      [Ok] for a resolved promise, [Throw] for a rejected one, and [Beyond]
      when the run leaves the modelled fragment (a numeral of more than 20
      significant digits, the text of a number above 2^53, text with code
      units above U+00FF, JSON that does not inhabit the declared TypeScript
      interface, ...).  Nothing is claimed about a run that answers
      [Beyond].
    - The injected collaborators ([signatureFn], [baseFetch], the URL
      parser, the clock) are section variables acting on an abstract world
      [W].  Calls to [signatureFn] and [baseFetch] are recorded in a log, the
      way the test-suite's [vi.fn] mocks record them. *)

From Stdlib Require Import ZArith NArith List String Ascii Bool Lia.
From Stdlib Require Import DecimalString DecimalZ DecimalPos DecimalFacts.
Import ListNotations.

Local Open Scope string_scope.
Local Open Scope Z_scope.

(** ** Outcomes *)

Inductive outcome (A : Type) : Type :=
| Ok (a : A)
| Throw
| Beyond.

Arguments Ok {A} a.
Arguments Throw {A}.
Arguments Beyond {A}.

Definition bindO {A B : Type} (o : outcome A) (k : A -> outcome B) : outcome B :=
  match o with
  | Ok a => k a
  | Throw => Throw
  | Beyond => Beyond
  end.

(** [try { ... } catch { return h }]: only a thrown exception is caught. *)
Definition catchO {A : Type} (o : outcome A) (h : outcome A) : outcome A :=
  match o with
  | Throw => h
  | _ => o
  end.

Definition is_Ok {A : Type} (o : outcome A) : bool :=
  match o with Ok _ => true | _ => false end.

(** ** Strings *)

Module Str.

(** [a === b] on strings. *)
Definition eqb (a b : string) : bool := String.eqb a b.

(** A string is truthy unless it is empty. *)
Definition truthy (s : string) : bool := negb (String.eqb s EmptyString).

(** [s.startsWith(p)]. *)
Fixpoint startsWith (s p : string) {struct p} : bool :=
  match p with
  | EmptyString => true
  | String a p' =>
      match s with
      | String b s' => Ascii.eqb a b && startsWith s' p'
      | EmptyString => false
      end
  end.

(** [s.includes(p)]. *)
Fixpoint includes (s p : string) : bool :=
  startsWith s p ||
  match s with
  | EmptyString => false
  | String _ s' => includes s' p
  end.

Fixpoint drop (n : nat) (s : string) : string :=
  match n, s with
  | O, _ => s
  | S n', String _ s' => drop n' s'
  | S _, EmptyString => EmptyString
  end.

(** [s.endsWith(p)]. *)
Definition endsWith (s p : string) : bool :=
  (String.length p <=? String.length s)%nat &&
  String.eqb (drop (String.length s - String.length p) s) p.

Definition between (lo hi : N) (c : ascii) : bool :=
  (lo <=? N_of_ascii c)%N && (N_of_ascii c <=? hi)%N.

(** Lower-casing of one code unit: A-Z, and the Latin-1 capitals
    U+00C0..U+00DE except the multiplication sign U+00D7. *)
Definition lowerChar (c : ascii) : ascii :=
  if between 65 90 c then ascii_of_N (N_of_ascii c + 32)
  else if between 192 222 c && negb (N_of_ascii c =? 215)%N
       then ascii_of_N (N_of_ascii c + 32)
       else c.

(** [s.toLowerCase()]. *)
Fixpoint toLowerCase (s : string) : string :=
  match s with
  | EmptyString => EmptyString
  | String c s' => String (lowerChar c) (toLowerCase s')
  end.

(** The part of [s] before the first [sep], and what follows it. *)
Fixpoint cut (sep : ascii) (s : string) : string * option string :=
  match s with
  | EmptyString => (EmptyString, None)
  | String c s' =>
      if Ascii.eqb c sep then (EmptyString, Some s')
      else let (h, t) := cut sep s' in (String c h, t)
  end.

(** [s.split(sep)[1]], [None] for [undefined]. *)
Definition split_1 (sep : ascii) (s : string) : option string :=
  match snd (cut sep s) with
  | None => None
  | Some rest => Some (fst (cut sep rest))
  end.

End Str.

(** [a || b] where [a] is an optional string and [b] a string. *)
Definition orElse (a : option string) (b : string) : string :=
  match a with
  | Some s => if Str.truthy s then s else b
  | None => b
  end.

(** [a || b] where both are optional strings. *)
Definition orOpt (a b : option string) : option string :=
  match a with
  | Some s => if Str.truthy s then a else b
  | None => b
  end.

(** [a ?? b]. *)
Definition nullish (a : option string) (b : string) : string :=
  match a with
  | Some s => s
  | None => b
  end.

(** ** Numbers and their decimal text *)

Module Num.

(** The decimal text of an integer: [n.toString()] for a bigint, and for
    a number of magnitude at most 2^53. *)
Definition toString (n : Z) : string := NilZero.string_of_int (Z.to_int n).

(** StrWhiteSpaceChar, as far as it lies below U+0100. *)
Definition isWhite (c : ascii) : bool :=
  match N_of_ascii c with
  | 9%N | 10%N | 11%N | 12%N | 13%N | 32%N | 160%N => true
  | _ => false
  end.

Fixpoint skipWhite (s : string) : string :=
  match s with
  | String c s' => if isWhite c then skipWhite s' else s
  | EmptyString => s
  end.

(** The decimal digit a code unit stands for, as the constructor that
    prepends it to a numeral. *)
Definition digit (c : ascii) : option (Decimal.uint -> Decimal.uint) :=
  match N_of_ascii c with
  | 48%N => Some Decimal.D0 | 49%N => Some Decimal.D1 | 50%N => Some Decimal.D2
  | 51%N => Some Decimal.D3 | 52%N => Some Decimal.D4 | 53%N => Some Decimal.D5
  | 54%N => Some Decimal.D6 | 55%N => Some Decimal.D7 | 56%N => Some Decimal.D8
  | 57%N => Some Decimal.D9
  | _ => None
  end.

(** The longest prefix of decimal digits, and the text after it. *)
Fixpoint takeDigits (s : string) : Decimal.uint * string :=
  match s with
  | String c s' =>
      match digit c with
      | Some d => let (u, r) := takeDigits s' in (d u, r)
      | None => (Decimal.Nil, s)
      end
  | EmptyString => (Decimal.Nil, s)
  end.

(** [s] does not go on with a digit. *)
Definition noDigitHead (s : string) : Prop :=
  match s with
  | String c _ => digit c = None
  | EmptyString => True
  end.

(** The number a run of leading digits denotes; NaN when there is none. *)
Definition leadingInt (s : string) : option Z :=
  match fst (takeDigits s) with
  | Decimal.Nil => None
  | u => Some (Z.of_uint u)
  end.

(** The integer that [parseInt(s, 10)] reads, before it is made a number;
    [None] when there is no digit to read. *)
Definition readInt (s : string) : option Z :=
  match skipWhite s with
  | String "-" s' => option_map Z.opp (leadingInt s')
  | String "+" s' => leadingInt s'
  | s' => leadingInt s'
  end.

(** The numbers of the program: NaN, and the doubles with an integer
    value. *)
Inductive t : Type :=
| NaN
| Int (z : Z).

(** The double nearest to the integer [z], the even significand winning a
    tie: an integer below 2^53 in magnitude is a double, and above that the
    doubles are [ulp] apart. *)
Definition round53 (z : Z) : Z :=
  let a := Z.abs z in
  if a <? 2 ^ 53 then z
  else
    let ulp := 2 ^ (Z.log2 a - 52) in
    let q := a / ulp in
    let r := a mod ulp in
    let q' := if 2 * r <? ulp then q
              else if ulp <? 2 * r then q + 1
              else if Z.even q then q else q + 1 in
    Z.sgn z * (q' * ulp).

(** [parseInt(s, 10)].  Past 20 significant digits the language leaves the
    result to the implementation. *)
Definition parseInt (s : string) : outcome t :=
  match readInt s with
  | Some n => if Z.abs n <? 10 ^ 20 then Ok (Int (round53 n)) else Beyond
  | None => Ok NaN
  end.

(** [n.toString()] for the number [n].  Above 2^53 the text is the shortest
    numeral that reads back as [n], which is outside the fragment. *)
Definition print (n : Z) : outcome string :=
  if Z.abs n <=? 2 ^ 53 then Ok (toString n) else Beyond.

End Num.

(** ** Bytes: UTF-8 and base64

    A byte is an [ascii] too; [Utf8] goes between the code units of a string
    and the bytes of a [Buffer]. *)

Definition bytes := list ascii.

Module Utf8.

(** [Buffer.from(s, 'utf8')]: one byte below U+0080, two bytes from there. *)
Definition encodeChar (c : ascii) : bytes :=
  let n := N_of_ascii c in
  if (n <? 128)%N then [c]
  else [ascii_of_N (192 + n / 64); ascii_of_N (128 + n mod 64)].

Fixpoint encode (s : string) : bytes :=
  match s with
  | EmptyString => []
  | String c s' => (encodeChar c ++ encode s')%list
  end.

(** [buf.toString('utf8')].  Bytes that decode to U+0100 and above, and
    ill-formed bytes (which decode to U+FFFD), give text outside the
    fragment. *)
Fixpoint decode (b : bytes) : outcome string :=
  match b with
  | [] => Ok EmptyString
  | x :: b' =>
      let n := N_of_ascii x in
      if (n <? 128)%N then bindO (decode b') (fun s => Ok (String x s))
      else
        match b' with
        | y :: b'' =>
            let m := N_of_ascii y in
            if ((n =? 194)%N || (n =? 195)%N) && (128 <=? m)%N && (m <? 192)%N
            then bindO (decode b'')
                   (fun s => Ok (String (ascii_of_N ((n - 192) * 64 + (m - 128))) s))
            else Beyond
        | [] => Beyond
        end
  end.

End Utf8.

Module Base64.

(** The character of a six-bit value in the standard alphabet. *)
Definition char (v : N) : ascii :=
  if (v <? 26)%N then ascii_of_N (65 + v)
  else if (v <? 52)%N then ascii_of_N (71 + v)
  else if (v <? 62)%N then ascii_of_N (v - 4)
  else if (v =? 62)%N then "+"%char
  else "/"%char.

(** The six-bit value of a character of the standard alphabet. *)
Definition value (c : ascii) : option N :=
  let n := N_of_ascii c in
  if Str.between 65 90 c then Some (n - 65)%N
  else if Str.between 97 122 c then Some (n - 71)%N
  else if Str.between 48 57 c then Some (n + 4)%N
  else if (n =? 43)%N then Some 62%N
  else if (n =? 47)%N then Some 63%N
  else None.

Definition pad : ascii := "="%char.

(** [buf.toString('base64')]. *)
Fixpoint encode (b : bytes) : string :=
  match b with
  | [] => EmptyString
  | [x] =>
      let n := N_of_ascii x in
      String (char (n / 4)) (String (char (n mod 4 * 16))
        (String pad (String pad EmptyString)))
  | [x; y] =>
      let n := N_of_ascii x in
      let m := N_of_ascii y in
      String (char (n / 4)) (String (char (n mod 4 * 16 + m / 16))
        (String (char (m mod 16 * 4)) (String pad EmptyString)))
  | x :: y :: z :: b' =>
      let n := N_of_ascii x in
      let m := N_of_ascii y in
      let k := N_of_ascii z in
      String (char (n / 4)) (String (char (n mod 4 * 16 + m / 16))
        (String (char (m mod 16 * 4 + k / 64)) (String (char (k mod 64))
          (encode b'))))
  end.

(** [Buffer.from(s, 'base64')] on padded text in the standard alphabet.
    Node reads other text leniently (it skips foreign characters, accepts the
    URL-safe alphabet and missing padding); that is outside the fragment. *)
Fixpoint decode (s : string) : outcome bytes :=
  match s with
  | EmptyString => Ok []
  | String c0 (String c1 (String c2 (String c3 s'))) =>
      match value c0, value c1 with
      | Some v0, Some v1 =>
          let x := ascii_of_N (v0 * 4 + v1 / 16) in
          match value c2, value c3, s' with
          | Some v2, Some v3, _ =>
              bindO (decode s') (fun b =>
                Ok (x :: ascii_of_N (v1 mod 16 * 16 + v2 / 4)
                      :: ascii_of_N (v2 mod 4 * 64 + v3) :: b))
          | Some v2, None, EmptyString =>
              if Ascii.eqb c3 pad
              then Ok [x; ascii_of_N (v1 mod 16 * 16 + v2 / 4)]
              else Beyond
          | None, None, EmptyString =>
              if Ascii.eqb c2 pad && Ascii.eqb c3 pad then Ok [x] else Beyond
          | _, _, _ => Beyond
          end
      | _, _ => Beyond
      end
  | _ => Beyond
  end.

End Base64.

(** ** JSON

    A value read from or written as JSON.  An object is the list of its own
    properties in enumeration order.  A number is an integer; JSON text
    with a fraction or an exponent is outside the fragment. *)

#[local] Unset Elimination Schemes.

Inductive JSValue : Type :=
| JNull
| JBool (b : bool)
| JNum (n : Z)
| JStr (s : string)
| JArr (items : list JSValue)
| JObj (props : list (string * JSValue)).

#[local] Set Elimination Schemes.

Module JSON.

Definition dquote : ascii := "034"%char.
Definition backslash : ascii := "\"%char.

Definition hexChar (v : N) : ascii :=
  if (v <? 10)%N then ascii_of_N (48 + v) else ascii_of_N (87 + v).

Definition hexValue (c : ascii) : option N :=
  let n := N_of_ascii c in
  if Str.between 48 57 c then Some (n - 48)%N
  else if Str.between 97 102 c then Some (n - 87)%N
  else if Str.between 65 70 c then Some (n - 55)%N
  else None.

(** QuoteJSONString, one code unit at a time. *)
Definition quoteChar (c : ascii) : string :=
  match N_of_ascii c with
  | 8%N => "\b"
  | 9%N => "\t"
  | 10%N => "\n"
  | 12%N => "\f"
  | 13%N => "\r"
  | 34%N => String backslash (String dquote EmptyString)
  | 92%N => "\\"
  | n =>
      if (n <? 32)%N
      then "\u00" ++ String (hexChar (n / 16)) (String (hexChar (n mod 16)) EmptyString)
      else String c EmptyString
  end.

Fixpoint quoteBody (s : string) : string :=
  match s with
  | EmptyString => EmptyString
  | String c s' => quoteChar c ++ quoteBody s'
  end.

Definition quote (s : string) : string :=
  String dquote (quoteBody s ++ String dquote EmptyString).

(** The texts of the items of a list, separated by commas. *)
Fixpoint commas {A : Type} (f : A -> string) (l : list A) : string :=
  match l with
  | [] => EmptyString
  | x :: l' =>
      match l' with
      | [] => f x
      | _ :: _ => f x ++ "," ++ commas f l'
      end
  end.

(** A property: its name, a colon, and the text [f] gives its value. *)
Definition memberText (f : JSValue -> string) (p : string * JSValue) : string :=
  quote (fst p) ++ ":" ++ f (snd p).

(** [JSON.stringify(v)], without indentation. *)
Fixpoint stringify (v : JSValue) : string :=
  match v with
  | JNull => "null"
  | JBool true => "true"
  | JBool false => "false"
  | JNum n => Num.toString n
  | JStr s => quote s
  | JArr items => "[" ++ commas stringify items ++ "]"
  | JObj props => "{" ++ commas (memberText stringify) props ++ "}"
  end.

Definition isWs (c : ascii) : bool :=
  match N_of_ascii c with
  | 9%N | 10%N | 13%N | 32%N => true
  | _ => false
  end.

Fixpoint skipWs (s : string) : string :=
  match s with
  | String c s' => if isWs c then skipWs s' else s
  | EmptyString => s
  end.

(** The character an escape letter stands for. *)
Definition unescape (e : ascii) : option ascii :=
  match N_of_ascii e with
  | 34%N => Some dquote
  | 92%N => Some backslash
  | 47%N => Some "/"%char
  | 98%N => Some (ascii_of_N 8)
  | 102%N => Some (ascii_of_N 12)
  | 110%N => Some (ascii_of_N 10)
  | 114%N => Some (ascii_of_N 13)
  | 116%N => Some (ascii_of_N 9)
  | _ => None
  end.

(** The code unit of the four hex digits of a [\u] escape. *)
Definition hex4 (a b c d : ascii) : outcome ascii :=
  match hexValue a, hexValue b, hexValue c, hexValue d with
  | Some x, Some y, Some z, Some w =>
      let n := (x * 4096 + y * 256 + z * 16 + w)%N in
      if (n <? 256)%N then Ok (ascii_of_N n) else Beyond
  | _, _, _, _ => Throw
  end.

Definition consFst (c : ascii) (p : string * string) : outcome (string * string) :=
  Ok (String c (fst p), snd p).

(** A string literal after its opening quote: its value and the text after
    the closing quote. *)
Fixpoint stringBody (s : string) : outcome (string * string) :=
  match s with
  | EmptyString => Throw
  | String c s' =>
      if Ascii.eqb c dquote then Ok (EmptyString, s')
      else if Ascii.eqb c backslash then
        match s' with
        | String e s'' =>
            if Ascii.eqb e "u" then
              match s'' with
              | String h1 (String h2 (String h3 (String h4 s3))) =>
                  bindO (hex4 h1 h2 h3 h4) (fun x => bindO (stringBody s3) (consFst x))
              | _ => Throw
              end
            else
              match unescape e with
              | Some x => bindO (stringBody s'') (consFst x)
              | None => Throw
              end
        | EmptyString => Throw
        end
      else if (N_of_ascii c <? 32)%N then Throw
      else bindO (stringBody s') (consFst c)
  end.

(** [s] without the keyword [kw] it starts with. *)
Definition keyword (kw s : string) : option string :=
  if Str.startsWith s kw then Some (Str.drop (String.length kw) s) else None.

Definition startsFraction (s : string) : bool :=
  match s with
  | String c _ => Ascii.eqb c "." || Ascii.eqb c "e" || Ascii.eqb c "E"
  | EmptyString => false
  end.

(** A number: an optional minus sign and an integer with no leading zero. *)
Definition number (s : string) : outcome (Z * string) :=
  let (neg, s1) :=
    match s with
    | String "-" r => (true, r)
    | _ => (false, s)
    end in
  let (u, r) := Num.takeDigits s1 in
  match u with
  | Decimal.Nil => Throw
  | _ =>
      if negb (Decimal.uint_beq (Decimal.unorm u) u) then Throw
      else if startsFraction r then Beyond
      else Ok (if neg then Z.opp (Z.of_uint u) else Z.of_uint u, r)
  end.

Definition pairUp {A B C : Type} (a : A) (p : B * C) : outcome ((A * B) * C) :=
  Ok ((a, fst p), snd p).

Definition consUp {A C : Type} (a : A) (p : list A * C) : outcome (list A * C) :=
  Ok (a :: fst p, snd p).

(** One JSON value at the head of [s] (after white space) and the text
    after it.  [elements] reads the items of an array after its opening
    bracket or a comma, up to and including the closing bracket; [members]
    does so for the properties of an object.  Every call passes a smaller
    [fuel] on; [parse] below starts with more than the text can use. *)
Fixpoint value (fuel : nat) (s : string) : outcome (JSValue * string) :=
  match fuel with
  | O => Beyond
  | S fuel' =>
      match skipWs s with
      | EmptyString => Throw
      | String c r =>
          if Ascii.eqb c dquote then
            bindO (stringBody r) (fun p => Ok (JStr (fst p), snd p))
          else if Ascii.eqb c "[" then
            match skipWs r with
            | String "]" r' => Ok (JArr [], r')
            | _ => bindO (elements fuel' r) (fun p => Ok (JArr (fst p), snd p))
            end
          else if Ascii.eqb c "{" then
            match skipWs r with
            | String "}" r' => Ok (JObj [], r')
            | _ => bindO (members fuel' r) (fun p => Ok (JObj (fst p), snd p))
            end
          else
            match keyword "null" (String c r), keyword "true" (String c r),
                  keyword "false" (String c r) with
            | Some r', _, _ => Ok (JNull, r')
            | _, Some r', _ => Ok (JBool true, r')
            | _, _, Some r' => Ok (JBool false, r')
            | None, None, None =>
                bindO (number (String c r)) (fun p => Ok (JNum (fst p), snd p))
            end
      end
  end
with elements (fuel : nat) (s : string) : outcome (list JSValue * string) :=
  match fuel with
  | O => Beyond
  | S fuel' =>
      bindO (value fuel' s) (fun p =>
        match skipWs (snd p) with
        | String "," r => bindO (elements fuel' r) (consUp (fst p))
        | String "]" r => Ok ([fst p], r)
        | _ => Throw
        end)
  end
with members (fuel : nat) (s : string) : outcome (list (string * JSValue) * string) :=
  match fuel with
  | O => Beyond
  | S fuel' =>
      match skipWs s with
      | String c r =>
          if Ascii.eqb c dquote then
            bindO (stringBody r) (fun k =>
              match skipWs (snd k) with
              | String ":" r1 =>
                  bindO (value fuel' r1) (fun p =>
                    match skipWs (snd p) with
                    | String "," r2 =>
                        bindO (members fuel' r2) (consUp (fst k, fst p))
                    | String "}" r2 => Ok ([(fst k, fst p)], r2)
                    | _ => Throw
                    end)
              | _ => Throw
              end)
          else Throw
      | EmptyString => Throw
      end
  end.

(** [JSON.parse(s)]. *)
Definition parse (s : string) : outcome JSValue :=
  bindO (value (S (String.length s)) s) (fun p =>
    match skipWs (snd p) with
    | EmptyString => Ok (fst p)
    | _ => Throw
    end).

(** [o.k] for a property name [k] that no prototype defines: the last
    binding of [k] in an object, [undefined] ([None]) otherwise. *)
Fixpoint lookup (k : string) (props : list (string * JSValue)) : option JSValue :=
  match props with
  | [] => None
  | (k', x) :: l =>
      match lookup k l with
      | Some y => Some y
      | None => if String.eqb k k' then Some x else None
      end
  end.

Definition prop (v : JSValue) (k : string) : option JSValue :=
  match v with
  | JObj props => lookup k props
  | _ => None
  end.

(** [v?.[0]] for an optional [v]. *)
Definition first (v : option JSValue) : option JSValue :=
  match v with
  | Some (JArr (x :: _)) => Some x
  | Some (JStr (String c _)) => Some (JStr (String c EmptyString))
  | Some (JObj props) => lookup "0" props
  | _ => None
  end.

(** Truthiness of a value. *)
Definition truthy (v : JSValue) : bool :=
  match v with
  | JNull => false
  | JBool b => b
  | JNum n => negb (n =? 0)
  | JStr s => Str.truthy s
  | JArr _ | JObj _ => true
  end.

(** [typeof v === 'object']. *)
Definition isObject (v : JSValue) : bool :=
  match v with
  | JNull | JArr _ | JObj _ => true
  | _ => false
  end.

(** [typeof o.k === 'string' ? o.k : undefined]. *)
Definition stringProp (v : JSValue) (k : string) : option string :=
  match prop v k with
  | Some (JStr s) => Some s
  | _ => None
  end.

(** The text after a value ends, or goes on with a comma or a closing
    bracket. *)
Definition closes (rest : string) : Prop :=
  match rest with
  | EmptyString => True
  | String c _ => c = ","%char \/ c = "]"%char \/ c = "}"%char
  end.

(** The text starts with a character that is neither white space nor a
    closing bracket. *)
Definition opens (s : string) : Prop :=
  match s with
  | String c _ => isWs c = false /\ c <> "]"%char /\ c <> "}"%char
  | EmptyString => False
  end.

(** Fuel that suffices to read a value back. *)
Fixpoint weight (v : JSValue) : nat :=
  match v with
  | JArr items => S (list_sum (map (fun x => S (weight x)) items))
  | JObj props => S (list_sum (map (fun p => S (weight (snd p))) props))
  | _ => 1
  end.

(** [value] reads the text of [v] back, whatever follows it. *)
Definition reads (v : JSValue) : Prop :=
  forall fuel rest,
    (weight v <= fuel)%nat -> closes rest ->
    value fuel (stringify v ++ rest) = Ok (v, rest).

End JSON.

(** * header-factory.ts *)

Module RouterConfig.
Record t : Type := mk {
  network : string;
  asset : string;
  payTo : string;
  facilitatorSigner : string;
  tokenName : string;
  tokenVersion : string;
  paymentHeader : option string
}.
End RouterConfig.

(** The wire shape.  Its two constant fields, [x402Version: 2] and
    [scheme: 'upto'], appear in [toJS]. *)
Module PaymentPayload.
Record Extra : Type := mkExtra { name : string; version : string }.
Record Accepted : Type := mkAccepted {
  network : string;
  asset : string;
  payTo : string;
  extra : Extra
}.
Record Authorization : Type := mkAuthorization {
  from : string;
  to : string;
  value : string;
  validBefore : string;
  nonce : string
}.
Record Payload : Type := mkPayload {
  authorization : Authorization;
  signature : string
}.
Record t : Type := mk { accepted : Accepted; payload : Payload }.

(** The object a payload is, property by property in creation order. *)
Definition toJS (p : t) : JSValue :=
  JObj [
    ("x402Version", JNum 2);
    ("accepted", JObj [
       ("scheme", JStr "upto");
       ("network", JStr (network (accepted p)));
       ("asset", JStr (asset (accepted p)));
       ("payTo", JStr (payTo (accepted p)));
       ("extra", JObj [
          ("name", JStr (name (extra (accepted p))));
          ("version", JStr (version (extra (accepted p))))])]);
    ("payload", JObj [
       ("authorization", JObj [
          ("from", JStr (from (authorization (payload p))));
          ("to", JStr (to (authorization (payload p))));
          ("value", JStr (value (authorization (payload p))));
          ("validBefore", JStr (validBefore (authorization (payload p))));
          ("nonce", JStr (nonce (authorization (payload p))))]);
       ("signature", JStr (signature (payload p)))])].
End PaymentPayload.

Module SignatureInput.
Record t : Type := mk {
  network : string;
  asset : string;
  payTo : string;
  facilitatorSigner : string;
  tokenName : string;
  tokenVersion : string;
  permitCap : string;
  minDeadlineExclusive : option Num.t
}.
End SignatureInput.

Module SignatureOutput.
Record t : Type := mk {
  signature : string;
  nonce : string;
  deadline : string;
  accountAddress : string
}.
End SignatureOutput.

Module CachedHeader.
Record t : Type := mk {
  value : string;
  deadline : Num.t;
  maxValue : string;
  network : string;
  asset : string;
  payTo : string
}.
End CachedHeader.

Module HeaderResult.
Record t : Type := mk {
  headerName : string;
  headerValue : string;
  deadline : Num.t
}.
End HeaderResult.

(** The [options] argument of [getHeader]. *)
Module Options.
Record t : Type := mk {
  capOverride : option string;
  minDeadlineExclusive : option Num.t
}.
End Options.

Definition PRE_INVALIDATE_WINDOW_SECONDS : Z := 60.

Definition encodePaymentPayload (payload : PaymentPayload.t) : string :=
  Base64.encode (Utf8.encode (JSON.stringify (PaymentPayload.toJS payload))).

(** The parsed object, which the source casts to [PaymentPayload] unchecked. *)
Definition decodePaymentPayload (encoded : string) : outcome JSValue :=
  bindO (Base64.decode encoded) (fun b =>
  bindO (Utf8.decode b) (fun decoded =>
  JSON.parse decoded)).

Definition buildPaymentPayload (config : RouterConfig.t)
  (accountAddress permitCap signature nonce deadline : string) : PaymentPayload.t :=
  PaymentPayload.mk
    (PaymentPayload.mkAccepted
       (RouterConfig.network config)
       (RouterConfig.asset config)
       (RouterConfig.payTo config)
       (PaymentPayload.mkExtra
          (RouterConfig.tokenName config)
          (RouterConfig.tokenVersion config)))
    (PaymentPayload.mkPayload
       (PaymentPayload.mkAuthorization
          accountAddress
          (RouterConfig.facilitatorSigner config)
          permitCap
          deadline
          nonce)
       signature).

(** The closure state of [createPaymentHeaderFactory]: the [permitCap] it
    was created with, and its two variables. *)
Module Factory.
Record t : Type := mk {
  permitCap : string;
  config : RouterConfig.t;
  cached : option CachedHeader.t
}.
End Factory.

(** The world the collaborators act on, and the calls the signing function
    has received, oldest first. *)
Module Run.
Record t (W : Type) : Type := mk {
  world : W;
  signed : list SignatureInput.t
}.
Arguments mk {W} world signed.
Arguments world {W} _.
Arguments signed {W} _.
End Run.

(** [Math.floor(Date.now() / 1000)], [Date.now()] being [ms]. *)
Definition secondsOf (ms : Z) : Z := ms / 1000.

Module HeaderFactory.

Definition createPaymentHeaderFactory (config : RouterConfig.t) (permitCap : string)
  : Factory.t :=
  Factory.mk permitCap config None.

Definition invalidate (f : Factory.t) : Factory.t :=
  Factory.mk (Factory.permitCap f) (Factory.config f) None.

Definition updateConfig (nextConfig : RouterConfig.t) (f : Factory.t) : Factory.t :=
  Factory.mk (Factory.permitCap f) nextConfig (Factory.cached f).

Definition getConfig (f : Factory.t) : RouterConfig.t := Factory.config f.

(** [config.paymentHeader || 'PAYMENT-SIGNATURE']. *)
Definition headerNameOf (config : RouterConfig.t) : string :=
  orElse (RouterConfig.paymentHeader config) "PAYMENT-SIGNATURE".

Section Signing.

Variable W : Type.

(** [Date.now()], in milliseconds. *)
Variable Date_now : W -> Z.

(** The injected [SignatureFn]. *)
Variable signatureFn : SignatureInput.t -> W -> outcome SignatureOutput.t * W.

(** [deadline - now <= 60].  A comparison with NaN is false; the
    difference of two integers is an integer, so that rounding it to a
    double does not move it across 60. *)
Definition isNearDeadline (deadline : Num.t) (w : W) : bool :=
  match deadline with
  | Num.Int d => d - secondsOf (Date_now w) <=? PRE_INVALIDATE_WINDOW_SECONDS
  | Num.NaN => false
  end.

(** [options?.capOverride || input.permitCap]. *)
Definition capOf (options : option Options.t) (f : Factory.t) : string :=
  orElse (match options with
          | Some o => Options.capOverride o
          | None => None
          end) (Factory.permitCap f).

(** [options?.minDeadlineExclusive]. *)
Definition minDeadlineOf (options : option Options.t) : option Num.t :=
  match options with
  | Some o => Options.minDeadlineExclusive o
  | None => None
  end.

(** [options?.minDeadlineExclusive !== undefined]. *)
Definition forceRefreshOf (options : option Options.t) : bool :=
  match minDeadlineOf options with
  | Some _ => true
  | None => false
  end.

(** The condition under which [getHeader] answers from the cache entry
    [c]: the conjuncts that follow [cached &&]. *)
Definition usable (options : option Options.t) (f : Factory.t) (w : W)
  (c : CachedHeader.t) : bool :=
  negb (forceRefreshOf options) &&
  String.eqb (CachedHeader.maxValue c) (capOf options f) &&
  String.eqb (CachedHeader.network c) (RouterConfig.network (Factory.config f)) &&
  String.eqb (CachedHeader.asset c) (RouterConfig.asset (Factory.config f)) &&
  String.eqb (CachedHeader.payTo c) (RouterConfig.payTo (Factory.config f)) &&
  negb (isNearDeadline (CachedHeader.deadline c) w).

(** [deadline] is outside the window at [w]: more than 60 seconds after
    the clock, or NaN. *)
Definition outsideWindow (deadline : Num.t) (w : W) : Prop :=
  match deadline with
  | Num.Int d => d - secondsOf (Date_now w) > 60
  | Num.NaN => True
  end.

(** The same condition as a proposition: no forced refresh, the cap and
    the domain tuple of the entry are the current ones, and the deadline is
    outside the window. *)
Definition reusable (options : option Options.t) (f : Factory.t) (w : W)
  (c : CachedHeader.t) : Prop :=
  minDeadlineOf options = None /\
  CachedHeader.maxValue c = capOf options f /\
  (CachedHeader.network c = RouterConfig.network (Factory.config f) /\
   CachedHeader.asset c = RouterConfig.asset (Factory.config f) /\
   CachedHeader.payTo c = RouterConfig.payTo (Factory.config f)) /\
  outsideWindow (CachedHeader.deadline c) w.

(** The whole condition of the [if]: [cached && ...]. *)
Definition cacheHit (options : option Options.t) (f : Factory.t) (w : W) : bool :=
  match Factory.cached f with
  | Some c => usable options f w c
  | None => false
  end.

(** The argument [getHeader] passes to the signing function. *)
Definition signatureInputOf (options : option Options.t) (f : Factory.t)
  : SignatureInput.t :=
  let config := Factory.config f in
  SignatureInput.mk
    (RouterConfig.network config)
    (RouterConfig.asset config)
    (RouterConfig.payTo config)
    (RouterConfig.facilitatorSigner config)
    (RouterConfig.tokenName config)
    (RouterConfig.tokenVersion config)
    (capOf options f)
    (minDeadlineOf options).

(** The second half of [getHeader]: sign, assemble, encode, and replace the
    cache.  A deadline that does not parse is cached as NaN. *)
Definition refresh (options : option Options.t) (f : Factory.t) (r : Run.t W)
  : outcome HeaderResult.t * Factory.t * Run.t W :=
  let config := Factory.config f in
  let cap := capOf options f in
  let input := signatureInputOf options f in
  let (res, w') := signatureFn input (Run.world r) in
  let r' := Run.mk w' (Run.signed r ++ [input])%list in
  match res with
  | Ok signature =>
      let payload :=
        buildPaymentPayload config
          (SignatureOutput.accountAddress signature) cap
          (SignatureOutput.signature signature)
          (SignatureOutput.nonce signature)
          (SignatureOutput.deadline signature) in
      let encoded := encodePaymentPayload payload in
      match Num.parseInt (SignatureOutput.deadline signature) with
      | Ok deadline =>
          (Ok (HeaderResult.mk (headerNameOf config) encoded deadline),
           Factory.mk (Factory.permitCap f) config
             (Some (CachedHeader.mk encoded deadline cap
                      (RouterConfig.network config)
                      (RouterConfig.asset config)
                      (RouterConfig.payTo config))),
           r')
      | Throw => (Throw, f, r')
      | Beyond => (Beyond, f, r')
      end
  | Throw => (Throw, f, r')
  | Beyond => (Beyond, f, r')
  end.

(** [getHeader(options)]: the result, the factory and the run after it. *)
Definition getHeader (options : option Options.t) (f : Factory.t) (r : Run.t W)
  : outcome HeaderResult.t * Factory.t * Run.t W :=
  match Factory.cached f with
  | Some c =>
      if usable options f (Run.world r) c
      then (Ok (HeaderResult.mk (headerNameOf (Factory.config f))
                  (CachedHeader.value c) (CachedHeader.deadline c)), f, r)
      else refresh options f r
  | None => refresh options f r
  end.

End Signing.

(** A cache entry made by [getHeader]: its value encodes a payload that
    carries the entry's cap and deadline. *)
Definition entryConsistent (c : CachedHeader.t) : Prop :=
  exists p : PaymentPayload.t,
    CachedHeader.value c = encodePaymentPayload p /\
    PaymentPayload.value (PaymentPayload.authorization (PaymentPayload.payload p)) =
    CachedHeader.maxValue c /\
    Num.parseInt
      (PaymentPayload.validBefore (PaymentPayload.authorization (PaymentPayload.payload p))) =
    Ok (CachedHeader.deadline c).

Definition consistent (f : Factory.t) : Prop :=
  forall c, Factory.cached f = Some c -> entryConsistent c.

End HeaderFactory.

(** * signature-sources.ts *)

Definition DEFAULT_VALIDITY_SECONDS : Z := 3600.

Inductive Chain : Type := base | baseSepolia | mainnet.

(** The names every object inherits from [Object.prototype]; looking one
    of them up in [CHAINS] does not give a chain. *)
Definition inheritedName (k : string) : bool :=
  existsb (String.eqb k)
    ["constructor"; "toString"; "toLocaleString"; "valueOf"; "hasOwnProperty";
     "isPrototypeOf"; "propertyIsEnumerable"; "__proto__"; "__defineGetter__";
     "__defineSetter__"; "__lookupGetter__"; "__lookupSetter__"].

(** [CHAINS[network] || base]. *)
Definition chainOf (network : string) : outcome Chain :=
  if String.eqb network "eip155:8453" then Ok base
  else if String.eqb network "eip155:84532" then Ok baseSepolia
  else if String.eqb network "eip155:1" then Ok mainnet
  else if inheritedName network then Beyond
  else Ok base.

(** [parseInt(network.split(':')[1], 10)]; [parseInt(undefined, 10)] is
    NaN. *)
Definition chainIdOf (network : string) : outcome Num.t :=
  match Str.split_1 ":" network with
  | Some s => Num.parseInt s
  | None => Ok Num.NaN
  end.

Fixpoint trimEnd (s : string) : string :=
  match s with
  | EmptyString => EmptyString
  | String c s' =>
      match trimEnd s' with
      | EmptyString => if Num.isWhite c then EmptyString else String c EmptyString
      | t => String c t
      end
  end.

(** The digits of [s] when it consists of decimal digits only. *)
Definition allDigits (s : string) : option Z :=
  match Num.takeDigits s with
  | (Decimal.Nil, _) => None
  | (u, EmptyString) => Some (Z.of_uint u)
  | (_, _) => None
  end.

(** [BigInt(s)] for a string: white space around it is dropped, the empty
    string is zero, a decimal numeral may carry a sign.  The prefixed
    binary, octal and hexadecimal numerals are outside the fragment. *)
Definition BigInt (s : string) : outcome Z :=
  match trimEnd (Num.skipWhite s) with
  | EmptyString => Ok 0
  | String "-" t =>
      match allDigits t with Some n => Ok (- n) | None => Throw end
  | String "+" t =>
      match allDigits t with Some n => Ok n | None => Throw end
  | String "0" (String c t) =>
      if existsb (Ascii.eqb c) ["x"; "X"; "o"; "O"; "b"; "B"]%char then Beyond
      else match allDigits (String "0" (String c t)) with
           | Some n => Ok n
           | None => Throw
           end
  | t => match allDigits t with Some n => Ok n | None => Throw end
  end.

(** Lines 80 to 83: the deadline of a fresh permit, [now] being the clock
    in seconds.  [deadline <= NaN] is false, and the sum
    [minDeadlineExclusive + 1] is a double. *)
Definition permitDeadline (now : Z) (minDeadlineExclusive : option Num.t) : Z :=
  let deadline := now + DEFAULT_VALIDITY_SECONDS in
  match minDeadlineExclusive with
  | Some (Num.Int m) => if deadline <=? m then Num.round53 (m + 1) else deadline
  | Some Num.NaN => deadline
  | None => deadline
  end.

(** What [wallet.signTypedData] is asked to sign. *)
Module TypedData.
Record t : Type := mk {
  name : string;
  version : string;
  chainId : Num.t;
  verifyingContract : string;
  owner : string;
  spender : string;
  value : Z;
  nonce : Z;
  deadline : Z
}.
End TypedData.

Section EnvPrivateKey.

Variable W : Type.
Variable Date_now : W -> Z.

(** viem's [privateKeyToAccount(key).address]. *)
Variable privateKeyToAccount : string -> outcome string.

(** [fetchPermitNonce(chain, token, owner)], an on-chain read. *)
Variable fetchPermitNonce : Chain -> string -> string -> W -> outcome Z * W.

(** viem's [wallet.signTypedData] for the account on the chain. *)
Variable signTypedData : Chain -> string -> TypedData.t -> W -> outcome string * W.

Definition createEnvPrivateKeySignatureFn (privateKey : string)
  (input : SignatureInput.t) (w : W) : outcome SignatureOutput.t * W :=
  match chainOf (SignatureInput.network input) with
  | Ok chain =>
      match chainIdOf (SignatureInput.network input) with
      | Ok chainId =>
          match privateKeyToAccount privateKey with
          | Ok account =>
              let deadline :=
                permitDeadline (secondsOf (Date_now w))
                  (SignatureInput.minDeadlineExclusive input) in
              let (fetched, w1) :=
                fetchPermitNonce chain (SignatureInput.asset input) account w in
              match fetched with
              | Ok nonceValue =>
                  let nonce := Num.toString nonceValue in
                  match BigInt (SignatureInput.permitCap input) with
                  | Ok value =>
                      let (signed, w2) :=
                        signTypedData chain account
                          (TypedData.mk
                             (SignatureInput.tokenName input)
                             (SignatureInput.tokenVersion input)
                             chainId
                             (SignatureInput.asset input)
                             account
                             (SignatureInput.facilitatorSigner input)
                             value nonceValue deadline) w1 in
                      match signed with
                      | Ok signature =>
                          match Num.print deadline with
                          | Ok text =>
                              (Ok (SignatureOutput.mk signature nonce text account), w2)
                          | Throw => (Throw, w2)
                          | Beyond => (Beyond, w2)
                          end
                      | Throw => (Throw, w2)
                      | Beyond => (Beyond, w2)
                      end
                  | Throw => (Throw, w1)
                  | Beyond => (Beyond, w1)
                  end
              | Throw => (Throw, w1)
              | Beyond => (Beyond, w1)
              end
          | Throw => (Throw, w)
          | Beyond => (Beyond, w)
          end
      | Throw => (Throw, w)
      | Beyond => (Beyond, w)
      end
  | Throw => (Throw, w)
  | Beyond => (Beyond, w)
  end.

End EnvPrivateKey.

(** [s.trim()]. *)
Definition trim (s : string) : string := trimEnd (Num.skipWhite s).

(** [[0-9a-fA-F]]. *)
Definition isHexDigit (c : ascii) : bool :=
  Str.between 48 57 c || Str.between 65 70 c || Str.between 97 102 c.

Fixpoint allHex (s : string) : bool :=
  match s with
  | EmptyString => true
  | String c s' => isHexDigit c && allHex s'
  end.

(** [PRIVATE_KEY_REGEX.test(s)], the pattern being [^0x[0-9a-fA-F]{64}$]. *)
Definition isPrivateKey (s : string) : bool :=
  match s with
  | String "0" (String "x" digits) =>
      Nat.eqb (String.length digits) 64 && allHex digits
  | _ => false
  end.

(** [normalizePrivateKey(value)]; [None] is [undefined] on the way in and
    [null] on the way out. *)
Definition normalizePrivateKey (value : option string) : option string :=
  match value with
  | None => None
  | Some v =>
      if negb (Str.truthy v) then None
      else
        let trimmed := trim v in
        let normalized :=
          if Str.startsWith trimmed "0X" then "0x" ++ Str.drop 2 trimmed
          else trimmed in
        if isPrivateKey normalized then Some normalized else None
  end.

Inductive SigningMode : Type := env_pk | static_header.

(** The two secrets [resolveX402SigningSource] reads. *)
Module Secrets.
Record t : Type := mk {
  X402_STATIC_PAYMENT_HEADER : option string;
  X402_PRIVATE_KEY : option string
}.
End Secrets.

Inductive X402SigningSource (W : Type) : Type :=
| SignatureSource (signatureFn : SignatureInput.t -> W -> outcome SignatureOutput.t * W)
| StaticHeaderSource (headerName headerValue : string).

Arguments SignatureSource {W} signatureFn.
Arguments StaticHeaderSource {W} headerName headerValue.

Section SigningSource.

Variable W : Type.
Variable Date_now : W -> Z.
Variable privateKeyToAccount : string -> outcome string.
Variable fetchPermitNonce : Chain -> string -> string -> W -> outcome Z * W.
Variable signTypedData : Chain -> string -> TypedData.t -> W -> outcome string * W.

Definition resolveX402SigningSource (signerMode : option SigningMode)
  (paymentHeader : option string) (secrets : Secrets.t)
  : outcome (X402SigningSource W) :=
  let mode := match signerMode with Some m => m | None => env_pk end in
  match mode with
  | static_header =>
      match option_map trim (Secrets.X402_STATIC_PAYMENT_HEADER secrets) with
      | Some headerValue =>
          if negb (Str.truthy headerValue) then Throw
          else Ok (StaticHeaderSource (orElse paymentHeader "PAYMENT-SIGNATURE")
                     headerValue)
      | None => Throw
      end
  | env_pk =>
      match normalizePrivateKey (Secrets.X402_PRIVATE_KEY secrets) with
      | Some normalized =>
          if negb (Str.truthy normalized) then Throw
          else Ok (SignatureSource
                     (createEnvPrivateKeySignatureFn W Date_now privateKeyToAccount
                        fetchPermitNonce signTypedData normalized))
      | None => Throw
      end
  end.

End SigningSource.

(** * config.ts *)

Module Config.

(** [process.env], and the object [readEnvFile] returned. *)
Record Env : Type := mkEnv {
  process_env : string -> option string;
  envConfig : string -> option string
}.

(** [process.env.K || envConfig.K || fallback]. *)
Definition setting (env : Env) (key fallback : string) : string :=
  orElse (process_env env key) (orElse (envConfig env key) fallback).

(** [(process.env.K || envConfig.K) === 'true']. *)
Definition flag (env : Env) (key : string) : bool :=
  match orOpt (process_env env key) (envConfig env key) with
  | Some s => String.eqb s "true"
  | None => false
  end.

Definition ASSISTANT_NAME (env : Env) : string := setting env "ASSISTANT_NAME" "Andy".

Definition ASSISTANT_HAS_OWN_NUMBER (env : Env) : bool :=
  flag env "ASSISTANT_HAS_OWN_NUMBER".

Definition AGENT_PROVIDER (env : Env) : string :=
  Str.toLowerCase (setting env "AGENT_PROVIDER" "claude").

Definition OPENAI_BASE_URL (env : Env) : string :=
  setting env "OPENAI_BASE_URL" "https://api.openai.com".

Definition OPENAI_API_PATH (env : Env) : string :=
  setting env "OPENAI_API_PATH" "/v1/chat/completions".

Definition OPENAI_MODEL (env : Env) : string := setting env "OPENAI_MODEL" "gpt-4o-mini".

Definition OPENAI_USE_X402 (env : Env) : bool := flag env "OPENAI_USE_X402".

Definition X402_ROUTER_URL (env : Env) : string :=
  setting env "X402_ROUTER_URL" (OPENAI_BASE_URL env).

Definition X402_NETWORK (env : Env) : string := setting env "X402_NETWORK" "eip155:8453".

Definition X402_PERMIT_CAP (env : Env) : string :=
  setting env "X402_PERMIT_CAP" "10000000".

Definition X402_SIGNER_MODE (env : Env) : string :=
  setting env "X402_SIGNER_MODE" "env_pk".

Definition X402_PAYMENT_HEADER (env : Env) : string :=
  setting env "X402_PAYMENT_HEADER" "PAYMENT-SIGNATURE".

(** [parseInt(process.env.K || fallback, 10)]. *)
Definition number (env : Env) (key fallback : string) : outcome Num.t :=
  Num.parseInt (orElse (process_env env key) fallback).

Definition CONTAINER_IMAGE (env : Env) : string :=
  orElse (process_env env "CONTAINER_IMAGE") "nanoclaw-agent:latest".

Definition CONTAINER_TIMEOUT (env : Env) : outcome Num.t :=
  number env "CONTAINER_TIMEOUT" "1800000".

Definition CONTAINER_MAX_OUTPUT_SIZE (env : Env) : outcome Num.t :=
  number env "CONTAINER_MAX_OUTPUT_SIZE" "10485760".

Definition IDLE_TIMEOUT (env : Env) : outcome Num.t :=
  number env "IDLE_TIMEOUT" "1800000".

(** [Math.max(1, parseInt(process.env.K || '5', 10) || 5)]: zero and NaN
    are falsy. *)
Definition MAX_CONCURRENT_CONTAINERS (env : Env) : outcome Z :=
  bindO (number env "MAX_CONCURRENT_CONTAINERS" "5") (fun read =>
    Ok (Z.max 1
          (match read with
           | Num.Int n => if n =? 0 then 5 else n
           | Num.NaN => 5
           end))).

End Config.

(** * client.ts *)

Module ErrorResponse.
Record t : Type := mk {
  code : option string;
  error : option string;
  message : option string
}.
End ErrorResponse.

Module PaymentRequiredExtra.
Record t : Type := mk {
  name : option string;
  version : option string;
  maxAmount : option string;
  max_amount : option string;
  maxAmountRequired : option string;
  max_amount_required : option string
}.
End PaymentRequiredExtra.

Module PaymentRequirement.
Record t : Type := mk {
  scheme : option string;
  network : option string;
  asset : option string;
  amount : option string;
  payTo : option string;
  pay_to : option string;
  extra : option PaymentRequiredExtra.t
}.
End PaymentRequirement.

Definition DEFAULT_USDC_BASE : string := "0x833589fCD6eDb6E08f4c7C32D4f71b54bdA02913".

(** [`${error ?? ''} ${message ?? ''}`.toLowerCase()]. *)
Definition normalizeErrorText (error message : option string) : string :=
  Str.toLowerCase (nullish error EmptyString ++ " " ++ nullish message EmptyString).

(** [error.code === c]. *)
Definition codeIs (error : ErrorResponse.t) (c : string) : bool :=
  match ErrorResponse.code error with
  | Some k => String.eqb k c
  | None => false
  end.

Definition isCapExhausted (error : ErrorResponse.t) : bool :=
  if codeIs error "cap_exhausted" then true
  else
    let text := normalizeErrorText (ErrorResponse.error error) (ErrorResponse.message error) in
    Str.includes text "cap exhausted".

Definition isSessionClosed (error : ErrorResponse.t) : bool :=
  if codeIs error "session_closed" then true
  else
    let text := normalizeErrorText (ErrorResponse.error error) (ErrorResponse.message error) in
    Str.includes text "session closed".

Definition isSettlementBlocked (error : ErrorResponse.t) : bool :=
  if codeIs error "settlement_blocked" then true
  else
    let text := normalizeErrorText (ErrorResponse.error error) (ErrorResponse.message error) in
    Str.includes text "settlement blocked" ||
    Str.includes text "blocked after previous settlement".

Definition shouldInvalidatePermit (error : ErrorResponse.t) : bool :=
  isCapExhausted error || isSessionClosed error || isSettlementBlocked error.

(** [a ?? b] on optional strings. *)
Definition firstDefined (a b : option string) : option string :=
  match a with
  | Some _ => a
  | None => b
  end.

Definition parseErrorResponse (data : JSValue) : option ErrorResponse.t :=
  if negb (JSON.truthy data) || negb (JSON.isObject data) then None
  else
    match JSON.stringProp data "code", JSON.stringProp data "error" with
    | None, None =>
        match JSON.prop data "error" with
        | Some nested =>
            if JSON.truthy nested && JSON.isObject nested then
              Some (ErrorResponse.mk
                      (firstDefined (JSON.stringProp nested "code")
                         (JSON.stringProp nested "type"))
                      (firstDefined (JSON.stringProp nested "message")
                         (JSON.stringProp nested "error"))
                      (JSON.stringProp nested "message"))
            else None
        | None => None
        end
    | code, error =>
        Some (ErrorResponse.mk code
                (firstDefined error (JSON.stringProp data "message"))
                (JSON.stringProp data "message"))
    end.

(** The parsed object, or [None] for [null]. *)
Definition decodePaymentRequiredHeader (value : string) : outcome (option JSValue) :=
  catchO
    (bindO (Base64.decode value) (fun b =>
     bindO (Utf8.decode b) (fun decoded =>
     bindO (JSON.parse decoded) (fun parsed =>
       if negb (JSON.truthy parsed) || negb (JSON.isObject parsed)
       then Ok None else Ok (Some parsed)))))
    (Ok None).

(** A property whose declared type is [string | undefined], read at that
    type: absent or [null] is [None]; a value of another type does not
    inhabit the interface. *)
Definition readString (v : JSValue) (k : string) : outcome (option string) :=
  match JSON.prop v k with
  | None | Some JNull => Ok None
  | Some (JStr s) => Ok (Some s)
  | Some _ => Beyond
  end.

(** The same for an optional holder, [v?.k]. *)
Definition readStringAt (v : option JSValue) (k : string) : outcome (option string) :=
  match v with
  | None | Some JNull => Ok None
  | Some x => readString x k
  end.

Definition readExtra (v : JSValue) : outcome (option PaymentRequiredExtra.t) :=
  match JSON.prop v "extra" with
  | None | Some JNull => Ok None
  | Some (JObj props) =>
      let x := JObj props in
      bindO (readString x "name") (fun name =>
      bindO (readString x "version") (fun version =>
      bindO (readString x "maxAmount") (fun maxAmount =>
      bindO (readString x "max_amount") (fun max_amount =>
      bindO (readString x "maxAmountRequired") (fun maxAmountRequired =>
      bindO (readString x "max_amount_required") (fun max_amount_required =>
      Ok (Some (PaymentRequiredExtra.mk name version maxAmount max_amount
                  maxAmountRequired max_amount_required))))))))
  | Some _ => Beyond
  end.

(** A truthy element of [accepts], read as a [PaymentRequirement]. *)
Definition readRequirement (v : JSValue) : outcome PaymentRequirement.t :=
  bindO (readString v "scheme") (fun scheme =>
  bindO (readString v "network") (fun network =>
  bindO (readString v "asset") (fun asset =>
  bindO (readString v "amount") (fun amount =>
  bindO (readString v "payTo") (fun payTo =>
  bindO (readString v "pay_to") (fun pay_to =>
  bindO (readExtra v) (fun extra =>
  Ok (PaymentRequirement.mk scheme network asset amount payTo pay_to extra)))))))).

(** [decoded?.accepts?.[0]], when it is truthy. *)
Definition firstRequirement (decoded : option JSValue)
  : outcome (option PaymentRequirement.t) :=
  match decoded with
  | Some d =>
      match JSON.first (JSON.prop d "accepts") with
      | Some v =>
          if JSON.truthy v
          then bindO (readRequirement v) (fun q => Ok (Some q))
          else Ok None
      | None => Ok None
      end
  | None => Ok None
  end.

(** [requirement.extra?.k]. *)
Definition extraField (k : PaymentRequiredExtra.t -> option string)
  (requirement : PaymentRequirement.t) : option string :=
  match PaymentRequirement.extra requirement with
  | Some x => k x
  | None => None
  end.

Definition getRequirementPayTo (requirement : option PaymentRequirement.t)
  : option string :=
  match requirement with
  | None => None
  | Some q =>
      orOpt (PaymentRequirement.payTo q) (orOpt (PaymentRequirement.pay_to q) None)
  end.

Definition getRequirementMaxAmountRequired (requirement : option PaymentRequirement.t)
  : option string :=
  match requirement with
  | None => None
  | Some q =>
      orOpt (extraField PaymentRequiredExtra.maxAmountRequired q)
        (orOpt (extraField PaymentRequiredExtra.max_amount_required q)
           (orOpt (extraField PaymentRequiredExtra.maxAmount q)
              (orOpt (extraField PaymentRequiredExtra.max_amount q)
                 (PaymentRequirement.amount q))))
  end.

Definition applyPaymentRequirement (config : RouterConfig.t)
  (requirement : option PaymentRequirement.t) : RouterConfig.t :=
  match requirement with
  | None => config
  | Some q =>
      let payTo := orElse (getRequirementPayTo requirement) (RouterConfig.payTo config) in
      RouterConfig.mk
        (orElse (PaymentRequirement.network q) (RouterConfig.network config))
        (orElse (PaymentRequirement.asset q) (RouterConfig.asset config))
        payTo
        (orElse (Some payTo) (RouterConfig.facilitatorSigner config))
        (orElse (extraField PaymentRequiredExtra.name q) (RouterConfig.tokenName config))
        (orElse (extraField PaymentRequiredExtra.version q)
           (RouterConfig.tokenVersion config))
        (RouterConfig.paymentHeader config)
  end.

(** ** The platform's request and response objects *)

(** A [Headers] object: its entries in insertion order, names in lower
    case. *)
Module Headers.

Definition t : Type := list (string * string).

(** The characters of an HTTP token. *)
Definition tokenChar (c : ascii) : bool :=
  Str.between 48 57 c || Str.between 65 90 c || Str.between 97 122 c ||
  existsb (Ascii.eqb c)
    ["!"; "#"; "$"; "%"; "&"; "'"; "*"; "+"; "-"; "."; "^"; "_"; "`"; "|"; "~"]%char.

Fixpoint allChars (p : ascii -> bool) (s : string) : bool :=
  match s with
  | EmptyString => true
  | String c s' => p c && allChars p s'
  end.

Definition validName (name : string) : bool :=
  Str.truthy name && allChars tokenChar name.

(** HTTP white space: tab, line feed, carriage return, space. *)
Definition httpWhite (c : ascii) : bool :=
  match N_of_ascii c with
  | 9%N | 10%N | 13%N | 32%N => true
  | _ => false
  end.

Fixpoint stripStart (s : string) : string :=
  match s with
  | String c s' => if httpWhite c then stripStart s' else s
  | EmptyString => s
  end.

Fixpoint stripEnd (s : string) : string :=
  match s with
  | EmptyString => EmptyString
  | String c s' =>
      match stripEnd s' with
      | EmptyString => if httpWhite c then EmptyString else String c EmptyString
      | t => String c t
      end
  end.

Definition normalize (value : string) : string := stripEnd (stripStart value).

Definition validValue (value : string) : bool :=
  allChars (fun c => negb (existsb (N.eqb (N_of_ascii c)) [0; 10; 13]%N)) value.

(** Lower-casing of the bytes A-Z. *)
Fixpoint lowerName (name : string) : string :=
  match name with
  | EmptyString => EmptyString
  | String c s' =>
      String (if Str.between 65 90 c then ascii_of_N (N_of_ascii c + 32) else c)
        (lowerName s')
  end.

Definition hasName (name : string) (h : t) : bool :=
  existsb (fun e => String.eqb (fst e) name) h.

Definition without (name : string) (h : t) : t :=
  filter (fun e => negb (String.eqb (fst e) name)) h.

(** The entry list with the first [name] entry set to [value] and the
    other [name] entries removed. *)
Fixpoint replace (name value : string) (h : t) : t :=
  match h with
  | [] => []
  | e :: h' =>
      if String.eqb (fst e) name then (name, value) :: without name h'
      else e :: replace name value h'
  end.

(** [h.append(name, value)]. *)
Definition append (name value : string) (h : t) : outcome t :=
  if validName name && validValue (normalize value)
  then Ok (h ++ [(lowerName name, normalize value)])%list
  else Throw.

(** [h.set(name, value)]. *)
Definition set (name value : string) (h : t) : outcome t :=
  if validName name && validValue (normalize value)
  then
    if hasName (lowerName name) h
    then Ok (replace (lowerName name) (normalize value) h)
    else Ok (h ++ [(lowerName name, normalize value)])%list
  else Throw.

Fixpoint joined (name : string) (h : t) : option string :=
  match h with
  | [] => None
  | e :: h' =>
      if String.eqb (fst e) name then
        match joined name h' with
        | Some rest => Some (snd e ++ ", " ++ rest)
        | None => Some (snd e)
        end
      else joined name h'
  end.

(** [h.get(name)] for a valid name: the values of its entries, joined. *)
Definition get (name : string) (h : t) : option string :=
  joined (lowerName name) h.

(** [new Headers(init)], [init] being a list of pairs or [undefined]. *)
Fixpoint fill (init : list (string * string)) (h : t) : outcome t :=
  match init with
  | [] => Ok h
  | e :: init' => bindO (append (fst e) (snd e) h) (fill init')
  end.

Definition create (init : option (list (string * string))) : outcome t :=
  match init with
  | Some l => fill l []
  | None => Ok []
  end.

End Headers.

Module URL.
Record t : Type := mk {
  href : string;
  origin : string;
  pathname : string
}.
End URL.

(** [RequestInfo | URL]: a string, a [URL], or a [Request] with its [url]. *)
Inductive RequestInfo : Type :=
| InfoString (s : string)
| InfoURL (u : URL.t)
| InfoRequest (url : string).

Module RequestInit.
Record t : Type := mk {
  method : option string;
  body : option string;
  headers : option (list (string * string))
}.
End RequestInit.

(** A [Response]: its status, its headers, and what [json()] resolves to. *)
Module Response.
Record t : Type := mk {
  status : Z;
  headers : Headers.t;
  json : outcome JSValue
}.

(** [response.ok]. *)
Definition ok (r : t) : bool := (200 <=? status r) && (status r <=? 299).
End Response.

(** [{ ...requestInit, headers }]. *)
Definition withHeaders (requestInit : option RequestInit.t) (headers : Headers.t)
  : RequestInit.t :=
  match requestInit with
  | Some i => RequestInit.mk (RequestInit.method i) (RequestInit.body i) (Some headers)
  | None => RequestInit.mk None None (Some headers)
  end.

(** [requestInit?.headers]. *)
Definition headersOf (requestInit : option RequestInit.t)
  : option (list (string * string)) :=
  match requestInit with
  | Some i => RequestInit.headers i
  | None => None
  end.

(** ** The router's configuration *)

(** [parseRouterConfigResponse(data)].  Reading a property of [null]
    throws. *)
Definition parseRouterConfigResponse (data : JSValue) : outcome RouterConfig.t :=
  match data with
  | JNull => Throw
  | _ =>
      let network := JSON.first (JSON.prop data "networks") in
      let asset :=
        match network with
        | None | Some JNull => None
        | Some n => JSON.prop n "asset"
        end in
      let eip712 := JSON.prop data "eip712_config" in
      bindO (readStringAt network "pay_to") (fun pay_to =>
      bindO (readStringAt network "network_id") (fun network_id =>
      bindO (readStringAt asset "address") (fun address =>
      bindO (readStringAt eip712 "domain_name") (fun domain_name =>
      bindO (readStringAt eip712 "domain_version") (fun domain_version =>
      bindO (readString data "payment_header") (fun payment_header =>
      let payTo := orElse pay_to EmptyString in
      Ok (RouterConfig.mk
            (orElse network_id "eip155:8453")
            (orElse address DEFAULT_USDC_BASE)
            payTo
            payTo
            (orElse domain_name "USD Coin")
            (orElse domain_version "2")
            (Some (orElse payment_header "PAYMENT-SIGNATURE"))))))))) 
  end.

Definition getDefaultConfig (network : string) : RouterConfig.t :=
  RouterConfig.mk network DEFAULT_USDC_BASE EmptyString EmptyString
    "USD Coin" "2" (Some "PAYMENT-SIGNATURE").

(** [routerUrl.replace(/\/+$/, '')]. *)
Fixpoint stripSlashes (s : string) : string :=
  match s with
  | EmptyString => EmptyString
  | String c s' =>
      match stripSlashes s' with
      | EmptyString => if Ascii.eqb c "/" then EmptyString else String c EmptyString
      | t => String c t
      end
  end.

(** ** The interceptor *)

(** The factory after lines 318 to 320: its configuration is overlaid
    with the requirement when there is one. *)
Definition challenged (requirement : option PaymentRequirement.t) (f : Factory.t)
  : Factory.t :=
  match requirement with
  | Some _ =>
      HeaderFactory.updateConfig
        (applyPaymentRequirement (HeaderFactory.getConfig f) requirement) f
  | None => f
  end.

(** [X402FetchInput], but for [baseFetch], which the section below takes
    already resolved ([input.baseFetch || fetch]). *)
Module Input.
Record t (W : Type) : Type := mk {
  routerUrl : string;
  permitCap : string;
  signatureFn : option (SignatureInput.t -> W -> outcome SignatureOutput.t * W);
  initialConfig : option RouterConfig.t;
  network : option string;
  staticHeaderName : option string;
  staticHeaderValue : option string
}.
Arguments mk {W} _ _ _ _ _ _ _.
Arguments routerUrl {W} _.
Arguments permitCap {W} _.
Arguments signatureFn {W} _.
Arguments initialConfig {W} _.
Arguments network {W} _.
Arguments staticHeaderName {W} _.
Arguments staticHeaderValue {W} _.
End Input.

(** The constants of the closure [createX402Fetch] returns. *)
Module Closure.
Record t : Type := mk {
  routerOrigin : string;
  routerBase : string
}.
End Closure.

(** Its variables, with the world and the two call logs: [fetched] lists
    the calls of [baseFetch], oldest first.  A promise is held resolved; the
    header factory is the one object every call shares. *)
Module Session.
Record t (W : Type) : Type := mk {
  run : Run.t W;
  fetched : list (RequestInfo * option RequestInit.t);
  configPromise : option RouterConfig.t;
  headerFactoryPromise : option Factory.t
}.
Arguments mk {W} _ _ _ _.
Arguments run {W} _.
Arguments fetched {W} _.
Arguments configPromise {W} _.
Arguments headerFactoryPromise {W} _.

(** The session with [f] for the state of the shared factory. *)
Definition withFactory {W : Type} (f : Factory.t) (s : t W) : t W :=
  mk (run s) (fetched s) (configPromise s) (Some f).
End Session.

(** What [sendWithPermit] resolves to. *)
Module Sent.
Record t : Type := mk {
  response : Response.t;
  deadline : option Num.t
}.
End Sent.

Module Client.

Section Interceptor.

Variable W : Type.
Variable Date_now : W -> Z.

(** The transport, [input.baseFetch || fetch]. *)
Variable baseFetch : RequestInfo -> option RequestInit.t -> W -> outcome Response.t * W.

(** [new URL(url)] and [new URL(url, base)]; [None] when it throws. *)
Variable newURL : string -> option string -> option URL.t.

Variable input : Input.t W.

(** An async step of the closure. *)
Definition M (A : Type) : Type := Session.t W -> outcome A * Session.t W.

Definition ret {A : Type} (a : A) : M A := fun s => (Ok a, s).

Definition bind {A B : Type} (m : M A) (k : A -> M B) : M B :=
  fun s =>
    match m s with
    | (Ok a, s') => k a s'
    | (Throw, s') => (Throw, s')
    | (Beyond, s') => (Beyond, s')
    end.

Definition lift {A : Type} (o : outcome A) : M A := fun s => (o, s).

Notation "x <- m ;; k" := (bind m (fun x => k))
  (at level 61, m at next level, right associativity).

(** A call of [baseFetch], recorded. *)
Definition callFetch (requestInfo : RequestInfo) (requestInit : option RequestInit.t)
  : M Response.t :=
  fun s =>
    let (res, w') := baseFetch requestInfo requestInit (Run.world (Session.run s)) in
    (res,
     Session.mk (Run.mk w' (Run.signed (Session.run s)))
       (Session.fetched s ++ [(requestInfo, requestInit)])%list
       (Session.configPromise s) (Session.headerFactoryPromise s)).

Definition fetchRouterConfig (routerUrl : string) : M RouterConfig.t :=
  response <- callFetch (InfoString (routerUrl ++ "/v1/config")) None ;;
  if negb (Response.ok response) then lift Throw
  else
    data <- lift (Response.json response) ;;
    lift (parseRouterConfigResponse data).

Definition setConfigPromise (c : RouterConfig.t) : M RouterConfig.t :=
  fun s =>
    (Ok c, Session.mk (Session.run s) (Session.fetched s) (Some c)
             (Session.headerFactoryPromise s)).

(** [getConfig()]: the memoized promise; a failed fetch resolves to the
    default configuration. *)
Definition getConfig (c : Closure.t) : M RouterConfig.t :=
  fun s =>
    match Session.configPromise s with
    | Some config => (Ok config, s)
    | None =>
        match fetchRouterConfig (Closure.routerBase c) s with
        | (Ok config, s') => setConfigPromise config s'
        | (Throw, s') =>
            setConfigPromise
              (getDefaultConfig (orElse (Input.network input) "eip155:8453")) s'
        | (Beyond, s') => (Beyond, s')
        end
    end.

Definition setFactory (f : Factory.t) : M unit :=
  fun s =>
    (Ok tt, Session.mk (Session.run s) (Session.fetched s)
              (Session.configPromise s) (Some f)).

(** [getFactory()]: it settles the shared factory, which the session then
    holds. *)
Definition getFactory (c : Closure.t) : M unit :=
  fun s =>
    match Input.signatureFn input with
    | None => (Throw, s)
    | Some _ =>
        match Session.headerFactoryPromise s with
        | Some _ => (Ok tt, s)
        | None =>
            (config <- getConfig c ;;
             setFactory (HeaderFactory.createPaymentHeaderFactory config (Input.permitCap input))) s
        end
    end.

(** A method of the shared factory.  Without a factory the receiver is
    [null] and the call throws. *)
Definition onFactory {A : Type}
  (op : (SignatureInput.t -> W -> outcome SignatureOutput.t * W) ->
        Factory.t -> Run.t W -> outcome A * Factory.t * Run.t W) : M A :=
  fun s =>
    match Input.signatureFn input, Session.headerFactoryPromise s with
    | Some sign, Some f =>
        let '(res, f', r') := op sign f (Session.run s) in
        (res, Session.mk r' (Session.fetched s) (Session.configPromise s) (Some f'))
    | _, _ => (Throw, s)
    end.

(** A method of the factory that only changes the factory. *)
Definition changeFactory (g : Factory.t -> Factory.t) : M unit :=
  onFactory (fun _ f r => (Ok tt, g f, r)).

Definition rawUrlOf (requestInfo : RequestInfo) : string :=
  match requestInfo with
  | InfoString s => s
  | InfoURL u => URL.href u
  | InfoRequest url => url
  end.

(** [new URL(rawUrl)], and relative to the router's origin when that
    throws. *)
Definition parseUrl (c : Closure.t) (rawUrl : string) : outcome URL.t :=
  match newURL rawUrl None with
  | Some u => Ok u
  | None =>
      match newURL rawUrl (Some (Closure.routerOrigin c)) with
      | Some u => Ok u
      | None => Throw
      end
  end.

Definition isConfigPath (pathname : string) : bool :=
  Str.endsWith pathname "/v1/config" || Str.endsWith pathname "/config".

Definition isModelsPath (pathname : string) : bool :=
  Str.endsWith pathname "/v1/models" || Str.endsWith pathname "/models".

Definition isRouterRequest (c : Closure.t) (parsed : URL.t) : bool :=
  String.eqb (URL.origin parsed) (Closure.routerOrigin c).

(** The request goes to [baseFetch] as it came. *)
Definition passesThrough (c : Closure.t) (parsed : URL.t) : bool :=
  negb (isRouterRequest c parsed) || isConfigPath (URL.pathname parsed) ||
  isModelsPath (URL.pathname parsed).

(** [input.staticHeaderName || 'PAYMENT-SIGNATURE']. *)
Definition staticHeaderName : string :=
  orElse (Input.staticHeaderName input) "PAYMENT-SIGNATURE".

(** [input.staticHeaderValue] when it is truthy: static-header mode. *)
Definition staticHeaderValue : option string :=
  match Input.staticHeaderValue input with
  | Some v => if Str.truthy v then Some v else None
  | None => None
  end.

Definition sendWithPermit (requestInfo : RequestInfo)
  (requestInit : option RequestInit.t)
  (capOverride : option string) (minDeadlineExclusive : option Num.t) : M Sent.t :=
  headers <- lift (Headers.create (headersOf requestInit)) ;;
  match staticHeaderValue with
  | Some value =>
      headers' <- lift (Headers.set staticHeaderName value headers) ;;
      response <- callFetch requestInfo (Some (withHeaders requestInit headers')) ;;
      ret (Sent.mk response None)
  | None =>
      header <- onFactory (fun sign =>
                  HeaderFactory.getHeader W Date_now sign
                    (Some (Options.mk capOverride minDeadlineExclusive))) ;;
      headers' <- lift (Headers.set (HeaderResult.headerName header)
                          (HeaderResult.headerValue header) headers) ;;
      response <- callFetch requestInfo (Some (withHeaders requestInit headers')) ;;
      ret (Sent.mk response (Some (HeaderResult.deadline header)))
  end.

Definition extractErrorResponse (response : Response.t)
  : outcome (option ErrorResponse.t) :=
  catchO (bindO (Response.json response) (fun data => Ok (parseErrorResponse data)))
    (Ok None).

(** The first requirement of the response's [PAYMENT-REQUIRED] header. *)
Definition requirementOf (response : Response.t)
  : outcome (option PaymentRequirement.t) :=
  match Headers.get "PAYMENT-REQUIRED" (Response.headers response) with
  | Some paymentRequired =>
      if Str.truthy paymentRequired
      then bindO (decodePaymentRequiredHeader paymentRequired) firstRequirement
      else Ok None
  | None => Ok None
  end.

(** [!error || !shouldInvalidatePermit(error) || !factory], negated. *)
Definition retries (error : option ErrorResponse.t) : bool :=
  match error, staticHeaderValue with
  | Some e, None => shouldInvalidatePermit e
  | _, _ => false
  end.

(** Lines 307 to 329: what follows the first attempt. *)
Definition afterInitial (requestInfo : RequestInfo)
  (requestInit : option RequestInit.t) (initial : Sent.t) : M Response.t :=
  let response := Sent.response initial in
  if negb (Response.status response =? 401) && negb (Response.status response =? 402)
  then ret response
  else
    error <- lift (extractErrorResponse response) ;;
    requirement <- lift (requirementOf response) ;;
    _ <- match requirement, staticHeaderValue with
         | Some q, None =>
             changeFactory (fun f =>
               HeaderFactory.updateConfig
                 (applyPaymentRequirement (HeaderFactory.getConfig f) requirement) f)
         | _, _ => ret tt
         end ;;
    if negb (retries error) then ret response
    else
      _ <- changeFactory HeaderFactory.invalidate ;;
      let maxAmount := getRequirementMaxAmountRequired requirement in
      refreshed <- sendWithPermit requestInfo requestInit maxAmount
                     (Sent.deadline initial) ;;
      ret (Sent.response refreshed).

Definition wrappedFetch (c : Closure.t) (requestInfo : RequestInfo)
  (requestInit : option RequestInit.t) : M Response.t :=
  parsed <- lift (parseUrl c (rawUrlOf requestInfo)) ;;
  if passesThrough c parsed then callFetch requestInfo requestInit
  else
    _ <- match staticHeaderValue with
         | Some _ => ret tt
         | None => getFactory c
         end ;;
    initial <- sendWithPermit requestInfo requestInit None None ;;
    afterInitial requestInfo requestInit initial.

(** [createX402Fetch(input)]: the closure's constants, and its variables
    as they start in the run [r]. *)
Definition createX402Fetch (r : Run.t W) : outcome (Closure.t * Session.t W) :=
  match newURL (Input.routerUrl input) None with
  | Some u =>
      Ok (Closure.mk (URL.origin u) (stripSlashes (Input.routerUrl input)),
          Session.mk r [] (Input.initialConfig input) None)
  | None => Throw
  end.

(** The entry [e] of the call log is the request with the header
    [name: value] set on a copy of its headers. *)
Definition sentWith (requestInfo : RequestInfo) (requestInit : option RequestInit.t)
  (name value : string) (e : RequestInfo * option RequestInit.t) : Prop :=
  exists h0 hs,
    Headers.create (headersOf requestInit) = Ok h0 /\
    Headers.set name value h0 = Ok hs /\
    e = (requestInfo, Some (withHeaders requestInit hs)).

(** The payment header of an attempt that starts in the session [s] with
    the options [capOverride] and [minDeadlineExclusive]: the static pair in
    static-header mode, and otherwise the name and the value that [getHeader]
    returns, for these options, on the factory and in the run that the session
    holds. *)
Definition isPaymentHeader (capOverride : option string)
  (minDeadlineExclusive : option Num.t) (s : Session.t W) (name value : string)
  : Prop :=
  match staticHeaderValue with
  | Some v => name = staticHeaderName /\ value = v
  | None =>
      exists sign f h f' r',
        Input.signatureFn input = Some sign /\
        Session.headerFactoryPromise s = Some f /\
        HeaderFactory.getHeader W Date_now sign
          (Some (Options.mk capOverride minDeadlineExclusive)) f (Session.run s) =
        (Ok h, f', r') /\
        name = HeaderResult.headerName h /\ value = HeaderResult.headerValue h
  end.

(** The entry [e] is the request with the payment header of such an
    attempt. *)
Definition carriesPayment (requestInfo : RequestInfo)
  (requestInit : option RequestInit.t) (capOverride : option string)
  (minDeadlineExclusive : option Num.t) (s : Session.t W)
  (e : RequestInfo * option RequestInit.t) : Prop :=
  exists name value,
    isPaymentHeader capOverride minDeadlineExclusive s name value /\
    sentWith requestInfo requestInit name value e.

(** The one call that fetches the router's configuration. *)
Definition configCall (c : Closure.t) : RequestInfo * option RequestInit.t :=
  (InfoString (Closure.routerBase c ++ "/v1/config"), None).

End Interceptor.

End Client.

(** * The specification's wording, where it is compared with the code *)

Module Spec.

(** "The cache is reused iff: cached is not null, minDeadlineExclusive is
    not set, cached.maxValue == effectiveCap, cached.(network, asset, payTo)
    == config.(network, asset, payTo), and cached.deadline - now > 60
    seconds."  The difference of NaN and the clock is not greater than 60. *)
Definition reusable (W : Type) (Date_now : W -> Z) (options : option Options.t)
  (f : Factory.t) (w : W) (c : CachedHeader.t) : Prop :=
  HeaderFactory.minDeadlineOf options = None /\
  CachedHeader.maxValue c = HeaderFactory.capOf options f /\
  (CachedHeader.network c = RouterConfig.network (Factory.config f) /\
   CachedHeader.asset c = RouterConfig.asset (Factory.config f) /\
   CachedHeader.payTo c = RouterConfig.payTo (Factory.config f)) /\
  exists d, CachedHeader.deadline c = Num.Int d /\ d - secondsOf (Date_now w) > 60.

(** "the returned deadline equals floor(now) + 3600, except that when
    input.minDeadlineExclusive is set and floor(now) + 3600 <=
    minDeadlineExclusive, the returned deadline equals minDeadlineExclusive
    + 1", the sum being that of the integers. *)
Definition permitDeadline (now : Z) (minDeadlineExclusive : option Z) : Z :=
  match minDeadlineExclusive with
  | Some m => if now + 3600 <=? m then m + 1 else now + 3600
  | None => now + 3600
  end.

(** "The effective cap is [capOverride ?? defaultPermitCap]." *)
Definition effectiveCap (options : option Options.t) (f : Factory.t) : string :=
  nullish (match options with
           | Some o => Options.capOverride o
           | None => None
           end) (Factory.permitCap f).

(** "a case-insensitive substring match on the concatenation of [error]
    and [message]". *)
Definition mentions (error : ErrorResponse.t) (phrase : string) : bool :=
  Str.includes
    (Str.toLowerCase
       (nullish (ErrorResponse.error error) EmptyString ++
        nullish (ErrorResponse.message error) EmptyString))
    phrase.

(** "Classification is by exact [code] match OR, if [code] is absent, by a
    case-insensitive substring match ...". *)
Definition classifies (error : ErrorResponse.t) : bool :=
  codeIs error "cap_exhausted" || codeIs error "session_closed" ||
  codeIs error "settlement_blocked" ||
  match ErrorResponse.code error with
  | Some _ => false
  | None =>
      mentions error "cap exhausted" || mentions error "session closed" ||
      mentions error "settlement blocked" ||
      mentions error "blocked after previous settlement"
  end.

(** "with [facilitatorSigner] set to the new [payTo] (or retained if
    absent)": the spender the specification expects after a challenge. *)
Definition facilitatorSigner (config : RouterConfig.t)
  (requirement : PaymentRequirement.t) : string :=
  match getRequirementPayTo (Some requirement) with
  | Some payTo => payTo
  | None => RouterConfig.facilitatorSigner config
  end.

End Spec.

(** * A scripted world

    The collaborators the way the test-suite scripts them: a clock, a signing
    function and a transport that answer from queues, and a URL parser for
    [https] addresses without query or fragment. *)

Module Mock.

Record World : Type := mk {
  clock : Z;
  signatures : list (outcome SignatureOutput.t);
  responses : list (outcome Response.t)
}.

Definition Date_now (w : World) : Z := clock w.

Definition signatureFn (input : SignatureInput.t) (w : World)
  : outcome SignatureOutput.t * World :=
  match signatures w with
  | x :: q => (x, mk (clock w) q (responses w))
  | [] => (Throw, w)
  end.

Definition baseFetch (requestInfo : RequestInfo) (requestInit : option RequestInit.t)
  (w : World) : outcome Response.t * World :=
  match responses w with
  | x :: q => (x, mk (clock w) (signatures w) q)
  | [] => (Throw, w)
  end.

(** The host and the path of the text after [https://]. *)
Fixpoint hostAndPath (s : string) : string * string :=
  match s with
  | EmptyString => (EmptyString, "/")
  | String c s' =>
      if Ascii.eqb c "/" then (EmptyString, s)
      else let (h, p) := hostAndPath s' in (String c h, p)
  end.

Definition absolute (url : string) : option URL.t :=
  match JSON.keyword "https://" url with
  | Some rest =>
      let (h, p) := hostAndPath rest in
      if Str.truthy h then Some (URL.mk ("https://" ++ h ++ p) ("https://" ++ h) p)
      else None
  | None => None
  end.

Definition newURL (url : string) (base : option string) : option URL.t :=
  match absolute url, base with
  | Some u, _ => Some u
  | None, Some b =>
      if Str.startsWith url "/" then absolute (b ++ url) else None
  | None, None => None
  end.

(** A fresh run in the world [w]. *)
Definition start (w : World) : Run.t World := Run.mk w [].

(** The configuration and the answers of the test-suite. *)
Definition baseConfig : RouterConfig.t :=
  RouterConfig.mk "eip155:8453" DEFAULT_USDC_BASE
    "0x1234567890abcdef1234567890abcdef12345678"
    "0x1234567890abcdef1234567890abcdef12345678"
    "USD Coin" "2" (Some "PAYMENT-SIGNATURE").

Definition account : string := "0x9999999999999999999999999999999999999999".

Definition signed (signature nonce : string) (deadline : Z) : outcome SignatureOutput.t :=
  Ok (SignatureOutput.mk signature nonce (Num.toString deadline) account).

(** The collaborators of the env_pk signer: a fixed account, the nonce 7,
    and a signature that does not depend on the data. *)
Definition privateKeyToAccount (key : string) : outcome string := Ok account.

Definition fetchPermitNonce (chain : Chain) (token owner : string) (w : World)
  : outcome Z * World := (Ok 7, w).

Definition signTypedData (chain : Chain) (owner : string) (data : TypedData.t)
  (w : World) : outcome string * World := (Ok "0xsigned", w).

Definition envSigner : SignatureInput.t -> World -> outcome SignatureOutput.t * World :=
  createEnvPrivateKeySignatureFn World Date_now privateKeyToAccount
    fetchPermitNonce signTypedData
    "0xaaaaaaaaaaaaaaaaaaaaaaaaaaaaaaaaaaaaaaaaaaaaaaaaaaaaaaaaaaaaaaaa".

End Mock.

(** * Properties *)

(** ** Strings and options *)

Lemma truthy_false (s : string) : Str.truthy s = false <-> s = EmptyString.
Proof.
  unfold Str.truthy. rewrite negb_false_iff. apply String.eqb_eq.
Qed.

Lemma truthy_true (s : string) : Str.truthy s = true <-> s <> EmptyString.
Proof.
  unfold Str.truthy. rewrite negb_true_iff. apply String.eqb_neq.
Qed.

Lemma orElse_spec (a : option string) (b : string) :
  orElse a b = match a with
               | Some s => if String.eqb s EmptyString then b else s
               | None => b
               end.
Proof.
  destruct a as [s|]; simpl; [|reflexivity].
  unfold Str.truthy. now destruct (String.eqb s EmptyString).
Qed.

(** ** The header factory *)

Section FactoryFacts.

Variable W : Type.
Variable Date_now : W -> Z.
Variable signatureFn : SignatureInput.t -> W -> outcome SignatureOutput.t * W.

#[local] Abbreviation getHeader := (HeaderFactory.getHeader W Date_now signatureFn).
#[local] Abbreviation refresh := (HeaderFactory.refresh W signatureFn).
#[local] Abbreviation usable := (HeaderFactory.usable W Date_now).
#[local] Abbreviation cacheHit := (HeaderFactory.cacheHit W Date_now).
#[local] Abbreviation capOf := HeaderFactory.capOf.
#[local] Abbreviation minDeadlineOf := HeaderFactory.minDeadlineOf.
#[local] Abbreviation signatureInputOf := HeaderFactory.signatureInputOf.
#[local] Abbreviation reusable := (HeaderFactory.reusable W Date_now).
#[local] Abbreviation headerNameOf := HeaderFactory.headerNameOf.

Lemma usable_iff options f w c :
  usable options f w c = true <-> reusable options f w c.
Proof.
  unfold HeaderFactory.usable, HeaderFactory.reusable, HeaderFactory.forceRefreshOf,
    HeaderFactory.isNearDeadline, HeaderFactory.outsideWindow.
  rewrite !andb_true_iff, !negb_true_iff, !String.eqb_eq.
  destruct (minDeadlineOf options), (CachedHeader.deadline c) as [|d];
    rewrite ?Z.leb_gt; unfold PRE_INVALIDATE_WINDOW_SECONDS;
    intuition (try discriminate; try lia).
Qed.

Lemma refresh_signed options f r :
  Run.signed (snd (refresh options f r)) =
  (Run.signed r ++ [signatureInputOf options f])%list.
Proof.
  unfold HeaderFactory.refresh.
  destruct (signatureFn _ _) as [[sg| |] w']; simpl; try reflexivity.
  now destruct (Num.parseInt _).
Qed.

(** The refreshing half applies the signing function to the input in the
    world it is given, and carries on in the world that leaves. *)
Lemma refresh_world options f r :
  Run.world (snd (refresh options f r)) =
  snd (signatureFn (signatureInputOf options f) (Run.world r)).
Proof.
  unfold HeaderFactory.refresh.
  destruct (signatureFn _ _) as [[sg| |] w']; simpl; try reflexivity.
  now destruct (Num.parseInt _).
Qed.

Lemma getHeader_hit options f r c :
  Factory.cached f = Some c ->
  usable options f (Run.world r) c = true ->
  getHeader options f r =
  (Ok (HeaderResult.mk (headerNameOf (Factory.config f))
         (CachedHeader.value c) (CachedHeader.deadline c)), f, r).
Proof.
  intros Hc Hu. unfold HeaderFactory.getHeader. now rewrite Hc, Hu.
Qed.

Lemma getHeader_miss options f r :
  cacheHit options f (Run.world r) = false ->
  getHeader options f r = refresh options f r.
Proof.
  unfold HeaderFactory.cacheHit, HeaderFactory.getHeader.
  destruct (Factory.cached f) as [c|]; [|reflexivity].
  now intros ->.
Qed.

Lemma cacheHit_iff options f w :
  cacheHit options f w = true <->
  exists c, Factory.cached f = Some c /\ reusable options f w c.
Proof.
  unfold HeaderFactory.cacheHit. destruct (Factory.cached f) as [c|].
  - rewrite usable_iff. split; [eauto|]. now intros [c' [[= <-] H]].
  - split; [discriminate|]. now intros [c [[=] _]].
Qed.

Lemma app_one_neq {A : Type} (l : list A) (x : A) : (l ++ [x])%list <> l.
Proof.
  intros H. apply (f_equal (@List.length A)) in H.
  rewrite List.length_app in H. simpl in H. lia.
Qed.

(** The signer is called exactly when the cache is not reused. *)
Lemma getHeader_signed options f r :
  Run.signed (snd (getHeader options f r)) =
  if cacheHit options f (Run.world r) then Run.signed r
  else (Run.signed r ++ [signatureInputOf options f])%list.
Proof.
  destruct (cacheHit options f (Run.world r)) eqn:E.
  - apply cacheHit_iff in E. destruct E as [c [Hc Hr]].
    apply usable_iff in Hr. now rewrite (getHeader_hit _ _ _ _ Hc Hr).
  - rewrite (getHeader_miss _ _ _ E). apply refresh_signed.
Qed.

(** The run goes on in the world the signing function leaves, when it is
    called. *)
Lemma getHeader_world options f r :
  Run.world (snd (getHeader options f r)) =
  if cacheHit options f (Run.world r) then Run.world r
  else snd (signatureFn (signatureInputOf options f) (Run.world r)).
Proof.
  destruct (cacheHit options f (Run.world r)) eqn:E.
  - apply cacheHit_iff in E. destruct E as [c [Hc Hr]].
    apply usable_iff in Hr. now rewrite (getHeader_hit _ _ _ _ Hc Hr).
  - rewrite (getHeader_miss _ _ _ E). apply refresh_world.
Qed.

(** What a successful call leaves in the cache. *)
Lemma getHeader_Ok_cached options f r h f1 r1 :
  getHeader options f r = (Ok h, f1, r1) ->
  Factory.permitCap f1 = Factory.permitCap f /\
  Factory.config f1 = Factory.config f /\
  exists c,
    Factory.cached f1 = Some c /\
    CachedHeader.value c = HeaderResult.headerValue h /\
    CachedHeader.deadline c = HeaderResult.deadline h /\
    CachedHeader.maxValue c = capOf options f /\
    CachedHeader.network c = RouterConfig.network (Factory.config f) /\
    CachedHeader.asset c = RouterConfig.asset (Factory.config f) /\
    CachedHeader.payTo c = RouterConfig.payTo (Factory.config f).
Proof.
  destruct (cacheHit options f (Run.world r)) eqn:E.
  - apply cacheHit_iff in E. destruct E as [c [Hc Hr]].
    pose proof Hr as Hu. apply usable_iff in Hu.
    rewrite (getHeader_hit _ _ _ _ Hc Hu). intros [= <- <- <-].
    destruct Hr as (_ & Hm & (Hn & Ha & Hp) & _).
    repeat split; try reflexivity. exists c. simpl. now repeat split.
  - rewrite (getHeader_miss _ _ _ E). unfold HeaderFactory.refresh.
    destruct (signatureFn _ _) as [[sg| |] w']; try discriminate.
    destruct (Num.parseInt _) as [d| |]; try discriminate.
    intros [= <- <- <-]. simpl. repeat split. eexists. repeat split.
Qed.

(** C1, amended.  [getHeader] answers from the cache, without calling the
    signing function, exactly when there is an entry, no
    [minDeadlineExclusive] is given, the entry's cap is the effective cap,
    its (network, asset, payTo) is the configuration's, and its deadline is
    not within 60 seconds of the clock: it is more than 60 seconds after it,
    or it is NaN.  It then returns the entry's value and leaves the factory
    and the run as they are.  Hence, after a call that signed and returned
    [h1], a second call with the same effective cap, no
    [minDeadlineExclusive], an unchanged cache and (network, asset, payTo),
    and a deadline that is NaN or still more than 60 seconds after the clock
    returns the same [headerValue] and does not sign: the signing function
    has been called once over the two calls. *)
Theorem getHeader_reuses_cache (options : option Options.t) (f : Factory.t)
  (r : Run.t W) :
  ((exists c,
      Factory.cached f = Some c /\
      minDeadlineOf options = None /\
      CachedHeader.maxValue c = capOf options f /\
      (CachedHeader.network c = RouterConfig.network (Factory.config f) /\
       CachedHeader.asset c = RouterConfig.asset (Factory.config f) /\
       CachedHeader.payTo c = RouterConfig.payTo (Factory.config f)) /\
      (CachedHeader.deadline c = Num.NaN \/
       exists d, CachedHeader.deadline c = Num.Int d /\
                 d - secondsOf (Date_now (Run.world r)) > 60)) <->
   Run.signed (snd (getHeader options f r)) = Run.signed r) /\
  (forall c,
     Factory.cached f = Some c -> reusable options f (Run.world r) c ->
     getHeader options f r =
     (Ok (HeaderResult.mk (headerNameOf (Factory.config f))
            (CachedHeader.value c) (CachedHeader.deadline c)), f, r)) /\
  (cacheHit options f (Run.world r) = false ->
   getHeader options f r = refresh options f r /\
   Run.world (snd (getHeader options f r)) =
   snd (signatureFn (signatureInputOf options f) (Run.world r))) /\
  (forall h1 f1 r1 options2 f2 w2,
     cacheHit options f (Run.world r) = false ->
     getHeader options f r = (Ok h1, f1, r1) ->
     Factory.permitCap f2 = Factory.permitCap f1 ->
     Factory.cached f2 = Factory.cached f1 ->
     RouterConfig.network (Factory.config f2) = RouterConfig.network (Factory.config f1) ->
     RouterConfig.asset (Factory.config f2) = RouterConfig.asset (Factory.config f1) ->
     RouterConfig.payTo (Factory.config f2) = RouterConfig.payTo (Factory.config f1) ->
     minDeadlineOf options2 = None ->
     capOf options2 f2 = capOf options f ->
     HeaderFactory.outsideWindow W Date_now (HeaderResult.deadline h1) w2 ->
     exists h2,
       getHeader options2 f2 (Run.mk w2 (Run.signed r1)) =
       (Ok h2, f2, Run.mk w2 (Run.signed r1)) /\
       HeaderResult.headerValue h2 = HeaderResult.headerValue h1 /\
       Run.signed r1 = (Run.signed r ++ [signatureInputOf options f])%list).
Proof.
  split; [|split; [|split]].
  - rewrite getHeader_signed.
    assert (Hiff : (exists c,
                      Factory.cached f = Some c /\
                      minDeadlineOf options = None /\
                      CachedHeader.maxValue c = capOf options f /\
                      (CachedHeader.network c = RouterConfig.network (Factory.config f) /\
                       CachedHeader.asset c = RouterConfig.asset (Factory.config f) /\
                       CachedHeader.payTo c = RouterConfig.payTo (Factory.config f)) /\
                      (CachedHeader.deadline c = Num.NaN \/
                       exists d, CachedHeader.deadline c = Num.Int d /\
                                 d - secondsOf (Date_now (Run.world r)) > 60)) <->
                   cacheHit options f (Run.world r) = true).
    { rewrite cacheHit_iff. unfold HeaderFactory.reusable, HeaderFactory.outsideWindow.
      split; intros (c & Hc & Hm & Hv & Ht & Hd); exists c;
        (split; [exact Hc|]; split; [exact Hm|]; split; [exact Hv|];
         split; [exact Ht|]).
      - destruct Hd as [-> | (d & -> & Hd)]; [exact I|exact Hd].
      - destruct (CachedHeader.deadline c) as [|d]; [now left|right; now exists d]. }
    rewrite Hiff.
    destruct (cacheHit options f (Run.world r)); split; trivial.
    + discriminate.
    + intros H. now apply app_one_neq in H.
  - intros c Hc Hr. apply getHeader_hit; [assumption|]. now apply usable_iff.
  - intros Hmiss. rewrite (getHeader_miss _ _ _ Hmiss).
    split; [reflexivity|apply refresh_world].
  - intros h1 f1 r1 options2 f2 w2 Hmiss H1 Hcap Hcached Hn Ha Hp Hmin Hsame Hfresh.
    pose proof (getHeader_signed options f r) as Hs.
    rewrite H1, Hmiss in Hs. simpl in Hs.
    destruct (getHeader_Ok_cached _ _ _ _ _ _ H1)
      as (_ & Hcfg & c & Hc & Hv & Hd & Hm & Hcn & Hca & Hcp).
    exists (HeaderResult.mk (headerNameOf (Factory.config f2))
              (CachedHeader.value c) (CachedHeader.deadline c)).
    split; [|split]; [|exact Hv|exact Hs].
    apply getHeader_hit; [congruence|]. apply usable_iff.
    unfold HeaderFactory.reusable. simpl. rewrite Hn, Ha, Hp, Hcfg, Hd.
    repeat split; congruence || assumption.
Qed.

End FactoryFacts.

Section FactoryInvariant.

Variable W : Type.
Variable Date_now : W -> Z.
Variable signatureFn : SignatureInput.t -> W -> outcome SignatureOutput.t * W.

#[local] Abbreviation getHeader := (HeaderFactory.getHeader W Date_now signatureFn).
#[local] Abbreviation cacheHit := (HeaderFactory.cacheHit W Date_now).
#[local] Abbreviation capOf := HeaderFactory.capOf.
#[local] Abbreviation signatureInputOf := HeaderFactory.signatureInputOf.

Lemma create_consistent config permitCap :
  HeaderFactory.consistent (HeaderFactory.createPaymentHeaderFactory config permitCap).
Proof. intros c [=]. Qed.

Lemma invalidate_consistent f :
  HeaderFactory.consistent (HeaderFactory.invalidate f).
Proof. intros c [=]. Qed.

Lemma updateConfig_consistent nextConfig f :
  HeaderFactory.consistent f ->
  HeaderFactory.consistent (HeaderFactory.updateConfig nextConfig f).
Proof. intros H c Hc. now apply H. Qed.

(** What a successful refresh returns and stores. *)
Lemma refresh_Ok options f r h f1 r1 :
  HeaderFactory.refresh W signatureFn options f r = (Ok h, f1, r1) ->
  exists sg d,
    signatureFn (signatureInputOf options f) (Run.world r) = (Ok sg, Run.world r1) /\
    Num.parseInt (SignatureOutput.deadline sg) = Ok d /\
    h = HeaderResult.mk (HeaderFactory.headerNameOf (Factory.config f))
          (encodePaymentPayload
             (buildPaymentPayload (Factory.config f)
                (SignatureOutput.accountAddress sg) (capOf options f)
                (SignatureOutput.signature sg) (SignatureOutput.nonce sg)
                (SignatureOutput.deadline sg))) d /\
    f1 = Factory.mk (Factory.permitCap f) (Factory.config f)
           (Some (CachedHeader.mk (HeaderResult.headerValue h) d (capOf options f)
                    (RouterConfig.network (Factory.config f))
                    (RouterConfig.asset (Factory.config f))
                    (RouterConfig.payTo (Factory.config f)))) /\
    Run.signed r1 = (Run.signed r ++ [signatureInputOf options f])%list.
Proof.
  unfold HeaderFactory.refresh.
  destruct (signatureFn _ _) as [[sg| |] w'] eqn:E; try discriminate.
  destruct (Num.parseInt _) as [d| |] eqn:P; try discriminate.
  intros [= <- <- <-]. exists sg, d. simpl. now repeat split.
Qed.

Lemma getHeader_consistent options f r :
  HeaderFactory.consistent f ->
  HeaderFactory.consistent (snd (fst (getHeader options f r))).
Proof.
  intros H. destruct (cacheHit options f (Run.world r)) eqn:E.
  - apply cacheHit_iff in E. destruct E as [c [Hc Hr]].
    apply usable_iff in Hr. now rewrite (getHeader_hit _ _ _ _ _ _ _ Hc Hr).
  - rewrite (getHeader_miss _ _ _ _ _ _ E).
    destruct (HeaderFactory.refresh W signatureFn options f r) as [[[h| |] f1] r1] eqn:R.
    + destruct (refresh_Ok _ _ _ _ _ _ R) as (sg & d & _ & P & -> & -> & _).
      intros c [= <-]. eexists. simpl. repeat split. exact P.
    + unfold HeaderFactory.refresh in R.
      destruct (signatureFn _ _) as [[sg| |] w']; [destruct (Num.parseInt _)| |];
        try discriminate; now injection R as <- <-.
    + unfold HeaderFactory.refresh in R.
      destruct (signatureFn _ _) as [[sg| |] w']; [destruct (Num.parseInt _)| |];
        try discriminate; now injection R as <- <-.
Qed.

(** The header a consistent factory hands out encodes a payload with the
    effective cap and with the deadline it reports. *)
Lemma getHeader_payload options f r h f1 r1 :
  HeaderFactory.consistent f ->
  getHeader options f r = (Ok h, f1, r1) ->
  exists p : PaymentPayload.t,
    HeaderResult.headerValue h = encodePaymentPayload p /\
    PaymentPayload.value (PaymentPayload.authorization (PaymentPayload.payload p)) =
    capOf options f /\
    Num.parseInt
      (PaymentPayload.validBefore (PaymentPayload.authorization (PaymentPayload.payload p))) =
    Ok (HeaderResult.deadline h).
Proof.
  intros Hf H.
  pose proof (getHeader_consistent options f r Hf) as Hf1. rewrite H in Hf1.
  destruct (getHeader_Ok_cached _ _ _ _ _ _ _ _ _ H)
    as (_ & _ & c & Hc & Hv & Hd & Hm & _).
  destruct (Hf1 c Hc) as (p & Hp & Hpv & Hpd).
  exists p. rewrite <- Hv, <- Hd, <- Hm. now repeat split.
Qed.

(** C4.  With a [minDeadlineExclusive], [getHeader] calls the signing
    function whatever the cache holds: the signing function is applied, in
    the world of the call, to the input made of the configuration, the
    effective cap and the bound; the run goes on in the world it leaves and
    records the call; and the result is made of what it answers: the header
    that encodes its signature, which also replaces the cache entry, when it
    answers one, and its exception when it throws. *)
Theorem getHeader_forced_refresh_signs (capOverride : option string) (m : Num.t)
  (f : Factory.t) (r : Run.t W) :
  let options := Some (Options.mk capOverride (Some m)) in
  let input :=
    SignatureInput.mk (RouterConfig.network (Factory.config f))
      (RouterConfig.asset (Factory.config f)) (RouterConfig.payTo (Factory.config f))
      (RouterConfig.facilitatorSigner (Factory.config f))
      (RouterConfig.tokenName (Factory.config f))
      (RouterConfig.tokenVersion (Factory.config f))
      (orElse capOverride (Factory.permitCap f)) (Some m) in
  let answer := signatureFn input (Run.world r) in
  let r' := Run.mk (snd answer) (Run.signed r ++ [input])%list in
  cacheHit options f (Run.world r) = false /\
  snd (getHeader options f r) = r' /\
  (fst answer = Throw -> getHeader options f r = (Throw, f, r')) /\
  (forall sg d,
     fst answer = Ok sg ->
     Num.parseInt (SignatureOutput.deadline sg) = Ok d ->
     let encoded :=
       encodePaymentPayload
         (buildPaymentPayload (Factory.config f) (SignatureOutput.accountAddress sg)
            (capOf options f) (SignatureOutput.signature sg)
            (SignatureOutput.nonce sg) (SignatureOutput.deadline sg)) in
     getHeader options f r =
     (Ok (HeaderResult.mk (HeaderFactory.headerNameOf (Factory.config f)) encoded d),
      Factory.mk (Factory.permitCap f) (Factory.config f)
        (Some (CachedHeader.mk encoded d (capOf options f)
                 (RouterConfig.network (Factory.config f))
                 (RouterConfig.asset (Factory.config f))
                 (RouterConfig.payTo (Factory.config f)))),
      r')).
Proof.
  intros options input answer r'.
  assert (E : cacheHit options f (Run.world r) = false).
  { unfold HeaderFactory.cacheHit, HeaderFactory.usable.
    now destruct (Factory.cached f). }
  rewrite (getHeader_miss _ _ _ _ _ _ E).
  split; [exact E|].
  subst r' answer. unfold HeaderFactory.refresh.
  change (signatureInputOf options f) with input.
  destruct (signatureFn input (Run.world r)) as [[sg| |] w'] eqn:Es; cbn [fst snd].
  - split; [now destruct (Num.parseInt _)|]. split; [discriminate|].
    intros sg' d [= <-] Hd. now rewrite Hd.
  - split; [reflexivity|]. split; [reflexivity|]. discriminate.
  - split; [reflexivity|]. split; discriminate.
Qed.

(** C8, amended.  The effective cap is [capOverride || permitCap]: the
    override when it is given and not empty, the factory's [permitCap]
    otherwise.  It is the [permitCap] of every call of the signing function,
    and the [authorization.value] of the payload a consistent factory
    returns. *)
Theorem effective_cap_is_override_unless_empty (options : option Options.t)
  (f : Factory.t) (r : Run.t W) :
  capOf options f =
  match options with
  | Some (Options.mk (Some cap) _) =>
      if String.eqb cap EmptyString then Factory.permitCap f else cap
  | _ => Factory.permitCap f
  end /\
  (Run.signed (snd (getHeader options f r)) = Run.signed r \/
   exists input,
     Run.signed (snd (getHeader options f r)) = (Run.signed r ++ [input])%list /\
     SignatureInput.permitCap input = capOf options f) /\
  (forall h f1 r1,
     HeaderFactory.consistent f ->
     getHeader options f r = (Ok h, f1, r1) ->
     exists p : PaymentPayload.t,
       HeaderResult.headerValue h = encodePaymentPayload p /\
       PaymentPayload.value (PaymentPayload.authorization (PaymentPayload.payload p)) =
       capOf options f).
Proof.
  split; [|split].
  - unfold HeaderFactory.capOf. rewrite orElse_spec.
    destruct options as [[[cap|] m]|]; reflexivity.
  - rewrite getHeader_signed.
    destruct (cacheHit options f (Run.world r)); [now left|].
    right. now exists (signatureInputOf options f).
  - intros h f1 r1 Hf H.
    destruct (getHeader_payload _ _ _ _ _ _ Hf H) as (p & Hp & Hv & _).
    now exists p.
Qed.

(** C10.  The cache check reads the configuration's (network, asset, payTo)
    only.  So when a call has signed under the configuration of [f] and
    [updateConfig(nextConfig)] then changes none of the three, a call with
    the same cap outside the deadline window (more than 60 seconds before
    the deadline, or with a deadline that is NaN) answers from the cache: the
    value it returns is the payload assembled from the old configuration
    (its [facilitatorSigner], [tokenName] and [tokenVersion]) and signed for
    it, the signing function is not called again, and the header name is
    read from [nextConfig]. *)
Theorem stale_header_after_updateConfig (options : option Options.t)
  (f : Factory.t) (r : Run.t W) (nextConfig : RouterConfig.t) :
  RouterConfig.network nextConfig = RouterConfig.network (Factory.config f) ->
  RouterConfig.asset nextConfig = RouterConfig.asset (Factory.config f) ->
  RouterConfig.payTo nextConfig = RouterConfig.payTo (Factory.config f) ->
  (forall options2 w c,
     HeaderFactory.usable W Date_now options2 (HeaderFactory.updateConfig nextConfig f) w c =
     HeaderFactory.usable W Date_now options2 f w c) /\
  (forall h1 f1 r1 options2 w2,
     cacheHit options f (Run.world r) = false ->
     getHeader options f r = (Ok h1, f1, r1) ->
     HeaderFactory.minDeadlineOf options2 = None ->
     capOf options2 f1 = capOf options f ->
     HeaderFactory.outsideWindow W Date_now (HeaderResult.deadline h1) w2 ->
     exists sg,
       signatureFn (signatureInputOf options f) (Run.world r) = (Ok sg, Run.world r1) /\
       Run.signed r1 = (Run.signed r ++ [signatureInputOf options f])%list /\
       getHeader options2 (HeaderFactory.updateConfig nextConfig f1)
         (Run.mk w2 (Run.signed r1)) =
       (Ok (HeaderResult.mk (HeaderFactory.headerNameOf nextConfig)
              (encodePaymentPayload
                 (buildPaymentPayload (Factory.config f)
                    (SignatureOutput.accountAddress sg) (capOf options f)
                    (SignatureOutput.signature sg) (SignatureOutput.nonce sg)
                    (SignatureOutput.deadline sg)))
              (HeaderResult.deadline h1)),
        HeaderFactory.updateConfig nextConfig f1, Run.mk w2 (Run.signed r1))).
Proof.
  intros Hn Ha Hp. split.
  - intros options2 w c. unfold HeaderFactory.usable. simpl.
    now rewrite Hn, Ha, Hp.
  - intros h1 f1 r1 options2 w2 Hmiss H1 Hmin Hcap Hfresh.
    rewrite (getHeader_miss _ _ _ _ _ _ Hmiss) in H1.
    destruct (refresh_Ok _ _ _ _ _ _ H1) as (sg & d & Hsg & P & -> & -> & Hs).
    exists sg. split; [exact Hsg|]. split; [exact Hs|].
    erewrite getHeader_hit.
    2: { simpl. reflexivity. }
    + reflexivity.
    + apply usable_iff.
      unfold HeaderFactory.reusable. simpl in *. now repeat split.
Qed.

End FactoryInvariant.

(** The scenario of the test "caches header payload until invalidated":
    the clock stands at 1 700 000 000 s and the signer answers with a
    deadline 600 s later. *)
Definition cachingWorld : Mock.World :=
  Mock.mk 1700000000000 [Mock.signed "0xabc123" "7" 1700000600] [].

Definition cachingFactory : Factory.t :=
  HeaderFactory.createPaymentHeaderFactory Mock.baseConfig "1000000".

Definition cachingFirst : outcome HeaderResult.t * Factory.t * Run.t Mock.World :=
  HeaderFactory.getHeader Mock.World Mock.Date_now Mock.signatureFn None
    cachingFactory (Mock.start cachingWorld).

(** An override that is given and empty. *)
Definition emptyOverride : option Options.t :=
  Some (Options.mk (Some EmptyString) None).

(** The configuration after the spender, the token domain and the header
    name have changed, and nothing else. *)
Definition rotatedConfig : RouterConfig.t :=
  RouterConfig.mk (RouterConfig.network Mock.baseConfig)
    (RouterConfig.asset Mock.baseConfig) (RouterConfig.payTo Mock.baseConfig)
    "0x00000000000000000000000000000000000000aa" "Other Coin" "3"
    (Some "X-PAYMENT").

Lemma getHeader_reuses_cache_witness :
  exists h2,
    HeaderFactory.getHeader Mock.World Mock.Date_now Mock.signatureFn None
      (snd (fst cachingFirst))
      (Run.mk (Mock.mk 1700000200000 [] []) (Run.signed (snd cachingFirst))) =
    (Ok h2, snd (fst cachingFirst),
     Run.mk (Mock.mk 1700000200000 [] []) (Run.signed (snd cachingFirst))) /\
    Some (HeaderResult.headerValue h2) =
    match fst (fst cachingFirst) with
    | Ok h1 => Some (HeaderResult.headerValue h1)
    | _ => None
    end /\
    List.length (Run.signed (snd cachingFirst)) = 1%nat.
Proof.
  destruct (proj2 (proj2 (proj2 (getHeader_reuses_cache Mock.World Mock.Date_now
              Mock.signatureFn None cachingFactory (Mock.start cachingWorld))))
              (HeaderResult.mk "PAYMENT-SIGNATURE"
                 (encodePaymentPayload
                    (buildPaymentPayload Mock.baseConfig Mock.account "1000000"
                       "0xabc123" "7" "1700000600"))
                 (Num.Int 1700000600))
              (snd (fst cachingFirst)) (snd cachingFirst) None
              (snd (fst cachingFirst)) (Mock.mk 1700000200000 [] []))
    as [h2 [H2 [Hv Hs]]]; try (vm_compute; reflexivity).
  exists h2. split; [exact H2|]. split.
    + rewrite Hv. reflexivity.
    + rewrite Hs. reflexivity.
Defined.

(** A signing function that answers with a deadline that is no numeral. *)
Definition undatedWorld : Mock.World :=
  Mock.mk 1700000000000
    [Ok (SignatureOutput.mk "0xabc123" "7" "soon" Mock.account)] [].

Definition undatedFirst : outcome HeaderResult.t * Factory.t * Run.t Mock.World :=
  HeaderFactory.getHeader Mock.World Mock.Date_now Mock.signatureFn None
    cachingFactory (Mock.start undatedWorld).

(** The entry that call leaves in the cache. *)
Definition undatedEntry : CachedHeader.t :=
  CachedHeader.mk
    (encodePaymentPayload
       (buildPaymentPayload Mock.baseConfig Mock.account "1000000" "0xabc123" "7"
          "soon"))
    Num.NaN "1000000" (RouterConfig.network Mock.baseConfig)
    (RouterConfig.asset Mock.baseConfig) (RouterConfig.payTo Mock.baseConfig).

(** Ten years later, with a signing function that would throw. *)
Definition muchLater : Run.t Mock.World :=
  Run.mk (Mock.mk 2015000000000 [] []) (Run.signed (snd undatedFirst)).

(** C1, as stated, fails: the signing function answers with the deadline
    "soon", which [parseInt] reads as NaN; the entry is cached with that
    deadline, and ten years later a call with the same cap answers from it
    without signing, although [cached.deadline - now > 60] does not hold. *)
Lemma undated_entry_counterexample :
  Factory.cached (snd (fst undatedFirst)) = Some undatedEntry /\
  ~ Spec.reusable Mock.World Mock.Date_now None (snd (fst undatedFirst))
      (Run.world muchLater) undatedEntry /\
  HeaderFactory.getHeader Mock.World Mock.Date_now Mock.signatureFn None
    (snd (fst undatedFirst)) muchLater =
  (Ok (HeaderResult.mk "PAYMENT-SIGNATURE" (CachedHeader.value undatedEntry) Num.NaN),
   snd (fst undatedFirst), muchLater) /\
  List.length (Run.signed muchLater) = 1%nat.
Proof.
  split; [reflexivity|]. split; [|split; reflexivity].
  intros (_ & _ & _ & d & Hd & _). discriminate Hd.
Qed.

(** C8, as stated, fails: an empty [capOverride] is provided, and the cap
    that reaches the signing function is the factory's [permitCap], not the
    empty string that [capOverride ?? permitCap] gives. *)
Lemma empty_capOverride_counterexample :
  Spec.effectiveCap emptyOverride cachingFactory = EmptyString /\
  HeaderFactory.capOf emptyOverride cachingFactory = "1000000" /\
  map SignatureInput.permitCap
    (Run.signed
       (snd (HeaderFactory.getHeader Mock.World Mock.Date_now Mock.signatureFn
               emptyOverride cachingFactory (Mock.start cachingWorld)))) =
  ["1000000"] /\
  HeaderFactory.capOf emptyOverride cachingFactory <>
  Spec.effectiveCap emptyOverride cachingFactory.
Proof.
  repeat split; try reflexivity. discriminate.
Qed.

Lemma effective_cap_witness :
  exists p : PaymentPayload.t,
    match fst (fst cachingFirst) with
    | Ok h => HeaderResult.headerValue h = encodePaymentPayload p
    | _ => False
    end /\
    PaymentPayload.value (PaymentPayload.authorization (PaymentPayload.payload p)) =
    "1000000".
Proof.
  destruct (proj2 (proj2 (effective_cap_is_override_unless_empty Mock.World
              Mock.Date_now Mock.signatureFn None cachingFactory
              (Mock.start cachingWorld)))
              (HeaderResult.mk "PAYMENT-SIGNATURE"
                 (encodePaymentPayload
                    (buildPaymentPayload Mock.baseConfig Mock.account "1000000"
                       "0xabc123" "7" "1700000600"))
                 (Num.Int 1700000600))
              (snd (fst cachingFirst)) (snd cachingFirst)
              (create_consistent Mock.baseConfig "1000000") eq_refl)
    as [p [Hp Hv]].
  exists p. split; [exact Hp|exact Hv].
Defined.

Lemma stale_header_witness :
  fst (fst (HeaderFactory.getHeader Mock.World Mock.Date_now Mock.signatureFn None
              (HeaderFactory.updateConfig rotatedConfig (snd (fst cachingFirst)))
              (Run.mk (Mock.mk 1700000200000 [] []) (Run.signed (snd cachingFirst))))) =
  Ok (HeaderResult.mk "X-PAYMENT"
        (encodePaymentPayload
           (buildPaymentPayload Mock.baseConfig Mock.account "1000000"
              "0xabc123" "7" "1700000600"))
        (Num.Int 1700000600)) /\
  List.length (Run.signed (snd cachingFirst)) = 1%nat.
Proof.
  destruct (proj2 (stale_header_after_updateConfig Mock.World Mock.Date_now
              Mock.signatureFn None cachingFactory (Mock.start cachingWorld)
              rotatedConfig eq_refl eq_refl eq_refl)
              (HeaderResult.mk "PAYMENT-SIGNATURE"
                 (encodePaymentPayload
                    (buildPaymentPayload Mock.baseConfig Mock.account "1000000"
                       "0xabc123" "7" "1700000600"))
                 (Num.Int 1700000600))
              (snd (fst cachingFirst)) (snd cachingFirst) None
              (Mock.mk 1700000200000 [] []) eq_refl eq_refl eq_refl eq_refl eq_refl)
    as [sg [Hsg [Hs H]]].
  split.
  - rewrite H. injection Hsg as <-. reflexivity.
  - rewrite Hs. reflexivity.
Defined.

(** ** Decimal text *)

Lemma append_nil_r (s : string) : s ++ EmptyString = s.
Proof. induction s; simpl; congruence. Qed.

Lemma append_assoc (a b c : string) : (a ++ b) ++ c = a ++ (b ++ c).
Proof. induction a; simpl; congruence. Qed.

Lemma takeDigits_printed (u : Decimal.uint) (rest : string) :
  Num.noDigitHead rest ->
  Num.takeDigits (NilEmpty.string_of_uint u ++ rest) = (u, rest).
Proof.
  intros H. induction u; simpl; try (rewrite IHu; reflexivity).
  destruct rest as [|c t]; [reflexivity|]. simpl in *. now rewrite H.
Qed.

Lemma leadingInt_printed (u : Decimal.uint) :
  u <> Decimal.Nil ->
  Num.leadingInt (NilEmpty.string_of_uint u) = Some (Z.of_uint u).
Proof.
  intros Hu. unfold Num.leadingInt.
  rewrite <- (append_nil_r (NilEmpty.string_of_uint u)) at 1.
  rewrite takeDigits_printed by exact I. simpl. now destruct u.
Qed.

Lemma readInt_printed (u : Decimal.uint) :
  u <> Decimal.Nil ->
  Num.readInt (NilEmpty.string_of_uint u) = Some (Z.of_uint u).
Proof.
  intros Hu. rewrite <- (leadingInt_printed u Hu).
  destruct u; try contradiction; reflexivity.
Qed.

Lemma printed_nonnil (u : Decimal.uint) :
  u <> Decimal.Nil -> NilZero.string_of_uint u = NilEmpty.string_of_uint u.
Proof. now destruct u. Qed.

(** The decimal text of an integer reads back as that integer. *)
Lemma readInt_toString (z : Z) : Num.readInt (Num.toString z) = Some z.
Proof.
  unfold Num.toString. destruct z as [|p|p]; [reflexivity| |]; simpl;
    pose proof (DecimalPos.Unsigned.to_uint_nonnil p) as Hn;
    rewrite (printed_nonnil _ Hn).
  - rewrite (readInt_printed _ Hn). f_equal. exact (DecimalZ.of_to (Z.pos p)).
  - unfold Num.readInt. simpl. rewrite (leadingInt_printed _ Hn). simpl.
    f_equal. exact (DecimalZ.of_to (Z.neg p)).
Qed.

(** ** Doubles *)

(** An integer of magnitude at most 2^53 is a double. *)
Lemma round53_safe (z : Z) : Z.abs z <= 2 ^ 53 -> Num.round53 z = z.
Proof.
  intros H. unfold Num.round53.
  destruct (Z.abs z <? 2 ^ 53) eqn:E; [reflexivity|].
  apply Z.ltb_ge in E.
  assert (Hz : z = 2 ^ 53 \/ z = - (2 ^ 53)) by lia.
  destruct Hz as [-> | ->]; reflexivity.
Qed.

(** [parseInt] reads back the text of a number of magnitude at most
    2^53. *)
Lemma parseInt_toString (z : Z) :
  Z.abs z <= 2 ^ 53 -> Num.parseInt (Num.toString z) = Ok (Num.Int z).
Proof.
  intros H. unfold Num.parseInt. rewrite readInt_toString.
  assert (E : (Z.abs z <? 10 ^ 20) = true) by (apply Z.ltb_lt; lia).
  now rewrite E, (round53_safe z H).
Qed.

Lemma print_Ok (n : Z) (text : string) :
  Num.print n = Ok text -> Z.abs n <= 2 ^ 53 /\ text = Num.toString n.
Proof.
  unfold Num.print. destruct (Z.abs n <=? 2 ^ 53) eqn:E; [|discriminate].
  apply Z.leb_le in E. now intros [= <-].
Qed.

Lemma print_safe (n : Z) : Z.abs n <= 2 ^ 53 -> Num.print n = Ok (Num.toString n).
Proof. intros H. unfold Num.print. apply Z.leb_le in H. now rewrite H. Qed.

(** ** The env_pk signer *)

(** Below 2^53 the sum [minDeadlineExclusive + 1] is exact, and the
    deadline is the one the specification words. *)
Lemma permitDeadline_safe (now m : Z) :
  Z.abs m < 2 ^ 53 ->
  permitDeadline now (Some (Num.Int m)) = Spec.permitDeadline now (Some m).
Proof.
  intros H. unfold permitDeadline, Spec.permitDeadline, DEFAULT_VALIDITY_SECONDS.
  destruct (now + 3600 <=? m); [|reflexivity]. apply round53_safe. lia.
Qed.

Lemma permitDeadline_exceeds (now m : Z) :
  Z.abs m < 2 ^ 53 -> permitDeadline now (Some (Num.Int m)) > m.
Proof.
  intros H. rewrite (permitDeadline_safe now m H). unfold Spec.permitDeadline.
  destruct (now + 3600 <=? m) eqn:E; [lia|]. apply Z.leb_gt in E. lia.
Qed.

Section EnvPrivateKeyFacts.

Variable W : Type.
Variable Date_now : W -> Z.
Variable privateKeyToAccount : string -> outcome string.
Variable fetchPermitNonce : Chain -> string -> string -> W -> outcome Z * W.
Variable signTypedData : Chain -> string -> TypedData.t -> W -> outcome string * W.

#[local] Abbreviation envSignatureFn :=
  (createEnvPrivateKeySignatureFn W Date_now privateKeyToAccount fetchPermitNonce
     signTypedData).

(** A run of the signer that returns, taken apart. *)
Lemma envSignatureFn_inv privateKey input w out w' :
  envSignatureFn privateKey input w = (Ok out, w') ->
  let deadline :=
    permitDeadline (secondsOf (Date_now w)) (SignatureInput.minDeadlineExclusive input) in
  exists chain chainId account n w1 value,
    chainOf (SignatureInput.network input) = Ok chain /\
    chainIdOf (SignatureInput.network input) = Ok chainId /\
    privateKeyToAccount privateKey = Ok account /\
    fetchPermitNonce chain (SignatureInput.asset input) account w = (Ok n, w1) /\
    BigInt (SignatureInput.permitCap input) = Ok value /\
    signTypedData chain account
      (TypedData.mk (SignatureInput.tokenName input)
         (SignatureInput.tokenVersion input) chainId
         (SignatureInput.asset input) account
         (SignatureInput.facilitatorSigner input) value n deadline) w1 =
    (Ok (SignatureOutput.signature out), w') /\
    Num.print deadline = Ok (SignatureOutput.deadline out) /\
    SignatureOutput.nonce out = Num.toString n /\
    SignatureOutput.accountAddress out = account.
Proof.
  intros H deadline. unfold createEnvPrivateKeySignatureFn in H. fold deadline in H.
  destruct (chainOf _) as [chain| |] eqn:Ec; try discriminate.
  destruct (chainIdOf _) as [chainId| |] eqn:Ei; try discriminate.
  destruct (privateKeyToAccount _) as [account| |] eqn:Ea; try discriminate.
  destruct (fetchPermitNonce _ _ _ _) as [[n| |] w1] eqn:En; try discriminate.
  destruct (BigInt _) as [value| |] eqn:Ev; try discriminate.
  destruct (signTypedData _ _ _ _) as [[sg| |] w2] eqn:Es; try discriminate.
  destruct (Num.print deadline) as [text| |] eqn:Ep; try discriminate.
  injection H as <- <-. exists chain, chainId, account, n, w1, value.
  cbn [SignatureOutput.signature SignatureOutput.deadline SignatureOutput.nonce
       SignatureOutput.accountAddress].
  repeat split; assumption || reflexivity.
Qed.

Lemma envSignatureFn_Ok privateKey input w out w' :
  envSignatureFn privateKey input w = (Ok out, w') ->
  Num.print (permitDeadline (secondsOf (Date_now w))
               (SignatureInput.minDeadlineExclusive input)) =
  Ok (SignatureOutput.deadline out).
Proof.
  intros H. apply envSignatureFn_inv in H.
  now destruct H as (chain & chainId & account & n & w1 & value & _ & _ & _ & _ & _ & _ & H & _).
Qed.

(** What the factory reads from the deadline the signer returns. *)
Lemma envSignatureFn_deadline privateKey input w out w' :
  envSignatureFn privateKey input w = (Ok out, w') ->
  Num.parseInt (SignatureOutput.deadline out) =
  Ok (Num.Int (permitDeadline (secondsOf (Date_now w))
                 (SignatureInput.minDeadlineExclusive input))).
Proof.
  intros H. apply envSignatureFn_Ok, print_Ok in H. destruct H as [Hb ->].
  now apply parseInt_toString.
Qed.

(** C6, amended.  The env_pk signer computes its deadline as
    [floor(now) + 3600], except that with a [minDeadlineExclusive] that is a
    number which this does not exceed the deadline is the double nearest to
    [minDeadlineExclusive + 1].  For a [minDeadlineExclusive] below 2^53 in
    magnitude that is [minDeadlineExclusive + 1] itself, and the deadline is
    strictly greater than the bound; a bound that is NaN leaves the deadline
    at [floor(now) + 3600].  Whenever the signer returns, its [deadline] is
    the decimal text of that number, which is then at most 2^53 and reads
    back as it is; and it does return when the chain, the chain id, the
    account, the nonce read, the cap, the signature and the text of the
    deadline are obtained. *)
Theorem env_pk_deadline (privateKey : string) (input : SignatureInput.t) (w : W) :
  let now := secondsOf (Date_now w) in
  let deadline := permitDeadline now (SignatureInput.minDeadlineExclusive input) in
  deadline =
  match SignatureInput.minDeadlineExclusive input with
  | Some (Num.Int m) => if now + 3600 <=? m then Num.round53 (m + 1) else now + 3600
  | Some Num.NaN => now + 3600
  | None => now + 3600
  end /\
  (forall m,
     SignatureInput.minDeadlineExclusive input = Some (Num.Int m) ->
     Z.abs m < 2 ^ 53 ->
     deadline = (if now + 3600 <=? m then m + 1 else now + 3600) /\
     deadline = Spec.permitDeadline now (Some m) /\
     deadline > m) /\
  (forall out w',
     envSignatureFn privateKey input w = (Ok out, w') ->
     Z.abs deadline <= 2 ^ 53 /\
     SignatureOutput.deadline out = Num.toString deadline /\
     Num.parseInt (SignatureOutput.deadline out) = Ok (Num.Int deadline)) /\
  (forall chain chainId account n w1 value sg w2,
     chainOf (SignatureInput.network input) = Ok chain ->
     chainIdOf (SignatureInput.network input) = Ok chainId ->
     privateKeyToAccount privateKey = Ok account ->
     fetchPermitNonce chain (SignatureInput.asset input) account w = (Ok n, w1) ->
     BigInt (SignatureInput.permitCap input) = Ok value ->
     signTypedData chain account
       (TypedData.mk (SignatureInput.tokenName input)
          (SignatureInput.tokenVersion input) chainId
          (SignatureInput.asset input) account
          (SignatureInput.facilitatorSigner input) value n deadline) w1 =
     (Ok sg, w2) ->
     Z.abs deadline <= 2 ^ 53 ->
     envSignatureFn privateKey input w =
     (Ok (SignatureOutput.mk sg (Num.toString n) (Num.toString deadline) account), w2)).
Proof.
  intros now deadline. split; [|split; [|split]].
  - unfold deadline, permitDeadline, DEFAULT_VALIDITY_SECONDS.
    now destruct (SignatureInput.minDeadlineExclusive input) as [[|m]|].
  - intros m Hm Hsafe. subst deadline. rewrite Hm.
    split; [|split].
    + now rewrite (permitDeadline_safe now m Hsafe).
    + now apply permitDeadline_safe.
    + now apply permitDeadline_exceeds.
  - intros out w' H. pose proof (envSignatureFn_deadline _ _ _ _ _ H) as Hd.
    apply envSignatureFn_Ok, print_Ok in H. fold now deadline in H, Hd.
    destruct H as [Hb Ht]. now repeat split.
  - intros chain chainId account n w1 value sg w2 Hc Hi Ha Hn Hv Hs Hb.
    unfold createEnvPrivateKeySignatureFn.
    rewrite Hc, Hi, Ha, Hn, Hv. fold now. fold deadline.
    now rewrite Hs, (print_safe _ Hb).
Qed.

End EnvPrivateKeyFacts.

(** A retry at 1 700 000 000 s that must outlive a deadline two hours
    away. *)
Definition retryInput : SignatureInput.t :=
  SignatureInput.mk "eip155:8453" DEFAULT_USDC_BASE
    (RouterConfig.payTo Mock.baseConfig) (RouterConfig.payTo Mock.baseConfig)
    "USD Coin" "2" "500000" (Some (Num.Int 1700007200)).

Lemma env_pk_deadline_witness :
  fst (Mock.envSigner retryInput cachingWorld) =
  Ok (SignatureOutput.mk "0xsigned" "7" "1700007201" Mock.account) /\
  permitDeadline 1700000000 (Some (Num.Int 1700007200)) > 1700007200.
Proof.
  pose proof (env_pk_deadline Mock.World Mock.Date_now Mock.privateKeyToAccount
                Mock.fetchPermitNonce Mock.signTypedData
                "0xaaaaaaaaaaaaaaaaaaaaaaaaaaaaaaaaaaaaaaaaaaaaaaaaaaaaaaaaaaaaaaaa"
                retryInput cachingWorld) as [_ [Hgt [_ Hrun]]].
  assert (Hsafe : Z.abs 1700007200 < 2 ^ 53) by (vm_compute; reflexivity).
  assert (Hb : Z.abs (permitDeadline (secondsOf (Mock.Date_now cachingWorld))
                        (SignatureInput.minDeadlineExclusive retryInput)) <= 2 ^ 53)
    by (vm_compute; discriminate).
  split.
  - unfold Mock.envSigner.
    rewrite (Hrun base (Num.Int 8453) Mock.account 7 cachingWorld 500000 "0xsigned"
               cachingWorld eq_refl eq_refl eq_refl eq_refl eq_refl eq_refl Hb).
    reflexivity.
  - exact (proj2 (proj2 (Hgt 1700007200 eq_refl Hsafe))).
Defined.

(** The same retry with the bound 2^53. *)
Definition farInput : SignatureInput.t :=
  SignatureInput.mk "eip155:8453" DEFAULT_USDC_BASE
    (RouterConfig.payTo Mock.baseConfig) (RouterConfig.payTo Mock.baseConfig)
    "USD Coin" "2" "500000" (Some (Num.Int 9007199254740992)).

(** C6, as stated, fails: with [minDeadlineExclusive] = 2^53 the sum
    [minDeadlineExclusive + 1] is 2^53 again, the double nearest to
    2^53 + 1.  The signer returns the deadline 9007199254740992, which is
    the bound and not [minDeadlineExclusive + 1], and is not strictly
    greater than the bound. *)
Lemma deadline_at_2_53_counterexample :
  fst (Mock.envSigner farInput cachingWorld) =
  Ok (SignatureOutput.mk "0xsigned" "7" "9007199254740992" Mock.account) /\
  permitDeadline (secondsOf (Mock.Date_now cachingWorld))
    (SignatureInput.minDeadlineExclusive farInput) = 9007199254740992 /\
  Spec.permitDeadline (secondsOf (Mock.Date_now cachingWorld))
    (Some 9007199254740992) = 9007199254740993 /\
  ~ permitDeadline (secondsOf (Mock.Date_now cachingWorld))
      (SignatureInput.minDeadlineExclusive farInput) > 9007199254740992.
Proof.
  split; [reflexivity|]. split; [reflexivity|]. split; [reflexivity|].
  vm_compute. discriminate.
Qed.

(** ** Headers *)

Lemma joined_absent (name : string) (h : Headers.t) :
  Headers.hasName name h = false -> Headers.joined name h = None.
Proof.
  induction h as [|e h IH]; [reflexivity|]. simpl.
  destruct (String.eqb (fst e) name); [discriminate|]. exact IH.
Qed.

Lemma hasName_without (name : string) (h : Headers.t) :
  Headers.hasName name (Headers.without name h) = false.
Proof.
  induction h as [|e h IH]; [reflexivity|]. simpl.
  destruct (String.eqb (fst e) name) eqn:E; simpl; [exact IH|].
  now rewrite E.
Qed.

Lemma joined_replace (name value : string) (h : Headers.t) :
  Headers.hasName name h = true ->
  Headers.joined name (Headers.replace name value h) = Some value.
Proof.
  induction h as [|e h IH]; [discriminate|]. simpl.
  destruct (String.eqb (fst e) name) eqn:E; simpl.
  - intros _. rewrite String.eqb_refl.
    now rewrite (joined_absent _ _ (hasName_without name h)).
  - rewrite E. exact IH.
Qed.

Lemma joined_appended (name value : string) (h : Headers.t) :
  Headers.hasName name h = false ->
  Headers.joined name (h ++ [(name, value)])%list = Some value.
Proof.
  induction h as [|e h IH]; simpl.
  - intros _. now rewrite String.eqb_refl.
  - destruct (String.eqb (fst e) name); [discriminate|]. exact IH.
Qed.

(** After [h.set(name, value)], [h.get(name)] is the value, trimmed. *)
Lemma get_set (name value : string) (h0 hs : Headers.t) :
  Headers.set name value h0 = Ok hs ->
  Headers.get name hs = Some (Headers.normalize value).
Proof.
  unfold Headers.set, Headers.get.
  destruct (_ && _); [|discriminate].
  destruct (Headers.hasName _ h0) eqn:E; intros [= <-].
  - now apply joined_replace.
  - now apply joined_appended.
Qed.

(** ** The interceptor *)

Section ClientFacts.

Variable W : Type.
Variable Date_now : W -> Z.
Variable baseFetch : RequestInfo -> option RequestInit.t -> W -> outcome Response.t * W.
Variable newURL : string -> option string -> option URL.t.
Variable input : Input.t W.

#[local] Abbreviation M := (Client.M W).
#[local] Abbreviation bind := (Client.bind W).
#[local] Abbreviation lift := (Client.lift W).
#[local] Abbreviation ret := (Client.ret W).
#[local] Abbreviation callFetch := (Client.callFetch W baseFetch).
#[local] Abbreviation getConfig := (Client.getConfig W baseFetch input).
#[local] Abbreviation getFactory := (Client.getFactory W baseFetch input).
#[local] Abbreviation onFactory := (Client.onFactory W input).
#[local] Abbreviation changeFactory := (Client.changeFactory W input).
#[local] Abbreviation sendWithPermit := (Client.sendWithPermit W Date_now baseFetch input).
#[local] Abbreviation afterInitial := (Client.afterInitial W Date_now baseFetch input).
#[local] Abbreviation wrappedFetch := (Client.wrappedFetch W Date_now baseFetch newURL input).
#[local] Abbreviation staticHeaderValue := (Client.staticHeaderValue W input).
#[local] Abbreviation staticHeaderName := (Client.staticHeaderName W input).
#[local] Abbreviation retries := (Client.retries W input).
#[local] Abbreviation carriesPayment := (Client.carriesPayment W Date_now input).
#[local] Abbreviation isPaymentHeader := (Client.isPaymentHeader W Date_now input).

Lemma bind_inv {A B : Type} (m : M A) (k : A -> M B) s res s' :
  bind m k s = (res, s') ->
  (exists a s1, m s = (Ok a, s1) /\ k a s1 = (res, s')) \/
  (m s = (Throw, s') /\ res = Throw) \/
  (m s = (Beyond, s') /\ res = Beyond).
Proof.
  unfold Client.bind. destruct (m s) as [[a| |] s1]; intros H.
  - left. now exists a, s1.
  - right. left. now injection H as <- <-.
  - right. right. now injection H as <- <-.
Qed.

Lemma bind_Ok {A B : Type} (m : M A) (k : A -> M B) s a s1 :
  m s = (Ok a, s1) -> bind m k s = k a s1.
Proof. unfold Client.bind. now intros ->. Qed.

Lemma bind_lift_Ok {A B : Type} (o : outcome A) (k : A -> M B) s a :
  o = Ok a -> bind (lift o) k s = k a s.
Proof. intros ->. reflexivity. Qed.

Lemma callFetch_eq requestInfo requestInit s :
  callFetch requestInfo requestInit s =
  (fst (baseFetch requestInfo requestInit (Run.world (Session.run s))),
   Session.mk
     (Run.mk (snd (baseFetch requestInfo requestInit (Run.world (Session.run s))))
        (Run.signed (Session.run s)))
     (Session.fetched s ++ [(requestInfo, requestInit)])%list
     (Session.configPromise s) (Session.headerFactoryPromise s)).
Proof. unfold Client.callFetch. now destruct (baseFetch _ _ _). Qed.


Lemma lift_inv {A : Type} (o : outcome A) s res s' :
  lift o s = (res, s') -> res = o /\ s' = s.
Proof. unfold Client.lift. now intros [= <- <-]. Qed.

Lemma ret_inv {A : Type} (a : A) s res s' :
  ret a s = (res, s') -> res = Ok a /\ s' = s.
Proof. unfold Client.ret. now intros [= <- <-]. Qed.

(** A method of the factory leaves the transport alone. *)
Lemma onFactory_inv {A : Type} op s (res : outcome A) s' :
  onFactory op s = (res, s') ->
  Session.fetched s' = Session.fetched s /\
  Session.configPromise s' = Session.configPromise s /\
  ((res = Throw /\ s' = s /\
    (Input.signatureFn input = None \/ Session.headerFactoryPromise s = None)) \/
   exists sign f f' r',
     Input.signatureFn input = Some sign /\
     Session.headerFactoryPromise s = Some f /\
     op sign f (Session.run s) = (res, f', r') /\
     s' = Session.mk r' (Session.fetched s) (Session.configPromise s) (Some f')).
Proof.
  unfold Client.onFactory.
  destruct (Input.signatureFn input) as [sign|];
    [destruct (Session.headerFactoryPromise s) as [f|]|].
  - destruct (op sign f (Session.run s)) as [[res0 f'] r'] eqn:E.
    intros [= <- <-]. simpl. repeat split. right. now exists sign, f, f', r'.
  - intros [= <- <-]. repeat split. left. auto.
  - intros [= <- <-]. repeat split. left. auto.
Qed.

Lemma changeFactory_eq g s sign f :
  Input.signatureFn input = Some sign ->
  Session.headerFactoryPromise s = Some f ->
  changeFactory g s = (Ok tt, Session.withFactory (g f) s).
Proof.
  intros Hs Hf. unfold Client.changeFactory, Client.onFactory.
  rewrite Hs, Hf. destruct s as [r fe cp hf]. reflexivity.
Qed.

(** The log after [callFetch]. *)
Lemma callFetch_inv requestInfo requestInit s res s' :
  callFetch requestInfo requestInit s = (res, s') ->
  baseFetch requestInfo requestInit (Run.world (Session.run s)) =
  (res, Run.world (Session.run s')) /\
  Session.fetched s' = (Session.fetched s ++ [(requestInfo, requestInit)])%list /\
  Run.signed (Session.run s') = Run.signed (Session.run s) /\
  Session.configPromise s' = Session.configPromise s /\
  Session.headerFactoryPromise s' = Session.headerFactoryPromise s.
Proof.
  unfold Client.callFetch. destruct (baseFetch _ _ _) as [res0 w'].
  now intros [= <- <-].
Qed.

(** [getConfig] calls the transport at most once, for the configuration. *)
Lemma getConfig_inv (c : Closure.t) s res s' :
  getConfig c s = (res, s') ->
  (Session.fetched s' = Session.fetched s \/
   Session.fetched s' = (Session.fetched s ++ [Client.configCall c])%list) /\
  (Session.configPromise s <> None -> Session.fetched s' = Session.fetched s) /\
  Run.signed (Session.run s') = Run.signed (Session.run s) /\
  Session.headerFactoryPromise s' = Session.headerFactoryPromise s /\
  (forall config, res = Ok config -> Session.configPromise s' = Some config).
Proof.
  unfold Client.getConfig.
  destruct (Session.configPromise s) as [config|] eqn:Ec.
  - intros [= <- <-]. rewrite Ec. repeat split; auto. now intros config' [= <-].
  - unfold Client.fetchRouterConfig, Client.bind.
    destruct (Client.callFetch W baseFetch _ None s) as [o s1] eqn:E1.
    apply callFetch_inv in E1. destruct E1 as (_ & Hf & Hs & _ & Hh).
    assert (Hmain : forall res0 s2,
              Session.fetched s2 = Session.fetched s1 ->
              Run.signed (Session.run s2) = Run.signed (Session.run s1) ->
              Session.headerFactoryPromise s2 = Session.headerFactoryPromise s1 ->
              (forall config, res0 = Ok config -> Session.configPromise s2 = Some config) ->
              (res0, s2) = (res, s') ->
              (Session.fetched s' = Session.fetched s \/
               Session.fetched s' = (Session.fetched s ++ [Client.configCall c])%list) /\
              (@None RouterConfig.t <> None -> Session.fetched s' = Session.fetched s) /\
              Run.signed (Session.run s') = Run.signed (Session.run s) /\
              Session.headerFactoryPromise s' = Session.headerFactoryPromise s /\
              (forall config, res = Ok config -> Session.configPromise s' = Some config)).
    { intros res0 s2 H1 H2 H3 H4 [= <- <-]. repeat split.
      - right. now rewrite H1, Hf.
      - intros H. now contradiction H.
      - congruence.
      - congruence.
      - exact H4. }
    destruct o as [response| |].
    + destruct (negb (Response.ok response)); unfold Client.lift;
        [apply Hmain; auto; now intros config [= <-]|].
      destruct (Response.json response) as [data| |];
        [destruct (parseRouterConfigResponse data) as [config| |]| |];
        apply Hmain; auto; try discriminate; now intros config' [= <-].
    + apply Hmain; auto. now intros config [= <-].
    + apply Hmain; auto. discriminate.
Qed.

(** [getFactory] settles a factory, fetching the configuration at most
    once, and only when neither it nor the factory is there yet. *)
Lemma getFactory_inv (c : Closure.t) s res s' :
  getFactory c s = (res, s') ->
  (Session.fetched s' = Session.fetched s \/
   Session.fetched s' = (Session.fetched s ++ [Client.configCall c])%list) /\
  (Session.headerFactoryPromise s <> None \/ Session.configPromise s <> None ->
   Session.fetched s' = Session.fetched s) /\
  Run.signed (Session.run s') = Run.signed (Session.run s) /\
  (res = Ok tt ->
   exists sign f,
     Input.signatureFn input = Some sign /\
     Session.headerFactoryPromise s' = Some f /\
     (Session.headerFactoryPromise s = Some f \/
      Session.headerFactoryPromise s = None /\
      exists config,
        f = HeaderFactory.createPaymentHeaderFactory config (Input.permitCap input))).
Proof.
  unfold Client.getFactory.
  destruct (Input.signatureFn input) as [sign|];
    [|intros [= <- <-]; repeat split; auto; discriminate].
  destruct (Session.headerFactoryPromise s) as [f|] eqn:Ef.
  - intros [= <- <-]. rewrite Ef. repeat split; auto.
    intros _. exists sign, f. auto.
  - unfold Client.bind.
    destruct (Client.getConfig W baseFetch input c s) as [o s1] eqn:E1.
    apply getConfig_inv in E1. destruct E1 as (Hf & Hn & Hs & Hh & _).
    destruct o as [config| |]; unfold Client.setFactory.
    + intros [= <- <-]. simpl. repeat split; auto.
      * intros [H|H]; [now contradiction H|auto].
      * intros _. exists sign. eexists. repeat split. right. eauto.
    + intros [= <- <-]. repeat split; auto; try discriminate.
      intros [H|H]; [now contradiction H|auto].
    + intros [= <- <-]. repeat split; auto; try discriminate.
      intros [H|H]; [now contradiction H|auto].
Qed.

(** The first or the second attempt, in signing mode, when the headers can
    be built and the factory answers. *)
Lemma sendWithPermit_signing requestInfo requestInit capOverride minDeadlineExclusive
  s sign f h0 h f' r' hs :
  staticHeaderValue = None ->
  Input.signatureFn input = Some sign ->
  Session.headerFactoryPromise s = Some f ->
  Headers.create (headersOf requestInit) = Ok h0 ->
  HeaderFactory.getHeader W Date_now sign
    (Some (Options.mk capOverride minDeadlineExclusive)) f (Session.run s) =
  (Ok h, f', r') ->
  Headers.set (HeaderResult.headerName h) (HeaderResult.headerValue h) h0 = Ok hs ->
  sendWithPermit requestInfo requestInit capOverride minDeadlineExclusive s =
  let sent := (requestInfo, Some (withHeaders requestInit hs)) in
  let answer := baseFetch (fst sent) (snd sent) (Run.world r') in
  (bindO (fst answer) (fun response =>
     Ok (Sent.mk response (Some (HeaderResult.deadline h)))),
   Session.mk (Run.mk (snd answer) (Run.signed r'))
     (Session.fetched s ++ [sent])%list (Session.configPromise s) (Some f')).
Proof.
  intros Hstatic Hsign Hf Hc Hg Hset.
  unfold Client.sendWithPermit, Client.bind, Client.lift. rewrite Hc, Hstatic.
  unfold Client.onFactory. rewrite Hsign, Hf, Hg, Hset.
  rewrite callFetch_eq. simpl.
  now destruct (fst (baseFetch _ _ _)).
Qed.

Lemma changeFactory_fetched g s res s' :
  changeFactory g s = (res, s') -> Session.fetched s' = Session.fetched s.
Proof. intros H. now apply onFactory_inv in H. Qed.


Lemma wrappedFetch_charges (c : Closure.t) requestInfo requestInit s parsed :
  Client.parseUrl newURL c (Client.rawUrlOf requestInfo) = Ok parsed ->
  Client.passesThrough c parsed = false ->
  wrappedFetch c requestInfo requestInit s =
  bind (match staticHeaderValue with
        | Some _ => ret tt
        | None => getFactory c
        end)
    (fun _ =>
       bind (sendWithPermit requestInfo requestInit None None)
         (afterInitial requestInfo requestInit)) s.
Proof.
  intros Hp Hpass. unfold Client.wrappedFetch, Client.bind at 1, Client.lift.
  now rewrite Hp, Hpass.
Qed.

Lemma withFactory_same (s : Session.t W) f :
  Session.headerFactoryPromise s = Some f -> Session.withFactory f s = s.
Proof. destruct s as [r fe cp hf]. simpl. now intros ->. Qed.

(** Lines 311 to 329 in signing mode, once the body and the header of
    the 401 or 402 response are read. *)
Lemma afterInitial_challenge requestInfo requestInit initial s sign f error requirement :
  Input.signatureFn input = Some sign ->
  staticHeaderValue = None ->
  Session.headerFactoryPromise s = Some f ->
  Response.status (Sent.response initial) = 401 \/
  Response.status (Sent.response initial) = 402 ->
  Client.extractErrorResponse (Sent.response initial) = Ok error ->
  Client.requirementOf (Sent.response initial) = Ok requirement ->
  afterInitial requestInfo requestInit initial s =
  if retries error
  then bind (sendWithPermit requestInfo requestInit
               (getRequirementMaxAmountRequired requirement) (Sent.deadline initial))
         (fun refreshed => ret (Sent.response refreshed))
         (Session.withFactory (HeaderFactory.invalidate (challenged requirement f)) s)
  else (Ok (Sent.response initial), Session.withFactory (challenged requirement f) s).
Proof.
  intros Hsign Hstatic Hf Hstatus He Hq. unfold Client.afterInitial.
  assert (Hs : negb (Response.status (Sent.response initial) =? 401) &&
               negb (Response.status (Sent.response initial) =? 402) = false).
  { destruct Hstatus as [-> | ->]; reflexivity. }
  rewrite Hs. rewrite (bind_lift_Ok _ _ _ _ He), (bind_lift_Ok _ _ _ _ Hq).
  rewrite Hstatic.
  assert (Hupd : match requirement with
                 | Some _ =>
                     changeFactory (fun f0 =>
                       HeaderFactory.updateConfig
                         (applyPaymentRequirement (HeaderFactory.getConfig f0) requirement) f0)
                 | None => ret tt
                 end s = (Ok tt, Session.withFactory (challenged requirement f) s)).
  { destruct requirement as [q|]; unfold challenged.
    - exact (changeFactory_eq _ _ _ _ Hsign Hf).
    - now rewrite (withFactory_same _ _ Hf). }
  rewrite (bind_Ok _ _ _ _ _ Hupd).
  destruct (retries error); simpl; [|reflexivity].
  assert (Hinv : changeFactory HeaderFactory.invalidate
                   (Session.withFactory (challenged requirement f) s) =
                 (Ok tt, Session.withFactory
                           (HeaderFactory.invalidate (challenged requirement f)) s)).
  { exact (changeFactory_eq HeaderFactory.invalidate
             (Session.withFactory (challenged requirement f) s) sign
             (challenged requirement f) Hsign eq_refl). }
  now rewrite (bind_Ok _ _ _ _ _ Hinv).
Qed.

(** The same lines in static-header mode: the response comes back as it
    is. *)
Lemma afterInitial_static requestInfo requestInit initial s v error requirement :
  staticHeaderValue = Some v ->
  Response.status (Sent.response initial) = 401 \/
  Response.status (Sent.response initial) = 402 ->
  Client.extractErrorResponse (Sent.response initial) = Ok error ->
  Client.requirementOf (Sent.response initial) = Ok requirement ->
  afterInitial requestInfo requestInit initial s = (Ok (Sent.response initial), s).
Proof.
  intros Hstatic Hstatus He Hq. unfold Client.afterInitial.
  assert (Hs : negb (Response.status (Sent.response initial) =? 401) &&
               negb (Response.status (Sent.response initial) =? 402) = false).
  { destruct Hstatus as [-> | ->]; reflexivity. }
  rewrite Hs. rewrite (bind_lift_Ok _ _ _ _ He), (bind_lift_Ok _ _ _ _ Hq).
  unfold Client.retries. rewrite Hstatic.
  destruct requirement, error; reflexivity.
Qed.



Lemma shouldInvalidatePermit_iff (e : ErrorResponse.t) :
  let text := normalizeErrorText (ErrorResponse.error e) (ErrorResponse.message e) in
  shouldInvalidatePermit e = true <->
  (codeIs e "cap_exhausted" = true \/ codeIs e "session_closed" = true \/
   codeIs e "settlement_blocked" = true) \/
  (Str.includes text "cap exhausted" = true \/
   Str.includes text "session closed" = true \/
   Str.includes text "settlement blocked" = true \/
   Str.includes text "blocked after previous settlement" = true).
Proof.
  intros text. unfold shouldInvalidatePermit, isCapExhausted, isSessionClosed,
    isSettlementBlocked. fold text.
  destruct (codeIs e "cap_exhausted"), (codeIs e "session_closed"),
    (codeIs e "settlement_blocked"); simpl;
    rewrite ?orb_true_iff; intuition discriminate.
Qed.

Lemma retries_iff (error : option ErrorResponse.t) :
  retries error = true <->
  staticHeaderValue = None /\
  exists e, error = Some e /\ shouldInvalidatePermit e = true.
Proof.
  unfold Client.retries.
  destruct error as [e|], staticHeaderValue as [v|]; split;
    try discriminate;
    try (intros [H1 [e' [H2 H3]]]; try discriminate;
         injection H2 as <-; assumption).
  intros H. split; [reflexivity|]. now exists e.
Qed.

(** What an attempt adds to the log: nothing when it fails before the
    transport is reached, and otherwise the request with the payment header
    of the attempt. *)
Lemma sendWithPermit_trace requestInfo requestInit capOverride minDeadlineExclusive
  s res s' :
  sendWithPermit requestInfo requestInit capOverride minDeadlineExclusive s = (res, s') ->
  (Session.fetched s' = Session.fetched s /\ is_Ok res = false) \/
  (exists e, Session.fetched s' = (Session.fetched s ++ [e])%list /\
             carriesPayment requestInfo requestInit capOverride minDeadlineExclusive s e).
Proof.
  unfold Client.sendWithPermit, Client.bind at 1, Client.lift at 1.
  destruct (Headers.create (headersOf requestInit)) as [h0| |] eqn:Hc;
    try (intros [= <- <-]; now left).
  destruct staticHeaderValue as [v|] eqn:Hstatic.
  - unfold Client.bind, Client.lift.
    destruct (Headers.set _ v h0) as [hs| |] eqn:Hset;
      try (intros [= <- <-]; now left).
    destruct (Client.callFetch W baseFetch _ _ s) as [o s1] eqn:E1.
    apply callFetch_inv in E1. destruct E1 as (_ & Hf & _).
    intros H. right. exists (requestInfo, Some (withHeaders requestInit hs)).
    split.
    + destruct o; injection H as <- <-; exact Hf.
    + exists staticHeaderName, v. split.
      * unfold Client.isPaymentHeader. now rewrite Hstatic.
      * now exists h0, hs.
  - unfold Client.bind at 1.
    destruct (Client.onFactory W input _ s) as [o s1] eqn:E1.
    apply onFactory_inv in E1. destruct E1 as (Hf1 & _ & Hcase).
    destruct o as [h| |]; try (intros [= <- <-]; now left).
    destruct Hcase as [[[=] _]|(sign & f & f' & r' & Hsign & Hfac & Hg & ->)].
    unfold Client.bind, Client.lift.
    destruct (Headers.set _ _ h0) as [hs| |] eqn:Hset;
      try (intros [= <- <-]; now left).
    destruct (Client.callFetch W baseFetch _ _ _) as [o s2] eqn:E2.
    apply callFetch_inv in E2. destruct E2 as (_ & Hf2 & _).
    intros H. right. exists (requestInfo, Some (withHeaders requestInit hs)).
    split.
    + destruct o; injection H as <- <-; exact Hf2.
    + exists (HeaderResult.headerName h), (HeaderResult.headerValue h). split.
      * unfold Client.isPaymentHeader. rewrite Hstatic.
        exists sign, f, h, f', r'. now repeat split.
      * now exists h0, hs.
Qed.


(** After the first attempt the log gains at most one request: the retry,
    which carries the payment header had from the invalidated factory for
    the cap of the requirement and the deadline of the first attempt. *)
Lemma afterInitial_trace requestInfo requestInit initial s res s' :
  afterInitial requestInfo requestInit initial s = (res, s') ->
  Session.fetched s' = Session.fetched s \/
  (exists e f requirement,
     Session.headerFactoryPromise s = Some f /\
     Client.requirementOf (Sent.response initial) = Ok requirement /\
     Session.fetched s' = (Session.fetched s ++ [e])%list /\
     carriesPayment requestInfo requestInit
       (getRequirementMaxAmountRequired requirement) (Sent.deadline initial)
       (Session.withFactory (HeaderFactory.invalidate (challenged requirement f)) s) e).
Proof.
  intros H.
  destruct (negb (Response.status (Sent.response initial) =? 401) &&
            negb (Response.status (Sent.response initial) =? 402)) eqn:Hst.
  { unfold Client.afterInitial in H. rewrite Hst in H. injection H as _ <-. now left. }
  assert (Hstatus : Response.status (Sent.response initial) = 401 \/
                    Response.status (Sent.response initial) = 402).
  { apply andb_false_iff in Hst.
    destruct Hst as [Hst|Hst]; apply negb_false_iff, Z.eqb_eq in Hst; auto. }
  destruct (Client.extractErrorResponse (Sent.response initial)) as [error| |] eqn:He.
  2,3: unfold Client.afterInitial, Client.bind, Client.lift in H;
    rewrite Hst, He in H; injection H as _ <-; now left.
  destruct (Client.requirementOf (Sent.response initial)) as [requirement| |] eqn:Hq.
  2,3: unfold Client.afterInitial, Client.bind, Client.lift in H;
    rewrite Hst, He, Hq in H; injection H as _ <-; now left.
  destruct staticHeaderValue as [v|] eqn:Hstatic.
  { rewrite (afterInitial_static _ _ _ _ _ _ _ Hstatic Hstatus He Hq) in H.
    injection H as _ <-. now left. }
  destruct (Input.signatureFn input) as [sign|] eqn:Hsign;
    [destruct (Session.headerFactoryPromise s) as [f|] eqn:Hf|].
  - rewrite (afterInitial_challenge _ _ _ _ _ _ _ _ Hsign Hstatic Hf Hstatus He Hq) in H.
    destruct (retries error); [|injection H as _ <-; now left].
    apply bind_inv in H.
    destruct H as [(refreshed & s3 & H3 & H)|[[H3 _]|[H3 _]]];
      apply sendWithPermit_trace in H3; [injection H as _ <-| |];
      (destruct H3 as [[H3 _]|(e & H3 & He3)];
       [left; exact H3|right; exists e, f, requirement; now repeat split]).
  - left. unfold Client.afterInitial, Client.bind, Client.lift, Client.changeFactory,
      Client.onFactory, Client.ret in H.
    rewrite Hst, He, Hq, Hstatic, Hsign in H.
    destruct requirement, (negb (retries error)); cbv beta iota zeta in H;
      rewrite ?Hf in H; cbv beta iota zeta in H; now injection H as _ <-.
  - left. unfold Client.afterInitial, Client.bind, Client.lift, Client.changeFactory,
      Client.onFactory, Client.ret in H.
    rewrite Hst, He, Hq, Hstatic, Hsign in H.
    destruct requirement, (negb (retries error)); cbv beta iota zeta in H;
      now injection H as _ <-.
Qed.



End ClientFacts.

(** ** Bytes *)

Lemma N_of_ascii_lt (c : ascii) : (N_of_ascii c < 256)%N.
Proof. apply N_ascii_bounded. Qed.

Lemma sextets : forall v, (v < 64)%N -> Base64.value (Base64.char v) = Some v.
Proof.
  intros v Hv.
  assert (H : forallb (fun n => match Base64.value (Base64.char (N.of_nat n)) with
                                | Some w => N.eqb w (N.of_nat n)
                                | None => false
                                end) (seq 0 64) = true) by (vm_compute; reflexivity).
  rewrite forallb_forall in H. specialize (H (N.to_nat v)).
  rewrite N2Nat.id in H.
  destruct (Base64.value (Base64.char v)) as [w|].
  - f_equal. apply N.eqb_eq. apply H. apply in_seq. lia.
  - discriminate H. apply in_seq. lia.
Qed.


Ltac nia_div := zify; Z.to_euclidean_division_equations; lia.

Lemma pad_value : Base64.value Base64.pad = None.
Proof. reflexivity. Qed.

Lemma byte_back (c : ascii) (n : N) : n = N_of_ascii c -> ascii_of_N n = c.
Proof. intros ->. apply ascii_N_embedding. Qed.

Lemma decode_encode_upto (k : nat) :
  forall b : bytes, (List.length b <= k)%nat -> Base64.decode (Base64.encode b) = Ok b.
Proof.
  induction k as [|k IH]; intros b Hb.
  - destruct b; [reflexivity|simpl in Hb; lia].
  - destruct b as [|x [|y [|z b]]]; [reflexivity| | |].
    + pose proof (N_of_ascii_lt x).
      cbn [Base64.encode Base64.decode].
      rewrite !sextets by nia_div. rewrite pad_value. cbn.
      do 2 f_equal. apply byte_back. nia_div.
    + pose proof (N_of_ascii_lt x). pose proof (N_of_ascii_lt y).
      cbn [Base64.encode Base64.decode].
      rewrite !sextets by nia_div. rewrite pad_value. cbn.
      f_equal. f_equal; [apply byte_back; nia_div|].
      f_equal. apply byte_back. nia_div.
    + pose proof (N_of_ascii_lt x). pose proof (N_of_ascii_lt y).
      pose proof (N_of_ascii_lt z).
      cbn [Base64.encode Base64.decode].
      rewrite !sextets by nia_div.
      rewrite IH by (simpl in Hb; lia). cbn [bindO].
      f_equal. f_equal; [apply byte_back; nia_div|].
      f_equal; [apply byte_back; nia_div|].
      f_equal. apply byte_back. nia_div.
Qed.

Lemma base64_roundtrip (b : bytes) : Base64.decode (Base64.encode b) = Ok b.
Proof. apply (decode_encode_upto (List.length b)). lia. Qed.

Lemma utf8_roundtrip (s : string) : Utf8.decode (Utf8.encode s) = Ok s.
Proof.
  induction s as [|c s IH]; [reflexivity|].
  cbn [Utf8.encode]. unfold Utf8.encodeChar.
  pose proof (N_of_ascii_lt c) as Hc.
  destruct (N_of_ascii c <? 128)%N eqn:E.
  - cbn [app Utf8.decode]. rewrite E, IH. reflexivity.
  - apply N.ltb_ge in E. cbn [app Utf8.decode].
    rewrite !N_ascii_embedding by nia_div.
    replace (192 + N_of_ascii c / 64 <? 128)%N with false
      by (symmetry; apply N.ltb_ge; nia_div).
    replace (((192 + N_of_ascii c / 64 =? 194) || (192 + N_of_ascii c / 64 =? 195))%N)
      with true.
    2:{ symmetry. apply orb_true_iff. rewrite !N.eqb_eq. nia_div. }
    replace (128 <=? 128 + N_of_ascii c mod 64)%N with true
      by (symmetry; apply N.leb_le; nia_div).
    replace (128 + N_of_ascii c mod 64 <? 192)%N with true
      by (symmetry; apply N.ltb_lt; nia_div).
    cbn [andb]. rewrite IH. cbn [bindO]. do 2 f_equal.
    apply byte_back. nia_div.
Qed.

(** ** JSON text *)

Lemma length_append (a b : string) :
  String.length (a ++ b) = (String.length a + String.length b)%nat.
Proof. induction a; simpl; congruence. Qed.

(** Induction over JSON values, items and properties included. *)
Lemma JSValue_induction (P : JSValue -> Prop) :
  P JNull ->
  (forall b, P (JBool b)) ->
  (forall n, P (JNum n)) ->
  (forall s, P (JStr s)) ->
  (forall items, Forall P items -> P (JArr items)) ->
  (forall props, Forall (fun p => P (snd p)) props -> P (JObj props)) ->
  forall v, P v.
Proof.
  intros Hnull Hbool Hnum Hstr Harr Hobj.
  fix IH 1. intros [ | b | n | s | items | props ].
  - exact Hnull.
  - apply Hbool.
  - apply Hnum.
  - apply Hstr.
  - apply Harr. induction items as [|x items IHitems]; constructor;
      [apply IH|exact IHitems].
  - apply Hobj. induction props as [|[k x] props IHprops]; constructor;
      [apply IH|exact IHprops].
Qed.

Lemma stringBody_quoteChar (c : ascii) (tail : string) :
  JSON.stringBody (JSON.quoteChar c ++ tail) =
  bindO (JSON.stringBody tail) (JSON.consFst c).
Proof.
  destruct c as [[] [] [] [] [] [] [] []]; reflexivity.
Qed.

Lemma stringBody_quoteBody (s rest : string) :
  JSON.stringBody (JSON.quoteBody s ++ String JSON.dquote rest) = Ok (s, rest).
Proof.
  induction s as [|c s IH]; [reflexivity|].
  cbn [JSON.quoteBody]. rewrite append_assoc, stringBody_quoteChar, IH.
  reflexivity.
Qed.

Lemma closes_noDigit rest : JSON.closes rest -> Num.noDigitHead rest.
Proof. destruct rest as [|c t]; [trivial|]. now intros [-> | [-> | ->]]. Qed.

Lemma closes_noFraction rest : JSON.closes rest -> JSON.startsFraction rest = false.
Proof. destruct rest as [|c t]; [trivial|]. now intros [-> | [-> | ->]]. Qed.

Lemma closes_skipWs rest : JSON.closes rest -> JSON.skipWs rest = rest.
Proof. destruct rest as [|c t]; [trivial|]. now intros [-> | [-> | ->]]. Qed.

Lemma unorm_to_uint (p : positive) : Decimal.unorm (Pos.to_uint p) = Pos.to_uint p.
Proof.
  pose proof (DecimalPos.Unsigned.to_of (Pos.to_uint p)) as H.
  rewrite DecimalPos.Unsigned.of_to in H. symmetry. exact H.
Qed.

Lemma uint_beq_refl (u : Decimal.uint) : Decimal.uint_beq u u = true.
Proof. now apply Decimal.internal_uint_dec_lb. Qed.

Lemma number_digits (neg : bool) (u : Decimal.uint) (rest : string) :
  u <> Decimal.Nil -> Decimal.unorm u = u -> JSON.closes rest ->
  JSON.number ((if neg then "-" else EmptyString) ++ NilEmpty.string_of_uint u ++ rest) =
  Ok (if neg then Z.opp (Z.of_uint u) else Z.of_uint u, rest).
Proof.
  intros Hu Hn Hr.
  assert (Hd : (let (u', r) := Num.takeDigits (NilEmpty.string_of_uint u ++ rest) in
            match u' with
            | Decimal.Nil => @Throw (Z * string)
            | _ => if negb (Decimal.uint_beq (Decimal.unorm u') u') then Throw
                   else if JSON.startsFraction r then Beyond
                   else Ok (if neg then Z.opp (Z.of_uint u') else Z.of_uint u', r)
            end) = Ok (if neg then Z.opp (Z.of_uint u) else Z.of_uint u, rest)).
  { rewrite takeDigits_printed by now apply closes_noDigit.
    rewrite Hn, uint_beq_refl, closes_noFraction by assumption.
    now destruct u. }
  destruct neg; cbn [append]; unfold JSON.number; [exact Hd|].
  destruct u; try contradiction; exact Hd.
Qed.

Lemma number_printed (n : Z) (rest : string) :
  JSON.closes rest -> JSON.number (Num.toString n ++ rest) = Ok (n, rest).
Proof.
  intros Hr. unfold Num.toString.
  destruct n as [|p|p]; cbn [Z.to_int NilZero.string_of_int].
  - exact (number_digits false (Decimal.D0 Decimal.Nil) rest ltac:(discriminate) eq_refl Hr).
  - pose proof (DecimalPos.Unsigned.to_uint_nonnil p) as Hn.
    rewrite (printed_nonnil _ Hn).
    pose proof (number_digits false _ rest Hn (unorm_to_uint p) Hr) as H.
    cbn [append] in H. rewrite H.
    do 2 f_equal. exact (DecimalZ.of_to (Z.pos p)).
  - pose proof (DecimalPos.Unsigned.to_uint_nonnil p) as Hn.
    rewrite (printed_nonnil _ Hn).
    pose proof (number_digits true _ rest Hn (unorm_to_uint p) Hr) as H.
    cbn [append] in *. rewrite H.
    do 2 f_equal. exact (DecimalZ.of_to (Z.neg p)).
Qed.

(** The first character of a printed number. *)
Lemma toString_head (n : Z) :
  exists c t, Num.toString n = String c t /\ (Num.digit c <> None \/ c = "-"%char).
Proof.
  unfold Num.toString. destruct n as [|p|p]; cbn [Z.to_int NilZero.string_of_int].
  - exists "0"%char, EmptyString. split; [reflexivity|]. left. discriminate.
  - pose proof (DecimalPos.Unsigned.to_uint_nonnil p) as Hn.
    destruct (Pos.to_uint p); try contradiction; cbn; eexists; eexists;
      (split; [reflexivity|left; discriminate]).
  - eexists; eexists. split; [reflexivity|]. now right.
Qed.

Lemma value_number_head (fuel : nat) (c : ascii) (r : string) :
  Num.digit c <> None \/ c = "-"%char ->
  JSON.value (S fuel) (String c r) =
  bindO (JSON.number (String c r)) (fun p => Ok (JNum (fst p), snd p)).
Proof.
  intros H.
  destruct c as [[] [] [] [] [] [] [] []];
    first [reflexivity
          | exfalso; destruct H as [H|H]; [apply H; reflexivity|discriminate H]].
Qed.

Lemma value_number (fuel : nat) (n : Z) (rest : string) :
  JSON.closes rest ->
  JSON.value (S fuel) (Num.toString n ++ rest) = Ok (JNum n, rest).
Proof.
  intros Hr. pose proof (number_printed n rest Hr) as Hn.
  destruct (toString_head n) as (c & t & Ht & Hc).
  rewrite Ht in *. cbn [append] in *.
  now rewrite (value_number_head fuel c _ Hc), Hn.
Qed.

Lemma value_string (fuel : nat) (s rest : string) :
  JSON.value (S fuel) (JSON.quote s ++ rest) = Ok (JStr s, rest).
Proof.
  unfold JSON.quote. cbn [append]. rewrite append_assoc. cbn [append].
  cbn [JSON.value JSON.skipWs]. change (JSON.isWs JSON.dquote) with false. cbv iota.
  change (Ascii.eqb JSON.dquote JSON.dquote) with true. cbv iota.
  now rewrite stringBody_quoteBody.
Qed.

Lemma stringify_opens (v : JSValue) (rest : string) :
  JSON.opens (JSON.stringify v ++ rest).
Proof.
  destruct v as [ | [] | n | s | items | props ]; try (cbn; repeat split; discriminate).
  destruct (toString_head n) as (c & t & Ht & Hc).
  cbn [JSON.stringify]. rewrite Ht. cbn.
  destruct Hc as [Hc | ->]; [|repeat split; discriminate].
  destruct c as [[] [] [] [] [] [] [] []];
    first [repeat split; discriminate | exfalso; apply Hc; reflexivity].
Qed.

Lemma elements_commas (l : list JSValue) :
  Forall JSON.reads l -> l <> [] ->
  forall fuel rest,
    (list_sum (map (fun x => S (JSON.weight x)) l) <= fuel)%nat -> JSON.closes rest ->
    JSON.elements fuel (JSON.commas JSON.stringify l ++ String "]" rest) = Ok (l, rest).
Proof.
  induction 1 as [|x l Hx Hl IH]; [contradiction|].
  intros _ fuel rest Hfuel Hrest.
  destruct fuel as [|fuel]; [simpl in Hfuel; lia|].
  simpl in Hfuel. cbn [JSON.elements].
  destruct l as [|y l].
  - cbn [JSON.commas]. rewrite Hx; [|simpl in Hfuel; lia|cbn; auto].
    reflexivity.
  - cbn [JSON.commas]. rewrite !append_assoc.
    rewrite Hx; [|lia|cbn; auto].
    cbn -[JSON.elements JSON.commas JSON.stringify].
    rewrite IH; [reflexivity|discriminate|lia|assumption].
Qed.

Lemma members_commas (l : list (string * JSValue)) :
  Forall (fun p => JSON.reads (snd p)) l -> l <> [] ->
  forall fuel rest,
    (list_sum (map (fun p => S (JSON.weight (snd p))) l) <= fuel)%nat -> JSON.closes rest ->
    JSON.members fuel (JSON.commas (JSON.memberText JSON.stringify) l ++ String "}" rest) = Ok (l, rest).
Proof.
  induction 1 as [|[k x] l Hx Hl IH]; [contradiction|].
  intros _ fuel rest Hfuel Hrest.
  destruct fuel as [|fuel]; [simpl in Hfuel; lia|].
  simpl in Hfuel, Hx. cbn [JSON.members].
  assert (Hkey : forall tail,
            JSON.skipWs (JSON.memberText JSON.stringify (k, x) ++ tail) =
            String JSON.dquote
              (JSON.quoteBody k ++ String JSON.dquote
                 (String ":" (JSON.stringify x ++ tail)))).
  { intros tail. unfold JSON.memberText, JSON.quote. cbn [fst snd append].
    rewrite !append_assoc. cbn [append JSON.skipWs].
    change (JSON.isWs JSON.dquote) with false. cbv iota.
    now rewrite ?append_assoc. }
  destruct l as [|y l].
  - cbn [JSON.commas]. rewrite Hkey.
    change (Ascii.eqb JSON.dquote JSON.dquote) with true. cbv iota.
    rewrite stringBody_quoteBody.
    cbn -[JSON.value JSON.stringify].
    rewrite Hx; [|lia|cbn; auto]. reflexivity.
  - cbn [JSON.commas]. rewrite !append_assoc, Hkey.
    change (Ascii.eqb JSON.dquote JSON.dquote) with true. cbv iota.
    rewrite stringBody_quoteBody.
    cbn -[JSON.value JSON.stringify JSON.members JSON.commas].
    rewrite Hx; [|lia|cbn; auto].
    cbn -[JSON.value JSON.stringify JSON.members JSON.commas].
    rewrite IH; [reflexivity|discriminate|lia|assumption].
Qed.

Lemma skipWs_opens (s : string) : JSON.opens s -> JSON.skipWs s = s.
Proof. destruct s as [|c t]; [contradiction|]. cbn. now intros [-> _]. Qed.

Lemma commas_opens {A : Type} (f : A -> string) (l : list A) (tail : string) :
  l <> [] -> (forall x t, JSON.opens (f x ++ t)) -> JSON.opens (JSON.commas f l ++ tail).
Proof.
  intros Hl Hf. destruct l as [|x [|y l]]; [contradiction| |]; cbn [JSON.commas].
  - apply Hf.
  - rewrite append_assoc. apply Hf.
Qed.

Lemma member_opens (p : string * JSValue) (t : string) : JSON.opens (JSON.memberText JSON.stringify p ++ t).
Proof. unfold JSON.memberText, JSON.quote. cbn. repeat split; discriminate. Qed.

Lemma value_stringify (v : JSValue) : JSON.reads v.
Proof.
  induction v as [ | b | n | s | items IH | props IH ] using JSValue_induction;
    intros fuel rest Hfuel Hrest;
    (destruct fuel as [|fuel]; [simpl in Hfuel; lia|]).
  - reflexivity.
  - destruct b; reflexivity.
  - now apply value_number.
  - apply value_string.
  - cbn [JSON.stringify]. cbn [append]. rewrite append_assoc. cbn [append].
    cbn [JSON.value JSON.skipWs]. change (JSON.isWs "[") with false. cbv iota.
    change (Ascii.eqb "[" JSON.dquote) with false.
    change (Ascii.eqb "[" "[") with true. cbv iota.
    destruct items as [|x items]; [reflexivity|].
    assert (Ho : JSON.opens (JSON.commas JSON.stringify (x :: items) ++ String "]" rest)).
    { apply commas_opens; [discriminate|]. intros; apply stringify_opens. }
    rewrite (skipWs_opens _ Ho).
    rewrite elements_commas; [| assumption | discriminate | simpl in *; lia | assumption].
    destruct (JSON.commas JSON.stringify (x :: items) ++ String "]" rest) as [|c t];
      [contradiction|].
    destruct Ho as (_ & Hc & _).
    destruct c as [[] [] [] [] [] [] [] []]; try reflexivity. now contradiction Hc.
  - cbn [JSON.stringify]. cbn [append]. rewrite append_assoc. cbn [append].
    cbn [JSON.value JSON.skipWs]. change (JSON.isWs "{") with false. cbv iota.
    change (Ascii.eqb "{" JSON.dquote) with false.
    change (Ascii.eqb "{" "[") with false.
    change (Ascii.eqb "{" "{") with true. cbv iota.
    destruct props as [|p props]; [reflexivity|].
    assert (Ho : JSON.opens (JSON.commas (JSON.memberText JSON.stringify) (p :: props) ++ String "}" rest)).
    { apply commas_opens; [discriminate|]. intros; apply member_opens. }
    rewrite (skipWs_opens _ Ho).
    rewrite members_commas; [| assumption | discriminate | simpl in *; lia | assumption].
    destruct (JSON.commas (JSON.memberText JSON.stringify) (p :: props) ++ String "}" rest) as [|c t];
      [contradiction|].
    destruct Ho as (_ & _ & Hc).
    destruct c as [[] [] [] [] [] [] [] []]; try reflexivity. now contradiction Hc.
Qed.

Lemma toString_length (n : Z) : (1 <= String.length (Num.toString n))%nat.
Proof.
  destruct (toString_head n) as (c & t & -> & _). simpl. lia.
Qed.

Lemma commas_length {A : Type} (f : A -> string) (g : A -> nat) (l : list A) :
  Forall (fun x => (g x <= String.length (f x))%nat) l ->
  (list_sum (map (fun x => S (g x)) l) <= S (String.length (JSON.commas f l)))%nat.
Proof.
  induction 1 as [|x l Hx Hl IH]; [simpl; lia|].
  destruct l as [|y l].
  - simpl. lia.
  - change (JSON.commas f (x :: y :: l)) with (f x ++ "," ++ JSON.commas f (y :: l)).
    change (list_sum (map (fun x => S (g x)) (x :: y :: l)))
      with (S (g x) + list_sum (map (fun x => S (g x)) (y :: l)))%nat.
    rewrite !length_append. change (String.length ",") with 1%nat. lia.
Qed.

Lemma weight_length (v : JSValue) : (JSON.weight v <= String.length (JSON.stringify v))%nat.
Proof.
  induction v as [ | b | n | s | items IH | props IH ] using JSValue_induction.
  - simpl. lia.
  - destruct b; simpl; lia.
  - apply toString_length.
  - unfold JSON.stringify, JSON.quote. simpl. lia.
  - cbn [JSON.weight JSON.stringify]. rewrite !length_append. simpl String.length.
    pose proof (commas_length JSON.stringify JSON.weight items IH). lia.
  - cbn [JSON.weight JSON.stringify]. rewrite !length_append. simpl String.length.
    assert (H : Forall (fun p => (JSON.weight (snd p) <= String.length (JSON.memberText JSON.stringify p))%nat) props).
    { eapply Forall_impl; [|exact IH]. intros p Hp. cbv beta in Hp.
      unfold JSON.memberText. rewrite !length_append. lia. }
    pose proof (commas_length (JSON.memberText JSON.stringify) (fun p => JSON.weight (snd p)) props H). lia.
Qed.

(** [JSON.parse] JSON.reads back what [JSON.stringify] wrote. *)
Lemma parse_stringify (v : JSValue) : JSON.parse (JSON.stringify v) = Ok v.
Proof.
  unfold JSON.parse.
  pose proof (value_stringify v (S (String.length (JSON.stringify v))) EmptyString) as H.
  rewrite append_nil_r in H. rewrite H; [reflexivity| |exact I].
  pose proof (weight_length v). lia.
Qed.

(** ** The encoded payload *)

Lemma toJS_injective (p q : PaymentPayload.t) :
  PaymentPayload.toJS p = PaymentPayload.toJS q -> p = q.
Proof.
  destruct p as [[n a t [en ev]] [[f o v b c] g]].
  destruct q as [[n' a' t' [en' ev']] [[f' o' v' b' c'] g']].
  unfold PaymentPayload.toJS. simpl. intros H. injection H as -> -> -> -> -> -> -> -> -> -> ->.
  reflexivity.
Qed.

(** C9.  Decoding the header value of a payload gives the payload back:
    base64 and UTF-8 decoding and [JSON.parse] undo [JSON.stringify],
    UTF-8 and base64 encoding, for every payload, and so for every one
    built from a configuration, a cap and a signature output.  Distinct
    payloads have distinct header values. *)
Theorem payment_payload_roundtrip (payload : PaymentPayload.t) :
  decodePaymentPayload (encodePaymentPayload payload) =
  Ok (PaymentPayload.toJS payload) /\
  (forall config accountAddress permitCap signature nonce deadline,
     decodePaymentPayload
       (encodePaymentPayload
          (buildPaymentPayload config accountAddress permitCap signature nonce deadline)) =
     Ok (PaymentPayload.toJS
           (buildPaymentPayload config accountAddress permitCap signature nonce deadline))) /\
  (forall other,
     encodePaymentPayload other = encodePaymentPayload payload -> other = payload).
Proof.
  assert (H : forall p, decodePaymentPayload (encodePaymentPayload p) =
                        Ok (PaymentPayload.toJS p)).
  { intros p. unfold decodePaymentPayload, encodePaymentPayload.
    rewrite base64_roundtrip. cbn [bindO]. rewrite utf8_roundtrip. cbn [bindO].
    apply parse_stringify. }
  split; [apply H|]. split; [intros; apply H|].
  intros other Hother. apply toJS_injective.
  pose proof (H other) as Ho. rewrite Hother, H in Ho. congruence.
Qed.

(** ** The header value is a legal header value *)

Lemma httpWhite_low (c : ascii) :
  (33 <=? N_of_ascii c)%N = true ->
  Headers.httpWhite c = false /\
  existsb (N.eqb (N_of_ascii c)) [0; 10; 13]%N = false.
Proof.
  destruct c as [[] [] [] [] [] [] [] []]; intros H;
    first [discriminate H | split; reflexivity].
Qed.

Definition printable (c : ascii) : bool := (33 <=? N_of_ascii c)%N.

Lemma stripStart_printable (s : string) :
  Headers.allChars printable s = true -> Headers.stripStart s = s.
Proof.
  destruct s as [|c s]; [reflexivity|]. cbn [Headers.allChars Headers.stripStart].
  intros H. apply andb_true_iff in H. destruct H as [H _].
  now rewrite (proj1 (httpWhite_low c H)).
Qed.

Lemma stripEnd_printable (s : string) :
  Headers.allChars printable s = true -> Headers.stripEnd s = s.
Proof.
  induction s as [|c s IH]; [reflexivity|].
  cbn [Headers.allChars Headers.stripEnd].
  intros H. apply andb_true_iff in H. destruct H as [Hc Hs].
  rewrite (IH Hs). destruct s; [|reflexivity].
  now rewrite (proj1 (httpWhite_low c Hc)).
Qed.

Lemma validValue_printable (s : string) :
  Headers.allChars printable s = true -> Headers.validValue s = true.
Proof.
  unfold Headers.validValue. induction s as [|c s IH]; [reflexivity|].
  cbn [Headers.allChars].
  intros H. apply andb_true_iff in H. destruct H as [Hc Hs].
  now rewrite (proj2 (httpWhite_low c Hc)), (IH Hs).
Qed.

Lemma char_printable (v : N) : printable (Base64.char v) = true.
Proof.
  unfold printable, Base64.char.
  destruct (v <? 26)%N eqn:E1; [apply N.ltb_lt in E1|];
    [|destruct (v <? 52)%N eqn:E2; [apply N.ltb_lt in E2|];
      [|destruct (v <? 62)%N eqn:E3; [apply N.ltb_lt in E3|];
        [|destruct (v =? 62)%N; reflexivity]]];
    rewrite N_ascii_embedding by lia; apply N.leb_le; try lia.
  apply N.ltb_ge in E1, E2. lia.
Qed.

Lemma encode_printable_upto (k : nat) :
  forall b : bytes, (List.length b <= k)%nat ->
    Headers.allChars printable (Base64.encode b) = true.
Proof.
  induction k as [|k IH]; intros b Hb.
  - destruct b; [reflexivity|simpl in Hb; lia].
  - destruct b as [|x [|y [|z b]]]; [reflexivity| | |];
      cbn [Base64.encode Headers.allChars]; rewrite ?char_printable; try reflexivity.
    rewrite IH by (simpl in Hb; lia). reflexivity.
Qed.

Lemma encode_printable (b : bytes) :
  Headers.allChars printable (Base64.encode b) = true.
Proof. apply (encode_printable_upto (List.length b)). lia. Qed.

(** Setting a header to an encoded payload succeeds for a valid name, and
    the header then reads as that text. *)
Lemma set_payload (name : string) (p : PaymentPayload.t) (h0 : Headers.t) :
  Headers.validName name = true ->
  exists hs,
    Headers.set name (encodePaymentPayload p) h0 = Ok hs /\
    Headers.get name hs = Some (encodePaymentPayload p).
Proof.
  intros Hname.
  assert (Hp : Headers.allChars printable (encodePaymentPayload p) = true)
    by apply encode_printable.
  assert (Hn : Headers.normalize (encodePaymentPayload p) = encodePaymentPayload p).
  { unfold Headers.normalize.
    now rewrite (stripStart_printable _ Hp), (stripEnd_printable _ Hp). }
  destruct (Headers.set name (encodePaymentPayload p) h0) as [hs| |] eqn:E.
  - exists hs. split; [reflexivity|]. rewrite (get_set _ _ _ _ E). now rewrite Hn.
  - unfold Headers.set in E. rewrite Hname, Hn, (validValue_printable _ Hp) in E.
    simpl in E. now destruct (Headers.hasName _ _).
  - unfold Headers.set in E. rewrite Hname, Hn, (validValue_printable _ Hp) in E.
    simpl in E. now destruct (Headers.hasName _ _).
Qed.

(** ** The retry *)

Lemma set_Ok_validName (name value : string) (h0 hs : Headers.t) :
  Headers.set name value h0 = Ok hs -> Headers.validName name = true.
Proof.
  unfold Headers.set. destruct (Headers.validName name); [reflexivity|].
  simpl. discriminate.
Qed.

Lemma challenged_headerName (requirement : option PaymentRequirement.t) (f : Factory.t) :
  HeaderFactory.headerNameOf (Factory.config (challenged requirement f)) =
  HeaderFactory.headerNameOf (Factory.config f).
Proof. now destruct requirement. Qed.

Lemma challenged_permitCap (requirement : option PaymentRequirement.t) (f : Factory.t) :
  Factory.permitCap (challenged requirement f) = Factory.permitCap f.
Proof. now destruct requirement. Qed.

(** [(a || b) || c] reads [a], then [b], then [c]. *)
Lemma orElse_orOpt (a b : option string) (c : string) :
  orElse (orOpt a b) c = orElse a (orElse b c).
Proof.
  destruct a as [s|]; simpl; [|reflexivity].
  destruct (Str.truthy s) eqn:E; simpl; now rewrite ?E.
Qed.

Section RetryFacts.

Variable W : Type.
Variable Date_now : W -> Z.
Variable baseFetch : RequestInfo -> option RequestInit.t -> W -> outcome Response.t * W.
Variable newURL : string -> option string -> option URL.t.
Variable input : Input.t W.

#[local] Abbreviation bind := (Client.bind W).
#[local] Abbreviation ret := (Client.ret W).
#[local] Abbreviation getFactory := (Client.getFactory W baseFetch input).
#[local] Abbreviation sendWithPermit := (Client.sendWithPermit W Date_now baseFetch input).
#[local] Abbreviation afterInitial := (Client.afterInitial W Date_now baseFetch input).
#[local] Abbreviation wrappedFetch := (Client.wrappedFetch W Date_now baseFetch newURL input).
#[local] Abbreviation staticHeaderValue := (Client.staticHeaderValue W input).
#[local] Abbreviation retries := (Client.retries W input).

Lemma getHeader_Ok_name sign options f r h f' r' :
  HeaderFactory.getHeader W Date_now sign options f r = (Ok h, f', r') ->
  HeaderResult.headerName h = HeaderFactory.headerNameOf (Factory.config f).
Proof.
  unfold HeaderFactory.getHeader, HeaderFactory.refresh.
  destruct (Factory.cached f) as [c|];
    [destruct (HeaderFactory.usable _ _ _ _ _ _); [now intros [= <- _ _]|]|];
    (destruct (sign _ _) as [[sg| |] w']; try discriminate;
     destruct (Num.parseInt _); try discriminate; now intros [= <- _ _]).
Qed.

(** A successful attempt in signing mode, taken apart. *)
Lemma sendWithPermit_signing_inv requestInfo requestInit capOverride
  minDeadlineExclusive s sent s' sign :
  staticHeaderValue = None ->
  Input.signatureFn input = Some sign ->
  sendWithPermit requestInfo requestInit capOverride minDeadlineExclusive s =
  (Ok sent, s') ->
  exists f h0 h f' r' hs,
    Session.headerFactoryPromise s = Some f /\
    Headers.create (headersOf requestInit) = Ok h0 /\
    HeaderFactory.getHeader W Date_now sign
      (Some (Options.mk capOverride minDeadlineExclusive)) f (Session.run s) =
    (Ok h, f', r') /\
    Headers.set (HeaderResult.headerName h) (HeaderResult.headerValue h) h0 = Ok hs /\
    Sent.deadline sent = Some (HeaderResult.deadline h) /\
    Session.headerFactoryPromise s' = Some f' /\
    Session.fetched s' =
    (Session.fetched s ++ [(requestInfo, Some (withHeaders requestInit hs))])%list /\
    Run.signed (Session.run s') = Run.signed r' /\
    baseFetch requestInfo (Some (withHeaders requestInit hs)) (Run.world r') =
    (Ok (Sent.response sent), Run.world (Session.run s')).
Proof.
  intros Hstatic Hsign H.
  unfold Client.sendWithPermit, Client.bind at 1, Client.lift at 1 in H.
  destruct (Headers.create (headersOf requestInit)) as [h0| |] eqn:Hc;
    try discriminate.
  rewrite Hstatic in H. unfold Client.bind at 1 in H.
  destruct (Client.onFactory W input _ s) as [o s1] eqn:E1.
  apply (onFactory_inv W input) in E1. destruct E1 as (_ & _ & Hcase).
  destruct o as [h| |]; try discriminate.
  destruct Hcase as [[[=] _]|(sign' & f & f' & r' & Hsign' & Hfac & Hg & ->)].
  rewrite Hsign in Hsign'. injection Hsign' as <-.
  unfold Client.bind at 1, Client.lift at 1 in H.
  destruct (Headers.set _ _ h0) as [hs| |] eqn:Hset; try discriminate.
  unfold Client.bind in H.
  destruct (Client.callFetch W baseFetch _ _ _) as [o s2] eqn:E2.
  apply (callFetch_inv W baseFetch) in E2.
  destruct E2 as (Hb & Hf2 & Hs2 & _ & Hh2).
  destruct o as [response| |]; try discriminate.
  unfold Client.ret in H. injection H as <- <-.
  exists f, h0, h, f', r', hs. simpl in *. now repeat split.
Qed.

Lemma getHeader_Ok_config sign options f r h f' r' :
  HeaderFactory.getHeader W Date_now sign options f r = (Ok h, f', r') ->
  Factory.config f' = Factory.config f /\ Factory.permitCap f' = Factory.permitCap f.
Proof.
  unfold HeaderFactory.getHeader, HeaderFactory.refresh.
  destruct (Factory.cached f) as [c|];
    [destruct (HeaderFactory.usable _ _ _ _ _ _); [now intros [= _ <- _]|]|];
    (destruct (sign _ _) as [[sg| |] w']; try discriminate;
     destruct (Num.parseInt _); try discriminate; now intros [= _ <- _]).
Qed.

(** In signing mode an attempt calls the signing function as [getHeader]
    does, whatever becomes of the attempt. *)
Lemma sendWithPermit_signed requestInfo requestInit capOverride minDeadlineExclusive
  s sign f h0 :
  staticHeaderValue = None ->
  Input.signatureFn input = Some sign ->
  Session.headerFactoryPromise s = Some f ->
  Headers.create (headersOf requestInit) = Ok h0 ->
  Run.signed (Session.run
    (snd (sendWithPermit requestInfo requestInit capOverride minDeadlineExclusive s))) =
  Run.signed (snd (HeaderFactory.getHeader W Date_now sign
    (Some (Options.mk capOverride minDeadlineExclusive)) f (Session.run s))).
Proof.
  intros Hstatic Hsign Hf Hc.
  unfold Client.sendWithPermit, Client.bind at 1, Client.lift at 1.
  rewrite Hc, Hstatic. unfold Client.bind at 1, Client.onFactory.
  rewrite Hsign, Hf.
  destruct (HeaderFactory.getHeader _ _ _ _ _ _) as [[[h| |] f'] r']; try reflexivity.
  unfold Client.bind at 1, Client.lift at 1.
  destruct (Headers.set _ _ h0) as [hs| |]; try reflexivity.
  unfold Client.bind, Client.callFetch, Client.ret. cbn [Session.run Run.world].
  destruct (baseFetch _ _ _) as [[resp| |] w']; reflexivity.
Qed.

(** The signing function honours [minDeadlineExclusive]: given a bound
    below 2^53, a deadline it returns is beyond the bound. *)
Definition honoursDeadline
  (sign : SignatureInput.t -> W -> outcome SignatureOutput.t * W) : Prop :=
  forall i w sg w' m d,
    sign i w = (Ok sg, w') ->
    SignatureInput.minDeadlineExclusive i = Some (Num.Int m) ->
    Z.abs m < 2 ^ 53 ->
    Num.parseInt (SignatureOutput.deadline sg) = Ok (Num.Int d) ->
    m < d.

(** An attempt in signing mode for which the signing function throws:
    nothing is sent, and the factory is left as it was. *)
Lemma sendWithPermit_unsigned requestInfo requestInit capOverride bound s sign f h0 w' :
  staticHeaderValue = None ->
  Input.signatureFn input = Some sign ->
  Session.headerFactoryPromise s = Some f ->
  Factory.cached f = None ->
  Headers.create (headersOf requestInit) = Ok h0 ->
  sign (HeaderFactory.signatureInputOf (Some (Options.mk capOverride bound)) f)
    (Run.world (Session.run s)) = (Throw, w') ->
  sendWithPermit requestInfo requestInit capOverride bound s =
  (Throw,
   Session.mk
     (Run.mk w'
        (Run.signed (Session.run s) ++
         [HeaderFactory.signatureInputOf (Some (Options.mk capOverride bound)) f])%list)
     (Session.fetched s) (Session.configPromise s) (Some f)).
Proof.
  intros Hstatic Hsign Hf Hcached Hc Hsg.
  unfold Client.sendWithPermit, Client.bind at 1, Client.lift at 1.
  rewrite Hc, Hstatic. unfold Client.bind at 1, Client.onFactory.
  rewrite Hsign, Hf. unfold HeaderFactory.getHeader, HeaderFactory.refresh.
  now rewrite Hcached, Hsg.
Qed.

(** C3, amended.  A chargeable request in signing mode whose first attempt
    is answered by a 401 or 402 that classifies: the first attempt was sent
    with a payload valid before [d1]; the factory is invalidated, so that
    the retry runs on a factory with an empty cache, and the signing function
    is called exactly once more, with the cap read from the requirement
    ([getRequirementMaxAmountRequired], else the factory's own cap) and with
    [minDeadlineExclusive = d1]; at most one more transport call follows,
    whatever happens.  The cap is the first non-empty of
    [extra.maxAmountRequired], [extra.max_amount_required],
    [extra.maxAmount], [extra.max_amount] and [amount].  When that signing
    throws, the cache stays empty and nothing more is sent.  When it
    succeeds with a deadline [d2], exactly one more transport call is made:
    exactly two for the request, and exactly two in all when the
    configuration or the factory was there before.  The second call carries
    a payload with that cap and valid before [d2], its answer is returned
    whatever its status, the cache holds the new header, and [d1 < d2]
    provided both are numbers, [d1] is below 2^53 and the signing function
    honours [minDeadlineExclusive]. *)
Theorem challenge_retries_once (c : Closure.t) (requestInfo : RequestInfo)
  (requestInit : option RequestInit.t) (s s2 : Session.t W) (parsed : URL.t)
  (sign : SignatureInput.t -> W -> outcome SignatureOutput.t * W)
  (initial : Sent.t) (e : ErrorResponse.t)
  (requirement : option PaymentRequirement.t) :
  Client.parseUrl newURL c (Client.rawUrlOf requestInfo) = Ok parsed ->
  Client.passesThrough c parsed = false ->
  staticHeaderValue = None ->
  Input.signatureFn input = Some sign ->
  (forall f, Session.headerFactoryPromise s = Some f -> HeaderFactory.consistent f) ->
  bind (getFactory c) (fun _ => sendWithPermit requestInfo requestInit None None) s =
  (Ok initial, s2) ->
  Response.status (Sent.response initial) = 401 \/
  Response.status (Sent.response initial) = 402 ->
  Client.extractErrorResponse (Sent.response initial) = Ok (Some e) ->
  shouldInvalidatePermit e = true ->
  Client.requirementOf (Sent.response initial) = Ok requirement ->
  let after := wrappedFetch c requestInfo requestInit s in
  let maxAmount := getRequirementMaxAmountRequired requirement in
  (forall q permitCap,
     requirement = Some q ->
     orElse maxAmount permitCap =
     orElse (extraField PaymentRequiredExtra.maxAmountRequired q)
       (orElse (extraField PaymentRequiredExtra.max_amount_required q)
          (orElse (extraField PaymentRequiredExtra.maxAmount q)
             (orElse (extraField PaymentRequiredExtra.max_amount q)
                (orElse (PaymentRequirement.amount q) permitCap))))) /\
  exists f2 d1 p1 config a1,
    Session.headerFactoryPromise s2 = Some f2 /\
    Sent.deadline initial = Some d1 /\
    (config = [] \/ config = [Client.configCall c]) /\
    (Session.headerFactoryPromise s <> None \/ Session.configPromise s <> None ->
     config = []) /\
    Session.fetched s2 = (Session.fetched s ++ config ++ [a1])%list /\
    Client.sentWith requestInfo requestInit
      (HeaderFactory.headerNameOf (Factory.config f2)) (encodePaymentPayload p1) a1 /\
    Num.parseInt
      (PaymentPayload.validBefore
         (PaymentPayload.authorization (PaymentPayload.payload p1))) = Ok d1 /\
    let f3 := HeaderFactory.invalidate (challenged requirement f2) in
    let input2 :=
      HeaderFactory.signatureInputOf (Some (Options.mk maxAmount (Some d1))) f3 in
    let signed2 := (Run.signed (Session.run s2) ++ [input2])%list in
    Factory.cached f3 = None /\
    after =
    bind (sendWithPermit requestInfo requestInit maxAmount (Some d1))
      (fun refreshed => ret (Sent.response refreshed)) (Session.withFactory f3 s2) /\
    SignatureInput.permitCap input2 = orElse maxAmount (Factory.permitCap f2) /\
    SignatureInput.minDeadlineExclusive input2 = Some d1 /\
    Run.signed (Session.run (snd after)) = signed2 /\
    (Session.fetched (snd after) = Session.fetched s2 \/
     exists a2, Session.fetched (snd after) = (Session.fetched s2 ++ [a2])%list) /\
    (forall w3,
       sign input2 (Run.world (Session.run s2)) = (Throw, w3) ->
       after =
       (Throw,
        Session.mk (Run.mk w3 signed2) (Session.fetched s2) (Session.configPromise s2)
          (Some f3))) /\
    forall sg2 w3 d2,
      sign input2 (Run.world (Session.run s2)) = (Ok sg2, w3) ->
      Num.parseInt (SignatureOutput.deadline sg2) = Ok d2 ->
      exists p2 a2,
        Session.fetched (snd after) = (Session.fetched s ++ config ++ [a1; a2])%list /\
        Client.sentWith requestInfo requestInit
          (HeaderFactory.headerNameOf (Factory.config f2)) (encodePaymentPayload p2) a2 /\
        PaymentPayload.value
          (PaymentPayload.authorization (PaymentPayload.payload p2)) =
        orElse maxAmount (Factory.permitCap f2) /\
        Num.parseInt
          (PaymentPayload.validBefore
             (PaymentPayload.authorization (PaymentPayload.payload p2))) = Ok d2 /\
        fst after = fst (baseFetch (fst a2) (snd a2) w3) /\
        Run.world (Session.run (snd after)) = snd (baseFetch (fst a2) (snd a2) w3) /\
        Session.headerFactoryPromise (snd after) =
        Some (Factory.mk (Factory.permitCap f2) (Factory.config f3)
                (Some (CachedHeader.mk (encodePaymentPayload p2) d2
                         (orElse maxAmount (Factory.permitCap f2))
                         (RouterConfig.network (Factory.config f3))
                         (RouterConfig.asset (Factory.config f3))
                         (RouterConfig.payTo (Factory.config f3))))) /\
        (honoursDeadline sign ->
         forall m1 m2,
           d1 = Num.Int m1 -> Z.abs m1 < 2 ^ 53 -> d2 = Num.Int m2 -> m1 < m2).
Proof.
  intros Hp Hpass Hstatic Hsign Hcons Hfirst Hstatus He Hclass Hq after maxAmount.
  split.
  { intros q permitCap ->. subst maxAmount. unfold getRequirementMaxAmountRequired.
    now rewrite !orElse_orOpt. }
  apply (bind_inv W) in Hfirst.
  destruct Hfirst as [([] & s1 & H1 & H2)|[[_ [=]]|[_ [=]]]].
  pose proof (getFactory_inv W baseFetch input c s _ s1 H1)
    as (Hlog1 & Hknown & Hsig1 & Hfac1).
  destruct (Hfac1 eq_refl) as (sign' & f1 & Hsign' & Hf1 & Horigin). clear Hfac1.
  assert (Hcons1 : HeaderFactory.consistent f1).
  { destruct Horigin as [H|[_ [config ->]]]; [now apply Hcons|].
    apply create_consistent. }
  destruct (sendWithPermit_signing_inv _ _ _ _ _ _ _ _ Hstatic Hsign H2)
    as (f & h0 & h & f2 & r2 & hs & Hf & Hc & Hg & Hset & Hd & Hf2 & Hlog2 & Hsig2 & Hans).
  rewrite Hf1 in Hf. injection Hf as <-.
  destruct (getHeader_payload _ _ _ _ _ _ _ _ _ Hcons1 Hg) as (p1 & Hv1 & _ & Hvb1).
  pose proof (getHeader_Ok_name _ _ _ _ _ _ _ Hg) as Hname.
  destruct (getHeader_Ok_config _ _ _ _ _ _ _ Hg) as [Hcfg Hcap].
  set (d1 := HeaderResult.deadline h) in *.
  set (f3 := HeaderFactory.invalidate (challenged requirement f2)).
  set (options2 := Some (Options.mk maxAmount (Some d1))).
  set (s3 := Session.withFactory f3 s2).
  assert (Hafter : after =
            bind (sendWithPermit requestInfo requestInit maxAmount (Some d1))
              (fun refreshed => ret (Sent.response refreshed)) s3).
  { subst after. rewrite (wrappedFetch_charges W Date_now baseFetch newURL input
                            _ _ _ _ _ Hp Hpass), Hstatic.
    unfold Client.bind at 1. rewrite H1. unfold Client.bind at 1. rewrite H2.
    rewrite (afterInitial_challenge W Date_now baseFetch input _ _ _ _ sign f2
               (Some e) requirement Hsign Hstatic Hf2 Hstatus He Hq).
    unfold Client.retries. rewrite Hstatic, Hclass, Hd. reflexivity. }
  assert (Hname3 : HeaderFactory.headerNameOf (Factory.config f3) =
                   HeaderFactory.headerNameOf (Factory.config f2)).
  { subst f3. cbn [HeaderFactory.invalidate Factory.config].
    apply challenged_headerName. }
  assert (Hcap3 : HeaderFactory.capOf options2 f3 =
                  orElse maxAmount (Factory.permitCap f2)).
  { subst f3 options2. unfold HeaderFactory.capOf.
    cbn [HeaderFactory.invalidate Factory.permitCap Options.capOverride].
    now rewrite challenged_permitCap. }
  assert (Hperm3 : Factory.permitCap f3 = Factory.permitCap f2).
  { subst f3. cbn [HeaderFactory.invalidate Factory.permitCap].
    apply challenged_permitCap. }
  assert (Hrun3 : Session.run s3 = Session.run s2) by reflexivity.
  assert (Hfac3 : Session.headerFactoryPromise s3 = Some f3) by reflexivity.
  assert (Hget3 : HeaderFactory.getHeader W Date_now sign options2 f3 (Session.run s2) =
                  HeaderFactory.refresh W sign options2 f3 (Session.run s2))
    by reflexivity.
  assert (Hsnd : forall (m : Client.M W Sent.t) s0,
            snd (bind m (fun refreshed => ret (Sent.response refreshed)) s0) =
            snd (m s0)).
  { intros m s0. unfold Client.bind. now destruct (m s0) as [[a| |] s']. }
  assert (Hconfig : exists config,
            (config = [] \/ config = [Client.configCall c]) /\
            (Session.headerFactoryPromise s <> None \/ Session.configPromise s <> None ->
             config = []) /\
            Session.fetched s1 = (Session.fetched s ++ config)%list).
  { destruct Hlog1 as [E|E].
    - exists []. rewrite E, List.app_nil_r. auto.
    - exists [Client.configCall c]. split; [auto|]. split; [|exact E].
      intros Hk. apply Hknown in Hk. rewrite Hk in E.
      symmetry in E. now apply app_one_neq in E. }
  destruct Hconfig as (config & Hcase & Hnone & Elog1). clear Hlog1.
  rewrite Elog1, <- List.app_assoc in Hlog2.
  exists f2, d1, p1, config, (requestInfo, Some (withHeaders requestInit hs)).
  split; [exact Hf2|]. split; [exact Hd|].
  split; [exact Hcase|]. split; [exact Hnone|].
  split; [exact Hlog2|].
  split.
  { exists h0, hs. split; [exact Hc|]. split; [|reflexivity].
    now rewrite Hcfg, <- Hname, <- Hv1. }
  split; [exact Hvb1|].
  intros f3' input2 signed2. subst signed2 input2 f3'. fold f3. fold options2.
  set (input2 := HeaderFactory.signatureInputOf options2 f3).
  split; [reflexivity|]. split; [exact Hafter|].
  split; [exact Hcap3|]. split; [reflexivity|].
  split.
  { rewrite Hafter, Hsnd.
    rewrite (sendWithPermit_signed _ _ _ _ _ _ _ _ Hstatic Hsign Hfac3 Hc).
    rewrite Hrun3. fold options2. rewrite Hget3. apply refresh_signed. }
  split.
  { destruct (afterInitial requestInfo requestInit initial s2) as [res s'] eqn:E.
    pose proof (afterInitial_trace W Date_now baseFetch input _ _ _ _ _ _ E) as Ht.
    assert (Ea : after = (res, s')).
    { subst after. rewrite (wrappedFetch_charges W Date_now baseFetch newURL input
                              _ _ _ _ _ Hp Hpass), Hstatic.
      unfold Client.bind at 1. rewrite H1. unfold Client.bind at 1. now rewrite H2. }
    rewrite Ea. simpl.
    destruct Ht as [Ht|(a2 & _ & _ & _ & _ & Ht & _)]; [now left|right; now exists a2]. }
  split.
  { intros w3 Hsg. rewrite Hafter. unfold Client.bind.
    now rewrite (sendWithPermit_unsigned _ _ _ _ s3 sign f3 h0 w3
                   Hstatic Hsign Hfac3 eq_refl Hc Hsg). }
  intros sg2 w3 d2 Hsg Hparse.
  set (p2 := buildPaymentPayload (Factory.config f3)
               (SignatureOutput.accountAddress sg2) (HeaderFactory.capOf options2 f3)
               (SignatureOutput.signature sg2) (SignatureOutput.nonce sg2)
               (SignatureOutput.deadline sg2)).
  assert (Hvalid : Headers.validName (HeaderFactory.headerNameOf (Factory.config f3)) = true).
  { rewrite Hname3, Hcfg, <- Hname. exact (set_Ok_validName _ _ _ _ Hset). }
  destruct (set_payload _ p2 h0 Hvalid) as (hs2 & Hset2 & _).
  assert (Hg2 : HeaderFactory.getHeader W Date_now sign options2 f3 (Session.run s3) =
                (Ok (HeaderResult.mk (HeaderFactory.headerNameOf (Factory.config f3))
                       (encodePaymentPayload p2) d2),
                 Factory.mk (Factory.permitCap f3) (Factory.config f3)
                   (Some (CachedHeader.mk (encodePaymentPayload p2) d2
                            (HeaderFactory.capOf options2 f3)
                            (RouterConfig.network (Factory.config f3))
                            (RouterConfig.asset (Factory.config f3))
                            (RouterConfig.payTo (Factory.config f3)))),
                 Run.mk w3 (Run.signed (Session.run s2) ++ [input2])%list)).
  { rewrite Hrun3, Hget3. unfold HeaderFactory.refresh.
    fold input2. rewrite Hsg, Hparse. reflexivity. }
  exists p2, (requestInfo, Some (withHeaders requestInit hs2)).
  split.
  { rewrite Hafter, Hsnd.
    rewrite (sendWithPermit_signing W Date_now baseFetch input _ _ _ _ _ _ _ _ _ _ _ _
               Hstatic Hsign Hfac3 Hc Hg2 Hset2).
    cbn [snd Session.fetched]. subst s3. cbn [Session.withFactory Session.fetched].
    rewrite Hlog2. now rewrite <- !List.app_assoc. }
  split.
  { exists h0, hs2. split; [exact Hc|]. split; [|reflexivity].
    now rewrite <- Hname3. }
  split; [subst p2; rewrite <- Hcap3; reflexivity|].
  split; [exact Hparse|].
  split.
  { rewrite Hafter. unfold Client.bind.
    rewrite (sendWithPermit_signing W Date_now baseFetch input _ _ _ _ _ _ _ _ _ _ _ _
               Hstatic Hsign Hfac3 Hc Hg2 Hset2).
    cbn [fst snd Run.world].
    destruct (baseFetch requestInfo _ w3) as [[resp| |] w4]; reflexivity. }
  split.
  { rewrite Hafter, Hsnd.
    rewrite (sendWithPermit_signing W Date_now baseFetch input _ _ _ _ _ _ _ _ _ _ _ _
               Hstatic Hsign Hfac3 Hc Hg2 Hset2).
    reflexivity. }
  split.
  { rewrite Hafter, Hsnd.
    rewrite (sendWithPermit_signing W Date_now baseFetch input _ _ _ _ _ _ _ _ _ _ _ _
               Hstatic Hsign Hfac3 Hc Hg2 Hset2).
    cbn [snd Session.headerFactoryPromise]. now rewrite Hperm3, Hcap3. }
  intros Hh m1 m2 E1 Hsafe E2.
  apply (Hh input2 _ sg2 w3 m1 m2 Hsg); [|exact Hsafe|now rewrite <- E2].
  cbn. now rewrite <- E1.
Qed.


(** C2, amended.  On a 401 or 402 answer to a chargeable request the
    interceptor retries exactly when it signs (no static header), the error
    body parsed to an error, and that error classifies: its [code] is
    [cap_exhausted], [session_closed] or [settlement_blocked], or, whatever
    its [code], the lower-cased text [error + " " + message] contains
    "cap exhausted", "session closed", "settlement blocked" or
    "blocked after previous settlement".  Otherwise the original response is
    returned and neither the transport nor the signing function is called
    again. *)
Theorem retry_decision (requestInfo : RequestInfo)
  (requestInit : option RequestInit.t) (initial : Sent.t) (s : Session.t W)
  (error : option ErrorResponse.t) (requirement : option PaymentRequirement.t) :
  Response.status (Sent.response initial) = 401 \/
  Response.status (Sent.response initial) = 402 ->
  Client.extractErrorResponse (Sent.response initial) = Ok error ->
  Client.requirementOf (Sent.response initial) = Ok requirement ->
  (retries error = true <->
   staticHeaderValue = None /\
   exists e,
     error = Some e /\
     let text :=
       Str.toLowerCase
         (nullish (ErrorResponse.error e) EmptyString ++ " " ++
          nullish (ErrorResponse.message e) EmptyString) in
     (codeIs e "cap_exhausted" = true \/ codeIs e "session_closed" = true \/
      codeIs e "settlement_blocked" = true) \/
     (Str.includes text "cap exhausted" = true \/
      Str.includes text "session closed" = true \/
      Str.includes text "settlement blocked" = true \/
      Str.includes text "blocked after previous settlement" = true)) /\
  (forall v,
     staticHeaderValue = Some v ->
     afterInitial requestInfo requestInit initial s = (Ok (Sent.response initial), s)) /\
  (forall sign f,
     Input.signatureFn input = Some sign ->
     staticHeaderValue = None ->
     Session.headerFactoryPromise s = Some f ->
     (retries error = false ->
      afterInitial requestInfo requestInit initial s =
      (Ok (Sent.response initial), Session.withFactory (challenged requirement f) s) /\
      Session.fetched (snd (afterInitial requestInfo requestInit initial s)) =
      Session.fetched s /\
      Session.run (snd (afterInitial requestInfo requestInit initial s)) =
      Session.run s) /\
     (retries error = true ->
      afterInitial requestInfo requestInit initial s =
      bind (sendWithPermit requestInfo requestInit
              (getRequirementMaxAmountRequired requirement) (Sent.deadline initial))
        (fun refreshed => ret (Sent.response refreshed))
        (Session.withFactory (HeaderFactory.invalidate (challenged requirement f)) s))).
Proof.
  intros Hstatus He Hq. split; [|split].
  - rewrite (retries_iff W input). split.
    + intros [Hs [e [-> Hc]]]. split; [exact Hs|]. exists e. split; [reflexivity|].
      now apply shouldInvalidatePermit_iff in Hc.
    + intros [Hs [e [-> Hc]]]. split; [exact Hs|]. exists e. split; [reflexivity|].
      now apply shouldInvalidatePermit_iff.
  - intros v Hv.
    exact (afterInitial_static W Date_now baseFetch input _ _ _ _ _ _ _ Hv Hstatus He Hq).
  - intros sign f Hsign Hs Hf.
    pose proof (afterInitial_challenge W Date_now baseFetch input requestInfo
                  requestInit initial s sign f error requirement Hsign Hs Hf
                  Hstatus He Hq) as H.
    split; intros Hr; rewrite Hr in H; [|exact H].
    rewrite H. now repeat split.
Qed.

End RetryFacts.

(** The env_pk signer honours [minDeadlineExclusive]. *)
Lemma envSignatureFn_honours (W : Type) (Date_now : W -> Z)
  (privateKeyToAccount : string -> outcome string)
  (fetchPermitNonce : Chain -> string -> string -> W -> outcome Z * W)
  (signTypedData : Chain -> string -> TypedData.t -> W -> outcome string * W)
  (privateKey : string) :
  honoursDeadline W
    (createEnvPrivateKeySignatureFn W Date_now privateKeyToAccount fetchPermitNonce
       signTypedData privateKey).
Proof.
  intros i w sg w' m d Hsg Hm Hsafe Hd.
  apply envSignatureFn_deadline in Hsg. rewrite Hsg, Hm in Hd.
  injection Hd as <-. now apply Z.gt_lt, permitDeadline_exceeds.
Qed.

(** ** The runs of the test-suite *)

Definition chat : RequestInfo :=
  InfoString "https://router.example.com/v1/chat/completions".

Definition post : option RequestInit.t :=
  Some (RequestInit.mk (Some "POST") (Some "{}") None).

Definition testInput
  (sign : SignatureInput.t -> Mock.World -> outcome SignatureOutput.t * Mock.World)
  (initialConfig : RouterConfig.t) : Input.t Mock.World :=
  Input.mk "https://router.example.com" "1000000" (Some sign) (Some initialConfig)
    None None None.

(** What [createX402Fetch] makes of that input. *)
Definition closure : Closure.t :=
  Closure.mk "https://router.example.com" "https://router.example.com".

Definition session (initialConfig : RouterConfig.t) (w : Mock.World)
  : Session.t Mock.World :=
  Session.mk (Mock.start w) [] (Some initialConfig) None.

Definition encodePaymentRequired (payload : JSValue) : string :=
  Base64.encode (Utf8.encode (JSON.stringify payload)).

Definition accepts : JSValue :=
  JObj [("accepts",
         JArr [JObj [("scheme", JStr "upto");
                     ("network", JStr "eip155:8453");
                     ("asset", JStr DEFAULT_USDC_BASE);
                     ("payTo", JStr (RouterConfig.payTo Mock.baseConfig));
                     ("extra", JObj [("name", JStr "USD Coin");
                                     ("version", JStr "2");
                                     ("maxAmountRequired", JStr "500000")])]])].

(** The requirement [accepts] decodes to. *)
Definition accepted : PaymentRequirement.t :=
  PaymentRequirement.mk (Some "upto") (Some "eip155:8453") (Some DEFAULT_USDC_BASE)
    None (Some (RouterConfig.payTo Mock.baseConfig)) None
    (Some (PaymentRequiredExtra.mk (Some "USD Coin") (Some "2") None None
             (Some "500000") None)).

Definition challenge (requirements body : JSValue) : Response.t :=
  Response.mk 402 [("payment-required", encodePaymentRequired requirements)] (Ok body).

Definition capExhausted : JSValue := JObj [("code", JStr "cap_exhausted")].

Definition okResponse : Response.t :=
  Response.mk 200 [] (Ok (JObj [("id", JStr "ok")])).

Definition chatUrl : URL.t :=
  URL.mk "https://router.example.com/v1/chat/completions"
    "https://router.example.com" "/v1/chat/completions".

(** The [validBefore] of the payload a logged request carries under the
    header [name]. *)
Definition attachedValidBefore (name : string)
  (e : RequestInfo * option RequestInit.t) : option Num.t :=
  match Headers.create (headersOf (snd e)) with
  | Ok h =>
      match Headers.get name h with
      | Some v =>
          match decodePaymentPayload v with
          | Ok decoded =>
              match JSON.prop decoded "payload" with
              | Some p =>
                  match JSON.prop p "authorization" with
                  | Some a =>
                      match JSON.stringProp a "validBefore" with
                      | Some text =>
                          match Num.parseInt text with
                          | Ok d => Some d
                          | _ => None
                          end
                      | None => None
                      end
                  | None => None
                  end
              | None => None
              end
          | _ => None
          end
      | None => None
      end
  | _ => None
  end.

Lemma createX402Fetch_test sign w :
  Client.createX402Fetch Mock.World Mock.newURL (testInput sign Mock.baseConfig)
    (Mock.start w) =
  Ok (closure, session Mock.baseConfig w).
Proof. reflexivity. Qed.






(** The second run of the test-suite, with the env_pk signer in place of
    the scripted one: the clock stands at 1 700 000 000 s, so the first
    permit is valid before 1 700 003 600 and the retry must outlive it. *)
Definition envWorld : Mock.World :=
  Mock.mk 1700000000000 [] [Ok (challenge accepts capExhausted); Ok okResponse].

Definition envFirst : outcome Sent.t * Session.t Mock.World :=
  Client.bind Mock.World
    (Client.getFactory Mock.World Mock.baseFetch
       (testInput Mock.envSigner Mock.baseConfig) closure)
    (fun _ =>
       Client.sendWithPermit Mock.World Mock.Date_now Mock.baseFetch
         (testInput Mock.envSigner Mock.baseConfig) chat post None None)
    (session Mock.baseConfig envWorld).

(** The factory after the first attempt of that run. *)
Definition envFactory : Factory.t :=
  Factory.mk "1000000" Mock.baseConfig
    (Some (CachedHeader.mk
             (encodePaymentPayload
                (buildPaymentPayload Mock.baseConfig Mock.account "1000000"
                   "0xsigned" "7" "1700003600"))
             (Num.Int 1700003600) "1000000" "eip155:8453" DEFAULT_USDC_BASE
             (RouterConfig.payTo Mock.baseConfig))).

Lemma challenge_retries_once_witness :
  let after :=
    Client.wrappedFetch Mock.World Mock.Date_now Mock.baseFetch Mock.newURL
      (testInput Mock.envSigner Mock.baseConfig) closure chat post
      (session Mock.baseConfig envWorld) in
  exists d1 d2 p1 p2 a1 a2,
    Session.fetched (snd after) = [a1; a2] /\
    Client.sentWith chat post "PAYMENT-SIGNATURE" (encodePaymentPayload p1) a1 /\
    Client.sentWith chat post "PAYMENT-SIGNATURE" (encodePaymentPayload p2) a2 /\
    Num.parseInt
      (PaymentPayload.validBefore
         (PaymentPayload.authorization (PaymentPayload.payload p1))) =
    Ok (Num.Int d1) /\
    Num.parseInt
      (PaymentPayload.validBefore
         (PaymentPayload.authorization (PaymentPayload.payload p2))) =
    Ok (Num.Int d2) /\
    PaymentPayload.value
      (PaymentPayload.authorization (PaymentPayload.payload p2)) = "500000" /\
    d1 < d2 /\
    fst after = Ok okResponse.
Proof.
  intros after.
  assert (Hp : Client.parseUrl Mock.newURL closure (Client.rawUrlOf chat) = Ok chatUrl)
    by (vm_compute; reflexivity).
  assert (Hpass : Client.passesThrough closure chatUrl = false)
    by (vm_compute; reflexivity).
  assert (Hstatic : Client.staticHeaderValue Mock.World
                      (testInput Mock.envSigner Mock.baseConfig) = None)
    by reflexivity.
  assert (Hsign : Input.signatureFn (testInput Mock.envSigner Mock.baseConfig) =
                  Some Mock.envSigner) by reflexivity.
  assert (Hcons : forall f,
            Session.headerFactoryPromise (session Mock.baseConfig envWorld) = Some f ->
            HeaderFactory.consistent f) by (intros f Hf; discriminate Hf).
  assert (Hfirst : envFirst =
                   (Ok (Sent.mk (challenge accepts capExhausted)
                          (Some (Num.Int 1700003600))),
                    snd envFirst)) by (vm_compute; reflexivity).
  assert (He : Client.extractErrorResponse (challenge accepts capExhausted) =
               Ok (Some (ErrorResponse.mk (Some "cap_exhausted") None None)))
    by (vm_compute; reflexivity).
  assert (Hq : Client.requirementOf (challenge accepts capExhausted) =
               Ok (Some accepted)) by (vm_compute; reflexivity).
  pose proof (challenge_retries_once Mock.World Mock.Date_now Mock.baseFetch
              Mock.newURL (testInput Mock.envSigner Mock.baseConfig) closure chat
              post (session Mock.baseConfig envWorld) (snd envFirst) chatUrl
              Mock.envSigner
              (Sent.mk (challenge accepts capExhausted) (Some (Num.Int 1700003600)))
              (ErrorResponse.mk (Some "cap_exhausted") None None) (Some accepted)
              Hp Hpass Hstatic Hsign Hcons Hfirst (or_intror eq_refl) He eq_refl Hq)
    as (_ & f2 & d1 & p1 & config & a1 & Hf2 & Hd & _ & Hknown & Hlog & Hsent & Hvb &
        Hrest).
  assert (Ef2 : f2 = envFactory).
  { vm_compute in Hf2. injection Hf2 as <-. vm_compute. reflexivity. }
  subst f2. injection Hd as <-.
  destruct Hrest as (_ & _ & _ & _ & _ & _ & _ & Hretry).
  assert (Hsg : Mock.envSigner
                  (HeaderFactory.signatureInputOf
                     (Some (Options.mk (getRequirementMaxAmountRequired (Some accepted))
                              (Some (Num.Int 1700003600))))
                     (HeaderFactory.invalidate
                        (challenged (Some accepted)
                           envFactory)))
                  (Run.world (Session.run (snd envFirst))) =
                (Ok (SignatureOutput.mk "0xsigned" "7" "1700003601" Mock.account),
                 Mock.mk 1700000000000 [] [Ok okResponse]))
    by (vm_compute; reflexivity).
  assert (Hparse : Num.parseInt "1700003601" = Ok (Num.Int 1700003601))
    by (vm_compute; reflexivity).
  destruct (Hretry _ _ _ Hsg Hparse)
    as (p2 & a2 & Hlog2 & Hsent2 & Hvalue & Hvb2 & Hres & _ & _ & Hgt).
  assert (Hconfig : config = []) by (apply Hknown; right; discriminate).
  subst config.
  assert (Hsafe : Z.abs 1700003600 < 2 ^ 53) by (vm_compute; reflexivity).
  exists 1700003600, 1700003601, p1, p2, a1, a2.
  split; [exact Hlog2|]. split; [exact Hsent|]. split; [exact Hsent2|].
  split; [exact Hvb|]. split; [exact Hvb2|]. split; [exact Hvalue|].
  split; [|exact Hres].
  exact (Hgt (envSignatureFn_honours _ _ _ _ _ _) 1700003600 1700003601
           eq_refl Hsafe eq_refl).
Defined.

(** The same run with a signing function that answers from a script, as
    the one of the test-suite does, and whose second permit expires when the
    first does. *)
Definition staleWorld : Mock.World :=
  Mock.mk 1700000000000
    [Mock.signed "0xaaa" "1" 1700000600; Mock.signed "0xbbb" "2" 1700000600]
    [Ok (challenge accepts capExhausted); Ok okResponse].

(** An interceptor that was given no configuration, in a world where the
    fetch of the configuration fails and the default one is used. *)
Definition unconfigured : Input.t Mock.World :=
  Input.mk "https://router.example.com" "1000000" (Some Mock.signatureFn) None
    None None None.

Definition unconfiguredWorld : Mock.World :=
  Mock.mk 1700000000000
    [Mock.signed "0xaaa" "1" 1700000600; Mock.signed "0xbbb" "2" 1700000601]
    [Throw; Ok (challenge accepts capExhausted); Ok okResponse].

(** C3, as stated, fails.  The interceptor asks for a later deadline and
    attaches what the signing function returns: in the first run the retry
    is sent, and answered, with a [validBefore] equal to the first one.  And
    the transport calls are two only when the configuration is there: in the
    second run the challenge is met on an interceptor without one, and the
    transport is called three times. *)
Lemma retry_deadline_counterexample :
  (let after :=
     Client.wrappedFetch Mock.World Mock.Date_now Mock.baseFetch Mock.newURL
       (testInput Mock.signatureFn Mock.baseConfig) closure chat post
       (session Mock.baseConfig staleWorld) in
   fst after = Ok okResponse /\
   map SignatureInput.minDeadlineExclusive (Run.signed (Session.run (snd after))) =
   [None; Some (Num.Int 1700000600)] /\
   map (attachedValidBefore "PAYMENT-SIGNATURE") (Session.fetched (snd after)) =
   [Some (Num.Int 1700000600); Some (Num.Int 1700000600)] /\
   ~ (exists first second,
        map (attachedValidBefore "PAYMENT-SIGNATURE") (Session.fetched (snd after)) =
        [Some (Num.Int first); Some (Num.Int second)] /\
        first < second)) /\
  (let after :=
     Client.wrappedFetch Mock.World Mock.Date_now Mock.baseFetch Mock.newURL
       unconfigured closure chat post
       (Session.mk (Mock.start unconfiguredWorld) [] None None) in
   fst after = Ok okResponse /\
   List.length (Session.fetched (snd after)) = 3%nat /\
   map fst (Session.fetched (snd after)) =
   [InfoString "https://router.example.com/v1/config"; chat; chat] /\
   map (attachedValidBefore "PAYMENT-SIGNATURE") (Session.fetched (snd after)) =
   [None; Some (Num.Int 1700000600); Some (Num.Int 1700000601)]).
Proof.
  split.
  - intros after.
    assert (Hlog : map (attachedValidBefore "PAYMENT-SIGNATURE")
                     (Session.fetched (snd after)) =
                   [Some (Num.Int 1700000600); Some (Num.Int 1700000600)])
      by (vm_compute; reflexivity).
    split; [vm_compute; reflexivity|]. split; [vm_compute; reflexivity|].
    split; [exact Hlog|].
    intros (first & second & H & Hlt). rewrite Hlog in H.
    injection H as <- <-. lia.
  - intros after. repeat split; vm_compute; reflexivity.
Qed.

(** An error whose [code] is given and is none of the three, and whose
    text names the exhausted cap; and one without a [code] whose text is
    split between [error] and [message]. *)
Definition paymentError : ErrorResponse.t :=
  ErrorResponse.mk (Some "payment_error") (Some "Cap exhausted for this session") None.

Definition paymentErrorBody : JSValue :=
  JObj [("code", JStr "payment_error");
        ("error", JStr "Cap exhausted for this session")].

Definition splitError : ErrorResponse.t :=
  ErrorResponse.mk None (Some "cap") (Some "exhausted").

Definition codedWorld : Mock.World :=
  Mock.mk 1700000000000
    [Mock.signed "0xaaa" "1" 1700000600; Mock.signed "0xbbb" "2" 1700000601]
    [Ok (challenge accepts paymentErrorBody); Ok okResponse].

(** C2, as stated, fails: the texts are searched also when a [code] is
    present, and the two fields are joined by a space.  The 402 below has
    the code [payment_error]; the interceptor signs again and retries. *)
Lemma retry_with_other_code_counterexample :
  let after :=
    Client.wrappedFetch Mock.World Mock.Date_now Mock.baseFetch Mock.newURL
      (testInput Mock.signatureFn Mock.baseConfig) closure chat post
      (session Mock.baseConfig codedWorld) in
  parseErrorResponse paymentErrorBody = Some paymentError /\
  Spec.classifies paymentError = false /\
  shouldInvalidatePermit paymentError = true /\
  List.length (Session.fetched (snd after)) = 2%nat /\
  List.length (Run.signed (Session.run (snd after))) = 2%nat /\
  fst after = Ok okResponse /\
  Spec.classifies splitError = false /\
  shouldInvalidatePermit splitError = true.
Proof. vm_compute. repeat split; reflexivity. Qed.

Lemma retry_decision_witness :
  Client.retries Mock.World (testInput Mock.signatureFn Mock.baseConfig)
    (Some (ErrorResponse.mk (Some "cap_exhausted") None None)) = true /\
  Client.afterInitial Mock.World Mock.Date_now Mock.baseFetch
    (testInput Mock.signatureFn Mock.baseConfig) chat post
    (Sent.mk (challenge accepts capExhausted) (Some (Num.Int 1700003600)))
    (Session.withFactory envFactory (session Mock.baseConfig staleWorld)) =
  Client.bind Mock.World
    (Client.sendWithPermit Mock.World Mock.Date_now Mock.baseFetch
       (testInput Mock.signatureFn Mock.baseConfig) chat post (Some "500000")
       (Some (Num.Int 1700003600)))
    (fun refreshed => Client.ret Mock.World (Sent.response refreshed))
    (Session.withFactory
       (HeaderFactory.invalidate (challenged (Some accepted) envFactory))
       (session Mock.baseConfig staleWorld)).
Proof.
  assert (He : Client.extractErrorResponse (challenge accepts capExhausted) =
               Ok (Some (ErrorResponse.mk (Some "cap_exhausted") None None)))
    by (vm_compute; reflexivity).
  assert (Hq : Client.requirementOf (challenge accepts capExhausted) =
               Ok (Some accepted)) by (vm_compute; reflexivity).
  destruct (retry_decision Mock.World Mock.Date_now Mock.baseFetch Mock.newURL
              (testInput Mock.signatureFn Mock.baseConfig) chat post
              (Sent.mk (challenge accepts capExhausted) (Some (Num.Int 1700003600)))
              (Session.withFactory envFactory (session Mock.baseConfig staleWorld))
              (Some (ErrorResponse.mk (Some "cap_exhausted") None None))
              (Some accepted) (or_intror eq_refl) He Hq)
    as (Hiff & _ & Hsigning).
  assert (Hretries : Client.retries Mock.World
                       (testInput Mock.signatureFn Mock.baseConfig)
                       (Some (ErrorResponse.mk (Some "cap_exhausted") None None)) =
                     true).
  { apply Hiff. split; [reflexivity|].
    exists (ErrorResponse.mk (Some "cap_exhausted") None None).
    split; [reflexivity|]. left. left. reflexivity. }
  split; [exact Hretries|].
  exact (proj2 (Hsigning Mock.signatureFn envFactory eq_refl eq_refl eq_refl) Hretries).
Defined.


(** * Further properties *)

(** ** Private keys and signing sources *)

Lemma isHexDigit_not_white (c : ascii) :
  isHexDigit c = true -> Num.isWhite c = false.
Proof. destruct c as [[] [] [] [] [] [] [] []]; vm_compute; congruence. Qed.

Lemma trimEnd_allHex (s : string) : allHex s = true -> trimEnd s = s.
Proof.
  induction s as [|c s IH]; [reflexivity|]. cbn [allHex trimEnd].
  intros H. apply andb_true_iff in H. destruct H as [Hc Hs].
  rewrite (IH Hs). rewrite (isHexDigit_not_white c Hc). now destruct s.
Qed.

(** A key in normal form has no white space to trim. *)
Lemma trim_key (digits : string) :
  allHex digits = true -> trim ("0x" ++ digits) = "0x" ++ digits.
Proof.
  intros H. unfold trim. cbn [append Num.skipWhite].
  change (Num.isWhite "0") with false. cbv iota.
  cbn [trimEnd]. rewrite (trimEnd_allHex _ H).
  change (Num.isWhite "x") with false. change (Num.isWhite "0") with false.
  now destruct digits.
Qed.

Lemma isPrivateKey_iff (s : string) :
  isPrivateKey s = true <->
  exists digits,
    s = "0x" ++ digits /\ String.length digits = 64%nat /\ allHex digits = true.
Proof.
  split.
  - destruct s as [|a s]; [discriminate|].
    destruct a as [[] [] [] [] [] [] [] []]; try discriminate.
    destruct s as [|b digits]; [discriminate|].
    destruct b as [[] [] [] [] [] [] [] []]; try discriminate.
    unfold isPrivateKey.
    intros H. apply andb_true_iff in H. destruct H as [Hl Hh].
    exists digits. split; [reflexivity|]. split; [now apply Nat.eqb_eq|exact Hh].
  - intros (digits & -> & Hl & Hh). cbn [append isPrivateKey].
    now rewrite Hl, Hh.
Qed.

Lemma normalizePrivateKey_accepts (v digits : string) :
  String.length digits = 64%nat ->
  allHex digits = true ->
  trim v = "0x" ++ digits \/ trim v = "0X" ++ digits ->
  normalizePrivateKey (Some v) = Some ("0x" ++ digits).
Proof.
  intros Hl Hh Ht. unfold normalizePrivateKey.
  assert (Hv : Str.truthy v = true).
  { destruct v; [|reflexivity]. destruct Ht as [Ht|Ht]; discriminate Ht. }
  rewrite Hv. cbn [negb].
  assert (Hk : isPrivateKey ("0x" ++ digits) = true).
  { apply isPrivateKey_iff. now exists digits. }
  destruct Ht as [-> | ->].
  - change (Str.startsWith ("0x" ++ digits) "0X") with false. cbv iota.
    now rewrite Hk.
  - change (Str.startsWith ("0X" ++ digits) "0X") with true. cbv iota.
    change (Str.drop 2 ("0X" ++ digits)) with digits. now rewrite Hk.
Qed.

Lemma normalizePrivateKey_Some (value : option string) (key : string) :
  normalizePrivateKey value = Some key ->
  exists v digits,
    value = Some v /\ key = "0x" ++ digits /\
    String.length digits = 64%nat /\ allHex digits = true /\
    (trim v = "0x" ++ digits \/ trim v = "0X" ++ digits).
Proof.
  unfold normalizePrivateKey. destruct value as [v|]; [|discriminate].
  destruct (negb (Str.truthy v)); [discriminate|].
  destruct (Str.startsWith (trim v) "0X") eqn:Es.
  - destruct (isPrivateKey _) eqn:Ek; [|discriminate]. intros [= <-].
    apply isPrivateKey_iff in Ek. destruct Ek as (digits & Hd & Hl & Hh).
    injection Hd as Hd. exists v, digits. repeat split; auto.
    + now rewrite Hd.
    + right. destruct (trim v) as [|a [|b rest]]; cbn [Str.startsWith] in Es;
        rewrite ?andb_false_r in Es; try discriminate.
      apply andb_true_iff in Es. destruct Es as [Ea Es].
      apply andb_true_iff in Es. destruct Es as [Eb _].
      apply Ascii.eqb_eq in Ea, Eb. subst a b. cbn [Str.drop] in Hd.
      now rewrite Hd.
  - destruct (isPrivateKey _) eqn:Ek; [|discriminate]. intros [= <-].
    apply isPrivateKey_iff in Ek. destruct Ek as (digits & Hd & Hl & Hh).
    exists v, digits. repeat split; auto.
Qed.

(** X1.  [normalizePrivateKey] answers a key exactly when the value,
    white space around it dropped, is [0x] or [0X] followed by 64
    hexadecimal digits; the key it answers is that text with the prefix in
    lower case and the digits as they came.  An absent or empty value, and
    any other text, gives [null].  Normalizing is idempotent. *)
Theorem normalizePrivateKey_spec (value : option string) (key : string) :
  (normalizePrivateKey value = Some key <->
   exists v digits,
     value = Some v /\
     key = "0x" ++ digits /\
     String.length digits = 64%nat /\
     allHex digits = true /\
     (trim v = "0x" ++ digits \/ trim v = "0X" ++ digits)) /\
  (normalizePrivateKey value = Some key -> normalizePrivateKey (Some key) = Some key).
Proof.
  split; [split|].
  - apply normalizePrivateKey_Some.
  - intros (v & digits & -> & -> & Hl & Hh & Ht).
    now apply normalizePrivateKey_accepts.
  - intros H.
    destruct (normalizePrivateKey_Some _ _ H) as (v & digits & _ & -> & Hl & Hh & _).
    apply normalizePrivateKey_accepts; auto. left. now apply trim_key.
Qed.

Lemma trimEnd_idempotent (s : string) : trimEnd (trimEnd s) = trimEnd s.
Proof.
  induction s as [|c s IH]; [reflexivity|]. cbn [trimEnd].
  destruct (trimEnd s) as [|d t] eqn:E.
  - destruct (Num.isWhite c) eqn:Ec; [reflexivity|]. cbn [trimEnd]. now rewrite Ec.
  - change (trimEnd (String c (String d t))) with
      (match trimEnd (String d t) with
       | EmptyString => if Num.isWhite c then EmptyString else String c EmptyString
       | u => String c u
       end).
    now rewrite IH.
Qed.

(** The text starts with something other than white space, if it starts. *)
Definition headed (s : string) : Prop :=
  match s with
  | EmptyString => True
  | String c _ => Num.isWhite c = false
  end.

Lemma skipWhite_headed (s : string) : headed (Num.skipWhite s).
Proof.
  induction s as [|c s IH]; [exact I|]. cbn [Num.skipWhite].
  destruct (Num.isWhite c) eqn:E; [exact IH|exact E].
Qed.

Lemma skipWhite_of_headed (s : string) : headed s -> Num.skipWhite s = s.
Proof. destruct s as [|c s]; [reflexivity|]. simpl. now intros ->. Qed.

Lemma trimEnd_headed (s : string) : headed s -> headed (trimEnd s).
Proof.
  destruct s as [|c s]; [intros _; exact I|]. cbn [headed trimEnd]. intros Hc.
  destruct (trimEnd s); [now rewrite Hc|exact Hc].
Qed.

Lemma trim_idempotent (s : string) : trim (trim s) = trim s.
Proof.
  unfold trim.
  rewrite (skipWhite_of_headed (trimEnd (Num.skipWhite s))).
  - apply trimEnd_idempotent.
  - apply trimEnd_headed, skipWhite_headed.
Qed.

Section SigningSourceFacts.

Variable W : Type.
Variable Date_now : W -> Z.
Variable privateKeyToAccount : string -> outcome string.
Variable fetchPermitNonce : Chain -> string -> string -> W -> outcome Z * W.
Variable signTypedData : Chain -> string -> TypedData.t -> W -> outcome string * W.

#[local] Abbreviation resolve :=
  (resolveX402SigningSource W Date_now privateKeyToAccount fetchPermitNonce
     signTypedData).
#[local] Abbreviation envSigner :=
  (createEnvPrivateKeySignatureFn W Date_now privateKeyToAccount fetchPermitNonce
     signTypedData).

(** X2.  [resolveX402SigningSource] in [static_header] mode answers the
    trimmed static header, which is then not empty and has no white space
    around it, under the given header name or [PAYMENT-SIGNATURE]; it throws
    exactly when the secret is absent or blank, and it does not read the
    private key.  In any other mode, [env_pk] being the default, it answers
    the signing function of the normalized private key, throws exactly when
    the key does not normalize, and does not read the static header.  A
    static header value it answers puts [createX402Fetch] in static-header
    mode. *)
Theorem resolveX402SigningSource_spec (signerMode : option SigningMode)
  (paymentHeader : option string) (secrets : Secrets.t) :
  let source := resolve signerMode paymentHeader secrets in
  (forall name value,
     source = Ok (StaticHeaderSource name value) <->
     signerMode = Some static_header /\
     name = orElse paymentHeader "PAYMENT-SIGNATURE" /\
     value <> EmptyString /\
     exists secret,
       Secrets.X402_STATIC_PAYMENT_HEADER secrets = Some secret /\
       value = trim secret) /\
  (forall name value,
     source = Ok (StaticHeaderSource name value) ->
     trim value = value /\
     forall routerUrl permitCap sign initialConfig network,
       Client.staticHeaderValue W
         (Input.mk routerUrl permitCap sign initialConfig network (Some name)
            (Some value)) = Some value) /\
  (forall sign,
     source = Ok (SignatureSource sign) <->
     signerMode <> Some static_header /\
     exists key,
       normalizePrivateKey (Secrets.X402_PRIVATE_KEY secrets) = Some key /\
       sign = envSigner key) /\
  (source = Throw <->
   (signerMode = Some static_header /\
    forall secret,
      Secrets.X402_STATIC_PAYMENT_HEADER secrets = Some secret ->
      trim secret = EmptyString) \/
   (signerMode <> Some static_header /\
    normalizePrivateKey (Secrets.X402_PRIVATE_KEY secrets) = None)) /\
  source <> Beyond /\
  (forall key,
     signerMode = Some static_header ->
     resolve signerMode paymentHeader
       (Secrets.mk (Secrets.X402_STATIC_PAYMENT_HEADER secrets) key) = source) /\
  (forall header,
     signerMode <> Some static_header ->
     resolve signerMode paymentHeader
       (Secrets.mk header (Secrets.X402_PRIVATE_KEY secrets)) = source).
Proof.
  intros source.
  assert (Hstatic : signerMode = Some static_header ->
            source =
            match Secrets.X402_STATIC_PAYMENT_HEADER secrets with
            | Some secret =>
                if Str.truthy (trim secret)
                then Ok (StaticHeaderSource (orElse paymentHeader "PAYMENT-SIGNATURE")
                           (trim secret))
                else Throw
            | None => Throw
            end).
  { intros ->. subst source. unfold resolveX402SigningSource.
    destruct (Secrets.X402_STATIC_PAYMENT_HEADER secrets) as [secret|];
      [|reflexivity].
    cbn [option_map]. now destruct (Str.truthy (trim secret)). }
  assert (Henv : signerMode <> Some static_header ->
            source =
            match normalizePrivateKey (Secrets.X402_PRIVATE_KEY secrets) with
            | Some key => Ok (SignatureSource (envSigner key))
            | None => Throw
            end).
  { intros Hm. subst source. unfold resolveX402SigningSource.
    assert (Hmode : match signerMode with Some m => m | None => env_pk end = env_pk).
    { destruct signerMode as [[|]|]; try reflexivity. now contradiction Hm. }
    rewrite Hmode.
    destruct (normalizePrivateKey (Secrets.X402_PRIVATE_KEY secrets)) as [key|] eqn:E;
      [|reflexivity].
    destruct (normalizePrivateKey_Some _ _ E)
      as (_ & digits & _ & -> & _). reflexivity. }
  assert (Hmode : signerMode = Some static_header \/ signerMode <> Some static_header).
  { destruct signerMode as [[|]|]; auto; right; discriminate. }
  split; [|split; [|split; [|split; [|split; [|split]]]]].
  - intros name value. destruct Hmode as [Hm|Hm].
    + rewrite (Hstatic Hm).
      destruct (Secrets.X402_STATIC_PAYMENT_HEADER secrets) as [secret|].
      * destruct (Str.truthy (trim secret)) eqn:Et.
        -- apply truthy_true in Et. split.
           ++ intros [= <- <-]. repeat split; auto. now exists secret.
           ++ intros (_ & -> & _ & secret' & [= <-] & ->). reflexivity.
        -- apply truthy_false in Et. split; [discriminate|].
           intros (_ & _ & Hv & secret' & [= <-] & ->). now contradiction Hv.
      * split; [discriminate|]. intros (_ & _ & _ & secret' & [=] & _).
    + rewrite (Henv Hm). split.
      * destruct (normalizePrivateKey _); discriminate.
      * intros [H _]. now contradiction Hm.
  - intros name value. destruct Hmode as [Hm|Hm].
    + rewrite (Hstatic Hm).
      destruct (Secrets.X402_STATIC_PAYMENT_HEADER secrets) as [secret|];
        [|discriminate].
      destruct (Str.truthy (trim secret)) eqn:Et; [|discriminate].
      intros [= <- <-]. split; [apply trim_idempotent|].
      intros. unfold Client.staticHeaderValue. cbn [Input.staticHeaderValue].
      now rewrite Et.
    + rewrite (Henv Hm). destruct (normalizePrivateKey _); discriminate.
  - intros sign. destruct Hmode as [Hm|Hm].
    + rewrite (Hstatic Hm). split.
      * destruct (Secrets.X402_STATIC_PAYMENT_HEADER secrets) as [secret|];
          [destruct (Str.truthy (trim secret))|]; discriminate.
      * intros [H _]. now contradiction H.
    + rewrite (Henv Hm).
      destruct (normalizePrivateKey _) as [key|]; split.
      * intros [= <-]. split; [exact Hm|]. now exists key.
      * intros [_ (key' & [= <-] & ->)]. reflexivity.
      * discriminate.
      * intros [_ (key' & [=] & _)].
  - destruct Hmode as [Hm|Hm].
    + rewrite (Hstatic Hm).
      destruct (Secrets.X402_STATIC_PAYMENT_HEADER secrets) as [secret|].
      * destruct (Str.truthy (trim secret)) eqn:Et; split.
        -- discriminate.
        -- apply truthy_true in Et.
           intros [[_ H]|[H _]]; [|now contradiction H].
           contradiction Et. now apply H.
        -- intros _. left. split; [exact Hm|]. intros secret' [= <-].
           now apply truthy_false.
        -- reflexivity.
      * split; [|reflexivity]. intros _. left. split; [exact Hm|]. discriminate.
    + rewrite (Henv Hm).
      destruct (normalizePrivateKey _) as [key|]; split.
      * discriminate.
      * intros [[H _]|[_ [=]]]. now contradiction Hm.
      * intros _. right. auto.
      * reflexivity.
  - destruct Hmode as [Hm|Hm].
    + rewrite (Hstatic Hm).
      destruct (Secrets.X402_STATIC_PAYMENT_HEADER secrets) as [secret|];
        [destruct (Str.truthy (trim secret))|]; discriminate.
    + rewrite (Henv Hm). destruct (normalizePrivateKey _); discriminate.
  - intros key Hm. rewrite (Hstatic Hm). rewrite Hm.
    unfold resolveX402SigningSource. cbn [Secrets.X402_STATIC_PAYMENT_HEADER].
    destruct (Secrets.X402_STATIC_PAYMENT_HEADER secrets) as [secret|];
      [|reflexivity].
    cbn [option_map]. now destruct (Str.truthy (trim secret)).
  - intros header Hm. rewrite (Henv Hm). unfold resolveX402SigningSource.
    assert (Hmode' : match signerMode with Some m => m | None => env_pk end = env_pk).
    { destruct signerMode as [[|]|]; try reflexivity. now contradiction Hm. }
    rewrite Hmode'. cbn [Secrets.X402_PRIVATE_KEY].
    destruct (normalizePrivateKey (Secrets.X402_PRIVATE_KEY secrets)) as [key|] eqn:E;
      [|reflexivity].
    destruct (normalizePrivateKey_Some _ _ E)
      as (_ & digits & _ & -> & _). reflexivity.
Qed.

End SigningSourceFacts.

(** ** Chains, and what the env_pk signer signs *)

Lemma cut_printed (u : Decimal.uint) :
  Str.cut ":" (NilEmpty.string_of_uint u) = (NilEmpty.string_of_uint u, None).
Proof. induction u; simpl; try rewrite IHu; reflexivity. Qed.

Lemma cut_toString (n : Z) : Str.cut ":" (Num.toString n) = (Num.toString n, None).
Proof.
  unfold Num.toString. destruct n as [|p|p]; [reflexivity| |];
    cbn [Z.to_int NilZero.string_of_int];
    pose proof (DecimalPos.Unsigned.to_uint_nonnil p) as Hn;
    rewrite (printed_nonnil _ Hn).
  - apply cut_printed.
  - cbn [append Str.cut]. change (Ascii.eqb "-" ":") with false. cbv iota.
    now rewrite cut_printed.
Qed.

Lemma toString_injective (m n : Z) : Num.toString m = Num.toString n -> m = n.
Proof.
  intros H. pose proof (readInt_toString m) as Hm.
  rewrite H, readInt_toString in Hm. congruence.
Qed.

(** The chain id read from the network [eip155:n], [n] being a double. *)
Lemma chainIdOf_eip155 (n : Z) :
  Z.abs n <= 2 ^ 53 -> chainIdOf ("eip155:" ++ Num.toString n) = Ok (Num.Int n).
Proof.
  intros Hn. unfold chainIdOf.
  change (Str.split_1 ":" ("eip155:" ++ Num.toString n)) with
    (Some (fst (Str.cut ":" (Num.toString n)))).
  rewrite cut_toString. now apply parseInt_toString.
Qed.

(** The chain looked up for the network [eip155:n]. *)
Lemma chainOf_eip155 (n : Z) :
  chainOf ("eip155:" ++ Num.toString n) =
  Ok (if n =? 84532 then baseSepolia else if n =? 1 then mainnet else base).
Proof.
  set (network := "eip155:" ++ Num.toString n). unfold chainOf.
  assert (Heq : forall m, String.eqb network ("eip155:" ++ Num.toString m) = (n =? m)).
  { intros m. destruct (n =? m) eqn:E.
    - apply Z.eqb_eq in E. subst m. apply String.eqb_refl.
    - apply String.eqb_neq. intros H. apply Z.eqb_neq in E. apply E.
      subst network. cbn [append] in H. injection H as H.
      now apply toString_injective. }
  change "eip155:8453" with ("eip155:" ++ Num.toString 8453).
  change "eip155:84532" with ("eip155:" ++ Num.toString 84532).
  change "eip155:1" with ("eip155:" ++ Num.toString 1).
  rewrite !Heq.
  destruct (n =? 8453) eqn:E1.
  { apply Z.eqb_eq in E1. subst n. reflexivity. }
  destruct (n =? 84532); [reflexivity|]. destruct (n =? 1); [reflexivity|].
  subst network. reflexivity.
Qed.

Lemma trimEnd_printed (u : Decimal.uint) :
  trimEnd (NilEmpty.string_of_uint u) = NilEmpty.string_of_uint u.
Proof.
  induction u; [reflexivity|..]; cbn [NilEmpty.string_of_uint trimEnd];
    rewrite IHu; now destruct (NilEmpty.string_of_uint u).
Qed.

Lemma allDigits_printed (u : Decimal.uint) :
  u <> Decimal.Nil -> allDigits (NilEmpty.string_of_uint u) = Some (Z.of_uint u).
Proof.
  intros Hu. unfold allDigits.
  rewrite <- (append_nil_r (NilEmpty.string_of_uint u)).
  rewrite takeDigits_printed by exact I. now destruct u.
Qed.

Lemma BigInt_printed (u : Decimal.uint) :
  u <> Decimal.Nil -> BigInt (NilEmpty.string_of_uint u) = Ok (Z.of_uint u).
Proof.
  intros Hu. unfold BigInt.
  assert (Hs : Num.skipWhite (NilEmpty.string_of_uint u) = NilEmpty.string_of_uint u).
  { destruct u; try reflexivity. }
  rewrite Hs, trimEnd_printed. pose proof (allDigits_printed u Hu) as Ha.
  destruct u as [|u|u|u|u|u|u|u|u|u|u]; try contradiction;
    cbn [NilEmpty.string_of_uint] in *; try (now rewrite Ha).
  destruct u as [|u|u|u|u|u|u|u|u|u|u];
    cbn [NilEmpty.string_of_uint] in *; try reflexivity;
    cbn [existsb Ascii.eqb Bool.eqb orb]; now rewrite Ha.
Qed.

(** [BigInt] reads back what [toString] prints. *)
Lemma BigInt_toString (z : Z) : BigInt (Num.toString z) = Ok z.
Proof.
  unfold Num.toString. destruct z as [|p|p]; [reflexivity| |];
    cbn [Z.to_int NilZero.string_of_int];
    pose proof (DecimalPos.Unsigned.to_uint_nonnil p) as Hn;
    rewrite (printed_nonnil _ Hn).
  - rewrite (BigInt_printed _ Hn). f_equal. exact (DecimalZ.of_to (Z.pos p)).
  - unfold BigInt. cbn [append Num.skipWhite].
    change (Num.isWhite "-") with false. cbv iota.
    cbn [trimEnd]. rewrite trimEnd_printed.
    destruct (NilEmpty.string_of_uint (Pos.to_uint p)) as [|c t] eqn:E.
    { destruct (Pos.to_uint p); try contradiction; discriminate. }
    rewrite <- E, (allDigits_printed _ Hn). f_equal.
    exact (DecimalZ.of_to (Z.neg p)).
Qed.

Section EnvSignatureFacts.

Variable W : Type.
Variable Date_now : W -> Z.
Variable privateKeyToAccount : string -> outcome string.
Variable fetchPermitNonce : Chain -> string -> string -> W -> outcome Z * W.
Variable signTypedData : Chain -> string -> TypedData.t -> W -> outcome string * W.

(** X3.  For a network [eip155:n], [n] being at most 2^53 in magnitude,
    the env_pk signer, whenever it returns, has read the nonce on, and had
    the permit signed for, the chain registered for 8453, 84532 or 1, and
    Base for every other [n]; the [chainId] of the signed domain is [n]
    also then. *)
Theorem chain_of_network (privateKey : string) (input : SignatureInput.t)
  (w w' : W) (out : SignatureOutput.t) (n : Z) :
  SignatureInput.network input = "eip155:" ++ Num.toString n ->
  Z.abs n <= 2 ^ 53 ->
  createEnvPrivateKeySignatureFn W Date_now privateKeyToAccount fetchPermitNonce
    signTypedData privateKey input w = (Ok out, w') ->
  let chain := if n =? 84532 then baseSepolia else if n =? 1 then mainnet else base in
  exists nonce w1 data,
    fetchPermitNonce chain (SignatureInput.asset input)
      (SignatureOutput.accountAddress out) w = (Ok nonce, w1) /\
    signTypedData chain (SignatureOutput.accountAddress out) data w1 =
    (Ok (SignatureOutput.signature out), w') /\
    TypedData.chainId data = Num.Int n /\
    TypedData.verifyingContract data = SignatureInput.asset input.
Proof.
  intros Hnet Hn H chain.
  destruct (envSignatureFn_inv _ _ _ _ _ _ _ _ _ _ H)
    as (chain' & chainId & account & nonce & w1 & value &
        Hc & Hi & _ & Hnonce & _ & Hs & _ & _ & Ha).
  rewrite Hnet, chainOf_eip155 in Hc. injection Hc as <-.
  rewrite Hnet, (chainIdOf_eip155 n Hn) in Hi. injection Hi as <-.
  rewrite Ha. exists nonce, w1. eexists.
  split; [exact Hnonce|]. split; [exact Hs|]. split; reflexivity.
Qed.

(** X4.  What the env_pk signer returns describes what it signed: the
    signature is the one obtained for a permit whose owner is the returned
    account, whose spender is the input's [facilitatorSigner], in the domain
    of the input's token and asset, and whose value, nonce and deadline are
    the numbers the input's [permitCap] and the returned [nonce] and
    [deadline] denote, the deadline being at most 2^53; the nonce is the one
    read for that owner on the asset. *)
Theorem env_signature_matches_output (privateKey : string)
  (input : SignatureInput.t) (w w' : W) (out : SignatureOutput.t) :
  createEnvPrivateKeySignatureFn W Date_now privateKeyToAccount fetchPermitNonce
    signTypedData privateKey input w = (Ok out, w') ->
  exists chain w1 data,
    chainOf (SignatureInput.network input) = Ok chain /\
    privateKeyToAccount privateKey = Ok (SignatureOutput.accountAddress out) /\
    fetchPermitNonce chain (SignatureInput.asset input)
      (SignatureOutput.accountAddress out) w = (Ok (TypedData.nonce data), w1) /\
    signTypedData chain (SignatureOutput.accountAddress out) data w1 =
    (Ok (SignatureOutput.signature out), w') /\
    TypedData.name data = SignatureInput.tokenName input /\
    TypedData.version data = SignatureInput.tokenVersion input /\
    chainIdOf (SignatureInput.network input) = Ok (TypedData.chainId data) /\
    TypedData.verifyingContract data = SignatureInput.asset input /\
    TypedData.owner data = SignatureOutput.accountAddress out /\
    TypedData.spender data = SignatureInput.facilitatorSigner input /\
    BigInt (SignatureInput.permitCap input) = Ok (TypedData.value data) /\
    BigInt (SignatureOutput.nonce out) = Ok (TypedData.nonce data) /\
    BigInt (SignatureOutput.deadline out) = Ok (TypedData.deadline data) /\
    Z.abs (TypedData.deadline data) <= 2 ^ 53 /\
    TypedData.deadline data =
    permitDeadline (secondsOf (Date_now w)) (SignatureInput.minDeadlineExclusive input).
Proof.
  intros H.
  destruct (envSignatureFn_inv _ _ _ _ _ _ _ _ _ _ H)
    as (chain & chainId & account & nonce & w1 & value &
        Hc & Hi & Hacc & Hnonce & Hv & Hs & Hprint & Hn & Ha).
  apply print_Ok in Hprint. destruct Hprint as [Hb Ht].
  rewrite Ha. exists chain, w1.
  exists (TypedData.mk (SignatureInput.tokenName input)
            (SignatureInput.tokenVersion input) chainId
            (SignatureInput.asset input) account
            (SignatureInput.facilitatorSigner input) value nonce
            (permitDeadline (secondsOf (Date_now w))
               (SignatureInput.minDeadlineExclusive input))).
  split; [exact Hc|]. split; [exact Hacc|].
  split; [exact Hnonce|]. split; [exact Hs|].
  cbn [TypedData.name TypedData.version TypedData.chainId TypedData.verifyingContract
       TypedData.owner TypedData.spender TypedData.value TypedData.nonce
       TypedData.deadline].
  rewrite Hn, Ht.
  repeat split; try reflexivity; try assumption; apply BigInt_toString.
Qed.

End EnvSignatureFacts.

Lemma chain_of_network_witness :
  exists nonce w1 data,
    Mock.fetchPermitNonce base DEFAULT_USDC_BASE Mock.account cachingWorld =
    (Ok nonce, w1) /\
    Mock.signTypedData base Mock.account data w1 = (Ok "0xsigned", cachingWorld) /\
    TypedData.chainId data = Num.Int 8453.
Proof.
  assert (Hn : Z.abs 8453 <= 2 ^ 53) by (vm_compute; discriminate).
  destruct (chain_of_network Mock.World Mock.Date_now
              Mock.privateKeyToAccount Mock.fetchPermitNonce Mock.signTypedData
              "0xaaaaaaaaaaaaaaaaaaaaaaaaaaaaaaaaaaaaaaaaaaaaaaaaaaaaaaaaaaaaaaaa"
              retryInput cachingWorld cachingWorld
              (SignatureOutput.mk "0xsigned" "7" "1700007201" Mock.account) 8453
              eq_refl Hn eq_refl)
    as (nonce & w1 & data & Hnonce & Hs & Hid & _).
  exists nonce, w1, data. split; [exact Hnonce|]. split; [exact Hs|exact Hid].
Defined.

Lemma env_signature_matches_output_witness :
  exists w1 data,
    Mock.signTypedData base Mock.account data w1 =
    (Ok "0xsigned", cachingWorld) /\
    TypedData.spender data = SignatureInput.facilitatorSigner retryInput /\
    TypedData.value data = 500000 /\
    TypedData.nonce data = 7 /\
    TypedData.deadline data = 1700007201.
Proof.
  destruct (env_signature_matches_output Mock.World Mock.Date_now
              Mock.privateKeyToAccount Mock.fetchPermitNonce Mock.signTypedData
              "0xaaaaaaaaaaaaaaaaaaaaaaaaaaaaaaaaaaaaaaaaaaaaaaaaaaaaaaaaaaaaaaaa"
              retryInput cachingWorld cachingWorld
              (SignatureOutput.mk "0xsigned" "7" "1700007201" Mock.account)
              eq_refl)
    as (chain & w1 & data & Hc & _ & _ & Hs & _ & _ & _ & _ & _ & Hsp & Hv & Hn & Hd & _).
  injection Hc as <-.
  exists w1, data. split; [exact Hs|]. split; [exact Hsp|].
  split; [|split].
  - assert (H : BigInt "500000" = Ok 500000) by reflexivity.
    change (SignatureInput.permitCap retryInput) with "500000" in Hv.
    rewrite H in Hv. now injection Hv as <-.
  - assert (H : BigInt "7" = Ok 7) by reflexivity.
    change (SignatureOutput.nonce _) with "7" in Hn.
    rewrite H in Hn. now injection Hn as <-.
  - assert (H : BigInt "1700007201" = Ok 1700007201) by (vm_compute; reflexivity).
    change (SignatureOutput.deadline _) with "1700007201" in Hd.
    rewrite H in Hd. now injection Hd as <-.
Defined.

(** ** The factory over its whole life *)

Lemma decode_encode_payload (p : PaymentPayload.t) :
  decodePaymentPayload (encodePaymentPayload p) = Ok (PaymentPayload.toJS p).
Proof.
  unfold decodePaymentPayload, encodePaymentPayload.
  rewrite base64_roundtrip. cbn [bindO]. rewrite utf8_roundtrip. cbn [bindO].
  apply parse_stringify.
Qed.

(** A cache entry whose value encodes a payload with the entry's cap,
    deadline, network, asset and payee. *)
Definition entryFaithful (c : CachedHeader.t) : Prop :=
  exists p : PaymentPayload.t,
    CachedHeader.value c = encodePaymentPayload p /\
    PaymentPayload.value (PaymentPayload.authorization (PaymentPayload.payload p)) =
    CachedHeader.maxValue c /\
    Num.parseInt
      (PaymentPayload.validBefore (PaymentPayload.authorization (PaymentPayload.payload p))) =
    Ok (CachedHeader.deadline c) /\
    PaymentPayload.network (PaymentPayload.accepted p) = CachedHeader.network c /\
    PaymentPayload.asset (PaymentPayload.accepted p) = CachedHeader.asset c /\
    PaymentPayload.payTo (PaymentPayload.accepted p) = CachedHeader.payTo c.

Definition faithful (f : Factory.t) : Prop :=
  forall c, Factory.cached f = Some c -> entryFaithful c.

Section FactoryLife.

Variable W : Type.
Variable Date_now : W -> Z.
Variable signatureFn : SignatureInput.t -> W -> outcome SignatureOutput.t * W.

#[local] Abbreviation getHeader := (HeaderFactory.getHeader W Date_now signatureFn).

(** The states a factory created with [config] and [permitCap] goes
    through, whatever is called on it, in whatever world. *)
Inductive reachable (config : RouterConfig.t) (permitCap : string) : Factory.t -> Prop :=
| reach_create :
    reachable config permitCap
      (HeaderFactory.createPaymentHeaderFactory config permitCap)
| reach_getHeader f options r :
    reachable config permitCap f ->
    reachable config permitCap (snd (fst (getHeader options f r)))
| reach_invalidate f :
    reachable config permitCap f ->
    reachable config permitCap (HeaderFactory.invalidate f)
| reach_updateConfig f nextConfig :
    reachable config permitCap f ->
    reachable config permitCap (HeaderFactory.updateConfig nextConfig f).

Lemma getHeader_faithful options f r :
  faithful f -> faithful (snd (fst (getHeader options f r))).
Proof.
  intros H. destruct (HeaderFactory.cacheHit W Date_now options f (Run.world r)) eqn:E.
  - apply cacheHit_iff in E. destruct E as [c [Hc Hr]].
    apply usable_iff in Hr. now rewrite (getHeader_hit _ _ _ _ _ _ _ Hc Hr).
  - rewrite (getHeader_miss _ _ _ _ _ _ E). unfold HeaderFactory.refresh.
    destruct (signatureFn _ _) as [[sg| |] w']; try exact H.
    destruct (Num.parseInt _) as [d| |] eqn:P; try exact H.
    intros c [= <-]. eexists. split; [reflexivity|]. repeat split. exact P.
Qed.

Lemma reachable_faithful config permitCap f :
  reachable config permitCap f -> faithful f /\ Factory.permitCap f = permitCap.
Proof.
  induction 1 as [|f options r _ [IH Hcap]|f _ [IH Hcap]|f nextConfig _ [IH Hcap]].
  - split; [intros c [=]|reflexivity].
  - split; [now apply getHeader_faithful|].
    rewrite <- Hcap. unfold HeaderFactory.getHeader, HeaderFactory.refresh.
    destruct (Factory.cached f) as [c|];
      [destruct (HeaderFactory.usable _ _ _ _ _ _); [reflexivity|]|];
      (destruct (signatureFn _ _) as [[sg| |] w']; try reflexivity;
       now destruct (Num.parseInt _)).
  - split; [intros c [=]|exact Hcap].
  - split; [exact IH|exact Hcap].
Qed.

(** X5.  Whatever has been called on a factory before, a header it hands
    out decodes to a payload of version 2 and scheme [upto] whose value is
    the cap of this call (the override if it is not empty, else the cap the
    factory was created with), whose [validBefore] reads as the deadline
    reported with the header, and whose network, asset and payee are those
    of the current configuration; the header's name is that of the current
    configuration. *)
Theorem every_header_matches_its_call (config : RouterConfig.t)
  (permitCap : string) (f f' : Factory.t) (options : option Options.t)
  (r r' : Run.t W) (h : HeaderResult.t) :
  reachable config permitCap f ->
  getHeader options f r = (Ok h, f', r') ->
  HeaderResult.headerName h =
  orElse (RouterConfig.paymentHeader (Factory.config f)) "PAYMENT-SIGNATURE" /\
  exists p : PaymentPayload.t,
    decodePaymentPayload (HeaderResult.headerValue h) = Ok (PaymentPayload.toJS p) /\
    PaymentPayload.value (PaymentPayload.authorization (PaymentPayload.payload p)) =
    orElse (match options with
            | Some o => Options.capOverride o
            | None => None
            end) permitCap /\
    Num.parseInt
      (PaymentPayload.validBefore (PaymentPayload.authorization (PaymentPayload.payload p))) =
    Ok (HeaderResult.deadline h) /\
    PaymentPayload.network (PaymentPayload.accepted p) =
    RouterConfig.network (Factory.config f) /\
    PaymentPayload.asset (PaymentPayload.accepted p) =
    RouterConfig.asset (Factory.config f) /\
    PaymentPayload.payTo (PaymentPayload.accepted p) =
    RouterConfig.payTo (Factory.config f).
Proof.
  intros Hreach Hg. destruct (reachable_faithful _ _ _ Hreach) as [Hf Hcap].
  split.
  { revert Hg. unfold HeaderFactory.getHeader, HeaderFactory.refresh.
    destruct (Factory.cached f) as [c|];
      [destruct (HeaderFactory.usable _ _ _ _ _ _); [now intros [= <- _ _]|]|];
      (destruct (signatureFn _ _) as [[sg| |] w']; try discriminate;
       destruct (Num.parseInt _); try discriminate; now intros [= <- _ _]). }
  destruct (HeaderFactory.cacheHit W Date_now options f (Run.world r)) eqn:E.
  - apply cacheHit_iff in E. destruct E as [c [Hc Hr]].
    pose proof Hr as Hu. apply usable_iff in Hu.
    rewrite (getHeader_hit _ _ _ _ _ _ _ Hc Hu) in Hg. injection Hg as <- _ _.
    destruct (Hf c Hc) as (p & Hv & Hm & Hd & Hn & Ha & Hp).
    destruct Hr as (_ & Hmax & (Hnet & Hasset & Hpay) & _).
    exists p. cbn [HeaderResult.headerValue HeaderResult.deadline].
    rewrite Hv, decode_encode_payload, Hm, Hmax, Hn, Ha, Hp, Hnet, Hasset, Hpay.
    unfold HeaderFactory.capOf. rewrite Hcap. now repeat split.
  - rewrite (getHeader_miss _ _ _ _ _ _ E) in Hg. unfold HeaderFactory.refresh in Hg.
    destruct (signatureFn _ _) as [[sg| |] w']; try discriminate.
    destruct (Num.parseInt _) as [d| |] eqn:P; try discriminate.
    injection Hg as <- _ _. eexists.
    cbn [HeaderResult.headerValue HeaderResult.deadline].
    rewrite decode_encode_payload. split; [reflexivity|].
    unfold HeaderFactory.capOf. rewrite <- Hcap. repeat split. exact P.
Qed.

(** X6.  After [invalidate], and after an [updateConfig] that changes the
    network, the asset or the payee of the cached header, the next
    [getHeader] calls the signing function, with the configuration then
    current, and goes on in the world that call leaves. *)
Theorem next_getHeader_signs_afresh (options : option Options.t) (f : Factory.t)
  (r : Run.t W) :
  Run.signed (snd (getHeader options (HeaderFactory.invalidate f) r)) =
  (Run.signed r ++ [HeaderFactory.signatureInputOf options f])%list /\
  Run.world (snd (getHeader options (HeaderFactory.invalidate f) r)) =
  snd (signatureFn (HeaderFactory.signatureInputOf options f) (Run.world r)) /\
  (forall nextConfig,
     (forall c,
        Factory.cached f = Some c ->
        CachedHeader.network c <> RouterConfig.network nextConfig \/
        CachedHeader.asset c <> RouterConfig.asset nextConfig \/
        CachedHeader.payTo c <> RouterConfig.payTo nextConfig) ->
     let input :=
       HeaderFactory.signatureInputOf options
         (HeaderFactory.updateConfig nextConfig f) in
     Run.signed (snd (getHeader options (HeaderFactory.updateConfig nextConfig f) r)) =
     (Run.signed r ++ [input])%list /\
     Run.world (snd (getHeader options (HeaderFactory.updateConfig nextConfig f) r)) =
     snd (signatureFn input (Run.world r)) /\
     SignatureInput.network input = RouterConfig.network nextConfig /\
     SignatureInput.asset input = RouterConfig.asset nextConfig /\
     SignatureInput.payTo input = RouterConfig.payTo nextConfig /\
     SignatureInput.facilitatorSigner input = RouterConfig.facilitatorSigner nextConfig).
Proof.
  split; [now rewrite getHeader_signed|]. split; [now rewrite getHeader_world|].
  intros nextConfig Hdiff input.
  assert (E : HeaderFactory.cacheHit W Date_now options
                (HeaderFactory.updateConfig nextConfig f) (Run.world r) = false).
  { destruct (HeaderFactory.cacheHit _ _ _ _ _) eqn:E; [|reflexivity].
    apply cacheHit_iff in E. destruct E as (c & Hc & _ & _ & (Hn & Ha & Hp) & _).
    cbn in Hc, Hn, Ha, Hp. destruct (Hdiff c Hc) as [H|[H|H]]; contradiction. }
  split; [now rewrite getHeader_signed, E|].
  split; [now rewrite getHeader_world, E|]. now repeat split.
Qed.

(** X7.  The cache holds a header for one cap at a time: after a header
    was handed out for one cap, a call that asks for another cap, by an
    override or by leaving the override out, calls the signing function
    with the cap it asks for, however fresh the cached header is, and goes
    on in the world that call leaves. *)
Theorem cache_holds_one_cap (options next : option Options.t) (f f1 : Factory.t)
  (r r1 r2 : Run.t W) (h : HeaderResult.t) :
  getHeader options f r = (Ok h, f1, r1) ->
  HeaderFactory.capOf next f <> HeaderFactory.capOf options f ->
  Run.signed (snd (getHeader next f1 r2)) =
  (Run.signed r2 ++ [HeaderFactory.signatureInputOf next f1])%list /\
  Run.world (snd (getHeader next f1 r2)) =
  snd (signatureFn (HeaderFactory.signatureInputOf next f1) (Run.world r2)) /\
  SignatureInput.permitCap (HeaderFactory.signatureInputOf next f1) =
  HeaderFactory.capOf next f.
Proof.
  intros Hg Hcap.
  destruct (getHeader_Ok_cached W Date_now signatureFn _ _ _ _ _ _ Hg)
    as (Hp & _ & c & Hc & _ & _ & Hmax & _).
  assert (Hsame : HeaderFactory.capOf next f1 = HeaderFactory.capOf next f).
  { unfold HeaderFactory.capOf. now rewrite Hp. }
  assert (E : HeaderFactory.cacheHit W Date_now next f1 (Run.world r2) = false).
  { destruct (HeaderFactory.cacheHit _ _ _ _ _) eqn:E; [|reflexivity].
    apply cacheHit_iff in E. destruct E as (c' & Hc' & _ & Hm & _).
    rewrite Hc in Hc'. injection Hc' as <-. congruence. }
  split; [now rewrite getHeader_signed, E|].
  split; [now rewrite getHeader_world, E|exact Hsame].
Qed.

End FactoryLife.

Lemma every_header_matches_its_call_witness :
  exists p : PaymentPayload.t,
    decodePaymentPayload
      (encodePaymentPayload
         (buildPaymentPayload Mock.baseConfig Mock.account "1000000" "0xabc123" "7"
            "1700000600")) = Ok (PaymentPayload.toJS p) /\
    PaymentPayload.value (PaymentPayload.authorization (PaymentPayload.payload p)) =
    "1000000" /\
    PaymentPayload.payTo (PaymentPayload.accepted p) =
    RouterConfig.payTo rotatedConfig.
Proof.
  assert (Hg : HeaderFactory.getHeader Mock.World Mock.Date_now Mock.signatureFn None
                 (HeaderFactory.updateConfig rotatedConfig (snd (fst cachingFirst)))
                 (Run.mk (Mock.mk 1700000200000 [] []) (Run.signed (snd cachingFirst))) =
               (Ok (HeaderResult.mk "X-PAYMENT"
                      (encodePaymentPayload
                         (buildPaymentPayload Mock.baseConfig Mock.account "1000000"
                            "0xabc123" "7" "1700000600"))
                      (Num.Int 1700000600)),
                HeaderFactory.updateConfig rotatedConfig (snd (fst cachingFirst)),
                Run.mk (Mock.mk 1700000200000 [] []) (Run.signed (snd cachingFirst))))
    by (vm_compute; reflexivity).
  destruct (every_header_matches_its_call Mock.World Mock.Date_now Mock.signatureFn
              Mock.baseConfig "1000000" _ _ _ _ _ _
              (reach_updateConfig _ _ _ _ _ _ rotatedConfig
                 (reach_getHeader _ _ _ _ _ _ None (Mock.start cachingWorld)
                    (reach_create _ _ _ _ _)))
              Hg) as (_ & p & Hdec & Hval & _ & _ & _ & Hpay).
  exists p. split; [exact Hdec|]. split; [exact Hval|exact Hpay].
Defined.

Lemma cache_holds_one_cap_witness :
  List.length
    (Run.signed
       (snd (HeaderFactory.getHeader Mock.World Mock.Date_now Mock.signatureFn
               (Some (Options.mk (Some "500000") None)) (snd (fst cachingFirst))
               (Run.mk (Mock.mk 1700000200000 [] []) (Run.signed (snd cachingFirst)))))) =
  2%nat.
Proof.
  destruct (cache_holds_one_cap Mock.World Mock.Date_now Mock.signatureFn None
              (Some (Options.mk (Some "500000") None)) cachingFactory
              (snd (fst cachingFirst)) (Mock.start cachingWorld) (snd cachingFirst)
              (Run.mk (Mock.mk 1700000200000 [] []) (Run.signed (snd cachingFirst)))
              (HeaderResult.mk "PAYMENT-SIGNATURE"
                 (encodePaymentPayload
                    (buildPaymentPayload Mock.baseConfig Mock.account "1000000"
                       "0xabc123" "7" "1700000600"))
                 (Num.Int 1700000600))) as [Hs _].
  - vm_compute. reflexivity.
  - intros H. discriminate H.
  - rewrite Hs. reflexivity.
Defined.

(** ** The interceptor in its other modes *)







Section ClientModes.

Variable W : Type.
Variable Date_now : W -> Z.
Variable baseFetch : RequestInfo -> option RequestInit.t -> W -> outcome Response.t * W.
Variable newURL : string -> option string -> option URL.t.
Variable input : Input.t W.

#[local] Abbreviation bind := (Client.bind W).
#[local] Abbreviation ret := (Client.ret W).
#[local] Abbreviation callFetch := (Client.callFetch W baseFetch).
#[local] Abbreviation getConfig := (Client.getConfig W baseFetch input).
#[local] Abbreviation getFactory := (Client.getFactory W baseFetch input).
#[local] Abbreviation sendWithPermit := (Client.sendWithPermit W Date_now baseFetch input).
#[local] Abbreviation afterInitial := (Client.afterInitial W Date_now baseFetch input).
#[local] Abbreviation wrappedFetch := (Client.wrappedFetch W Date_now baseFetch newURL input).
#[local] Abbreviation staticHeaderValue := (Client.staticHeaderValue W input).
#[local] Abbreviation staticHeaderName := (Client.staticHeaderName W input).



(** X9.  In signing mode a chargeable request is not sent unless a header
    was signed for it: without a [signatureFn] the call throws at once, and
    on a session that holds no factory yet, when the signing function does
    not return, the call fails and the transport has been asked at most for
    the router's configuration. *)
Theorem nothing_is_sent_unsigned (c : Closure.t) (requestInfo : RequestInfo)
  (requestInit : option RequestInit.t) (s : Session.t W) (parsed : URL.t) :
  Client.parseUrl newURL c (Client.rawUrlOf requestInfo) = Ok parsed ->
  Client.passesThrough c parsed = false ->
  staticHeaderValue = None ->
  let after := wrappedFetch c requestInfo requestInit s in
  (Input.signatureFn input = None -> after = (Throw, s)) /\
  (forall sign,
     Input.signatureFn input = Some sign ->
     Session.headerFactoryPromise s = None ->
     (forall i w, is_Ok (fst (sign i w)) = false) ->
     is_Ok (fst after) = false /\
     (Session.fetched (snd after) = Session.fetched s \/
      Session.fetched (snd after) =
      (Session.fetched s ++ [Client.configCall c])%list)).
Proof.
  intros Hp Hpass Hstatic after. subst after.
  rewrite (wrappedFetch_charges W Date_now baseFetch newURL input _ _ _ _ _ Hp Hpass).
  rewrite Hstatic. split.
  - intros Hnone. unfold Client.bind at 1, Client.getFactory. now rewrite Hnone.
  - intros sign Hsign Hfresh Hfails.
    assert (H : exists o s',
              bind (getFactory c)
                (fun _ =>
                   bind (sendWithPermit requestInfo requestInit None None)
                     (afterInitial requestInfo requestInit)) s = (o, s') /\
              is_Ok o = false /\
              (Session.fetched s' = Session.fetched s \/
               Session.fetched s' = (Session.fetched s ++ [Client.configCall c])%list)).
    { unfold Client.bind at 1.
      destruct (getFactory c s) as [o s1] eqn:E1.
      pose proof (getFactory_inv W baseFetch input c s o s1 E1)
        as (Hlog & _ & _ & Hfac).
      destruct o as [[]| |]; [|eexists; eexists; now repeat split..].
      destruct (Hfac eq_refl) as (sign' & f & Hsign' & Hf & Horigin).
      rewrite Hsign in Hsign'. injection Hsign' as <-.
      destruct Horigin as [H|[_ [config ->]]]; [congruence|].
      unfold Client.bind at 1, Client.sendWithPermit, Client.bind at 1,
        Client.lift at 1.
      destruct (Headers.create (headersOf requestInit)) as [h0| |];
        [|eexists; eexists; now repeat split..].
      rewrite Hstatic. unfold Client.bind at 1, Client.onFactory.
      rewrite Hsign, Hf.
      unfold HeaderFactory.getHeader, HeaderFactory.createPaymentHeaderFactory.
      cbn [Factory.cached]. unfold HeaderFactory.refresh.
      pose proof (Hfails (HeaderFactory.signatureInputOf (Some (Options.mk None None))
                            (Factory.mk (Input.permitCap input) config None))
                    (Run.world (Session.run s1))) as Hno.
      destruct (sign _ _) as [[sg| |] w']; [discriminate Hno|..];
        (eexists; eexists; now repeat split). }
    destruct H as (o & s' & -> & Ho & Hlog). now split.
Qed.
(** X10.  The router's configuration is settled once per interceptor: a
    configuration that is held, given or fetched, is answered without a
    transport call; otherwise [routerBase/v1/config] is fetched once, with
    no options and nothing signed, and what is held from then on is the
    parsed answer, or, when the transport throws, the status is not 2xx, or
    the body does not parse, the default configuration for [input.network]
    or [eip155:8453].  So a failed fetch is not tried again. *)
Theorem router_config_is_settled_once (c : Closure.t) (s : Session.t W) :
  let after := getConfig c s in
  let fallback := getDefaultConfig (orElse (Input.network input) "eip155:8453") in
  (forall config, Session.configPromise s = Some config -> after = (Ok config, s)) /\
  (Session.configPromise s = None ->
   let answer :=
     baseFetch (InfoString (Closure.routerBase c ++ "/v1/config")) None
       (Run.world (Session.run s)) in
   Session.fetched (snd after) =
   (Session.fetched s ++ [(InfoString (Closure.routerBase c ++ "/v1/config"), None)])%list /\
   Run.signed (Session.run (snd after)) = Run.signed (Session.run s) /\
   Run.world (Session.run (snd after)) = snd answer /\
   (fst answer = Throw -> fst after = Ok fallback) /\
   (forall response,
      fst answer = Ok response ->
      fst after =
      if Response.ok response
      then match bindO (Response.json response) parseRouterConfigResponse with
           | Ok config => Ok config
           | Throw => Ok fallback
           | Beyond => Beyond
           end
      else Ok fallback) /\
   (forall config,
      fst after = Ok config ->
      getConfig c (snd after) = (Ok config, snd after))).
Proof.
  intros after fallback. split.
  - intros config Hc. subst after. unfold Client.getConfig. now rewrite Hc.
  - intros Hnone answer.
    set (settled :=
           match fst answer with
           | Ok response =>
               if Response.ok response
               then match bindO (Response.json response) parseRouterConfigResponse with
                    | Ok config => Ok config
                    | Throw => Ok fallback
                    | Beyond => Beyond
                    end
               else Ok fallback
           | Throw => Ok fallback
           | Beyond => Beyond
           end).
    assert (Hrun : after =
              (settled,
               Session.mk (Run.mk (snd answer) (Run.signed (Session.run s)))
                 (Session.fetched s ++
                  [(InfoString (Closure.routerBase c ++ "/v1/config"), None)])%list
                 (match settled with Ok config => Some config | _ => None end)
                 (Session.headerFactoryPromise s))).
    { subst after settled. unfold Client.getConfig. rewrite Hnone.
      unfold Client.fetchRouterConfig, Client.bind at 1.
      rewrite callFetch_eq. fold answer. rewrite Hnone.
      destruct (fst answer) as [response| |]; try reflexivity.
      destruct (Response.ok response); cbn [negb]; [|reflexivity].
      unfold Client.bind, Client.lift.
      destruct (Response.json response) as [data| |]; cbn [bindO]; try reflexivity.
      now destruct (parseRouterConfigResponse data). }
    rewrite Hrun. cbn [fst snd Session.fetched Session.run Run.signed Run.world].
    split; [reflexivity|]. split; [reflexivity|]. split; [reflexivity|].
    split; [|split].
    + intros Ha. subst settled. now rewrite Ha.
    + intros response Ha. subst settled. now rewrite Ha.
    + intros config Hs. unfold Client.getConfig. cbn [Session.configPromise].
      now rewrite Hs.
Qed.

End ClientModes.

(** ** What the router says *)

Lemma bindO_Ok {A B : Type} (o : outcome A) (k : A -> outcome B) (b : B) :
  bindO o k = Ok b -> exists a, o = Ok a /\ k a = Ok b.
Proof. destruct o as [a| |]; try discriminate. intros H. now exists a. Qed.

Lemma orElse_truthy (a : option string) (b : string) :
  Str.truthy b = true -> Str.truthy (orElse a b) = true.
Proof.
  intros Hb. destruct a as [s|]; [|exact Hb]. simpl.
  now destruct (Str.truthy s) eqn:E.
Qed.

(** X11.  A configuration parsed from the router's answer has the payee for
    its [facilitatorSigner], and a network, an asset, a token name, a token
    version and a header name that are not empty, the defaults standing in
    for what the answer leaves out; the payee itself may be empty.  An
    answer that is an empty object parses to the default configuration of
    [eip155:8453]. *)
Theorem parsed_router_config_is_complete (data : JSValue) (config : RouterConfig.t) :
  parseRouterConfigResponse data = Ok config ->
  RouterConfig.facilitatorSigner config = RouterConfig.payTo config /\
  RouterConfig.network config <> EmptyString /\
  RouterConfig.asset config <> EmptyString /\
  RouterConfig.tokenName config <> EmptyString /\
  RouterConfig.tokenVersion config <> EmptyString /\
  (exists name, RouterConfig.paymentHeader config = Some name /\ name <> EmptyString) /\
  HeaderFactory.headerNameOf config <> EmptyString /\
  parseRouterConfigResponse (JObj []) = Ok (getDefaultConfig "eip155:8453").
Proof.
  intros H.
  assert (Hc : exists pay_to network_id address domain_name domain_version payment_header,
            config =
            RouterConfig.mk (orElse network_id "eip155:8453")
              (orElse address DEFAULT_USDC_BASE)
              (orElse pay_to EmptyString) (orElse pay_to EmptyString)
              (orElse domain_name "USD Coin") (orElse domain_version "2")
              (Some (orElse payment_header "PAYMENT-SIGNATURE"))).
  { unfold parseRouterConfigResponse in H.
    assert (Hchain : forall o1 o2 o3 o4 o5 o6,
              bindO o1 (fun pay_to =>
              bindO o2 (fun network_id =>
              bindO o3 (fun address =>
              bindO o4 (fun domain_name =>
              bindO o5 (fun domain_version =>
              bindO o6 (fun payment_header =>
              Ok (RouterConfig.mk (orElse network_id "eip155:8453")
                    (orElse address DEFAULT_USDC_BASE)
                    (orElse pay_to EmptyString) (orElse pay_to EmptyString)
                    (orElse domain_name "USD Coin") (orElse domain_version "2")
                    (Some (orElse payment_header "PAYMENT-SIGNATURE"))))))))) =
              Ok config ->
              exists pay_to network_id address domain_name domain_version payment_header,
                config =
                RouterConfig.mk (orElse network_id "eip155:8453")
                  (orElse address DEFAULT_USDC_BASE)
                  (orElse pay_to EmptyString) (orElse pay_to EmptyString)
                  (orElse domain_name "USD Coin") (orElse domain_version "2")
                  (Some (orElse payment_header "PAYMENT-SIGNATURE"))).
    { intros o1 o2 o3 o4 o5 o6 Hb.
      apply bindO_Ok in Hb. destruct Hb as (a1 & _ & Hb).
      apply bindO_Ok in Hb. destruct Hb as (a2 & _ & Hb).
      apply bindO_Ok in Hb. destruct Hb as (a3 & _ & Hb).
      apply bindO_Ok in Hb. destruct Hb as (a4 & _ & Hb).
      apply bindO_Ok in Hb. destruct Hb as (a5 & _ & Hb).
      apply bindO_Ok in Hb. destruct Hb as (a6 & _ & Hb).
      injection Hb as <-. now exists a1, a2, a3, a4, a5, a6. }
    destruct data; try discriminate; exact (Hchain _ _ _ _ _ _ H). }
  destruct Hc as (pay_to & network_id & address & domain_name & domain_version &
                  payment_header & ->).
  cbn [RouterConfig.facilitatorSigner RouterConfig.payTo RouterConfig.network
       RouterConfig.asset RouterConfig.tokenName RouterConfig.tokenVersion
       RouterConfig.paymentHeader].
  split; [reflexivity|].
  split; [now apply truthy_true, orElse_truthy|].
  split; [now apply truthy_true, orElse_truthy|].
  split; [now apply truthy_true, orElse_truthy|].
  split; [now apply truthy_true, orElse_truthy|].
  split; [eexists; split; [reflexivity|now apply truthy_true, orElse_truthy]|].
  split; [|reflexivity].
  unfold HeaderFactory.headerNameOf. cbn [RouterConfig.paymentHeader].
  now apply truthy_true, orElse_truthy.
Qed.

(** The answer of a router that names Base Sepolia and a payee. *)
Definition routerAnswer : JSValue :=
  JObj [("networks",
         JArr [JObj [("network_id", JStr "eip155:84532");
                     ("asset", JObj [("address", JStr "0xasset")]);
                     ("pay_to", JStr "0xpayee")]]);
        ("payment_header", JStr "X-PAYMENT");
        ("eip712_config", JObj [("domain_name", JStr "USDC")])].

Lemma parsed_router_config_is_complete_witness :
  parseRouterConfigResponse routerAnswer =
  Ok (RouterConfig.mk "eip155:84532" "0xasset" "0xpayee" "0xpayee" "USDC" "2"
        (Some "X-PAYMENT")) /\
  RouterConfig.facilitatorSigner
    (RouterConfig.mk "eip155:84532" "0xasset" "0xpayee" "0xpayee" "USDC" "2"
       (Some "X-PAYMENT")) = "0xpayee".
Proof.
  assert (H : parseRouterConfigResponse routerAnswer =
              Ok (RouterConfig.mk "eip155:84532" "0xasset" "0xpayee" "0xpayee" "USDC"
                    "2" (Some "X-PAYMENT"))) by reflexivity.
  split; [exact H|].
  exact (proj1 (parsed_router_config_is_complete _ _ H)).
Defined.

(** ** Error bodies *)

Lemma startsWith_append (s r p : string) :
  Str.startsWith s p = true -> Str.startsWith (s ++ r) p = true.
Proof.
  revert s. induction p as [|a p IH]; intros s; [reflexivity|].
  destruct s as [|b s]; [discriminate|]. cbn [Str.startsWith append].
  intros H. apply andb_true_iff in H. destruct H as [-> H]. now rewrite IH.
Qed.

Lemma includes_append (s r p : string) :
  Str.includes s p = true -> Str.includes (s ++ r) p = true.
Proof.
  induction s as [|b s IH]; cbn [Str.includes append]; intros H.
  - rewrite orb_false_r in H. destruct p; [|discriminate].
    now destruct r.
  - apply orb_true_iff in H. destruct H as [H|H].
    + change (String b (s ++ r)) with (String b s ++ r).
      now rewrite (startsWith_append _ r _ H).
    + rewrite (IH H). apply orb_true_r.
Qed.

Lemma toLowerCase_append (a b : string) :
  Str.toLowerCase (a ++ b) = Str.toLowerCase a ++ Str.toLowerCase b.
Proof. induction a as [|c a IH]; [reflexivity|]. simpl. now rewrite IH. Qed.

(** Lines 311 and 322 together: the body of a 401 or 402 asks for a fresh
    permit. *)
Definition invalidatingBody (data : JSValue) : bool :=
  match parseErrorResponse data with
  | Some error => shouldInvalidatePermit error
  | None => false
  end.

Definition retryCodes : list string :=
  ["cap_exhausted"; "session_closed"; "settlement_blocked"].

Definition retryPhrases : list string :=
  ["cap exhausted"; "session closed"; "settlement blocked";
   "blocked after previous settlement"].

Lemma code_invalidates (e : ErrorResponse.t) (c : string) :
  ErrorResponse.code e = Some c -> In c retryCodes -> shouldInvalidatePermit e = true.
Proof.
  intros Hc Hin.
  unfold shouldInvalidatePermit, isCapExhausted, isSessionClosed,
    isSettlementBlocked, codeIs. rewrite Hc.
  destruct Hin as [<-|[<-|[<-|[]]]]; cbn [String.eqb Ascii.eqb Bool.eqb];
    rewrite ?orb_true_r; reflexivity.
Qed.

Lemma phrase_invalidates (e : ErrorResponse.t) (t phrase : string) :
  ErrorResponse.error e = Some t ->
  In phrase retryPhrases ->
  Str.includes (Str.toLowerCase t) phrase = true ->
  shouldInvalidatePermit e = true.
Proof.
  intros He Hin Hi.
  assert (H : Str.includes
                (normalizeErrorText (ErrorResponse.error e) (ErrorResponse.message e))
                phrase = true).
  { unfold normalizeErrorText. rewrite He. cbn [nullish].
    rewrite toLowerCase_append. now apply includes_append. }
  unfold shouldInvalidatePermit, isCapExhausted, isSessionClosed, isSettlementBlocked.
  destruct Hin as [<-|[<-|[<-|[<-|[]]]]]; rewrite H;
    repeat match goal with |- context [if ?b then _ else _] => destruct b end;
    rewrite ?orb_true_r; reflexivity.
Qed.

(** X12.  Which bodies of a 401 or 402 ask for a fresh permit.  A body
    that is not an object does not.  An object whose [code] is one of the
    three codes does, whatever else it holds; so does one whose [error] is
    a text that names one of the four phrases in any letter case; and so
    does one without a text for [code] or [error] whose [error] is an
    object with one of the three codes as its [code], or as its [type] when
    it has no text for [code].  An object with neither a text for [code] or
    [error] nor an object for [error] does not, whatever its [message]
    says. *)
Theorem bodies_that_invalidate (data : JSValue) :
  (JSON.isObject data = false -> invalidatingBody data = false) /\
  (forall c,
     JSON.stringProp data "code" = Some c -> In c retryCodes ->
     invalidatingBody data = true) /\
  (forall t phrase,
     JSON.stringProp data "error" = Some t -> In phrase retryPhrases ->
     Str.includes (Str.toLowerCase t) phrase = true ->
     invalidatingBody data = true) /\
  (forall nested c,
     JSON.stringProp data "code" = None ->
     JSON.stringProp data "error" = None ->
     JSON.prop data "error" = Some nested ->
     JSON.stringProp nested "code" = Some c \/
     JSON.stringProp nested "code" = None /\ JSON.stringProp nested "type" = Some c ->
     In c retryCodes ->
     invalidatingBody data = true) /\
  (JSON.stringProp data "code" = None ->
   JSON.stringProp data "error" = None ->
   (forall nested,
      JSON.prop data "error" = Some nested ->
      JSON.truthy nested && JSON.isObject nested = false) ->
   parseErrorResponse data = None /\ invalidatingBody data = false).
Proof.
  assert (Hobj : forall k v, JSON.prop data k = Some v ->
            negb (JSON.truthy data) || negb (JSON.isObject data) = false).
  { intros k v. destruct data; try discriminate. reflexivity. }
  assert (Hstr : forall k t, JSON.stringProp data k = Some t ->
            negb (JSON.truthy data) || negb (JSON.isObject data) = false).
  { intros k t. unfold JSON.stringProp.
    destruct (JSON.prop data k) as [v|] eqn:E; [|discriminate].
    intros _. exact (Hobj k v E). }
  split; [|split; [|split; [|split]]].
  - intros H. unfold invalidatingBody, parseErrorResponse. rewrite H.
    now rewrite orb_true_r.
  - intros c Hc Hin. unfold invalidatingBody, parseErrorResponse.
    rewrite (Hstr _ _ Hc), Hc. now apply (code_invalidates _ c).
  - intros t phrase He Hin Hi. unfold invalidatingBody, parseErrorResponse.
    rewrite (Hstr _ _ He), He.
    destruct (JSON.stringProp data "code");
      now apply (phrase_invalidates _ t phrase).
  - intros nested c Hc He Hn Hcode Hin.
    unfold invalidatingBody, parseErrorResponse.
    rewrite (Hobj _ _ Hn), Hc, He, Hn.
    assert (Hnested : JSON.truthy nested && JSON.isObject nested = true).
    { destruct Hcode as [H|[_ H]]; unfold JSON.stringProp in H;
        destruct nested; try discriminate; reflexivity. }
    rewrite Hnested. apply (code_invalidates _ c); [|exact Hin].
    cbn [ErrorResponse.code].
    destruct Hcode as [-> |[-> ->]]; reflexivity.
  - intros Hc He Hn. unfold invalidatingBody, parseErrorResponse.
    destruct (negb (JSON.truthy data) || negb (JSON.isObject data)); [now split|].
    rewrite Hc, He. destruct (JSON.prop data "error") as [nested|]; [|now split].
    now rewrite (Hn nested eq_refl).
Qed.

(** ** The challenge header *)

Lemma encodePaymentRequired_truthy (payload : JSValue) :
  Str.truthy (encodePaymentRequired payload) = true.
Proof.
  unfold encodePaymentRequired.
  pose proof (stringify_opens payload EmptyString) as Ho.
  rewrite append_nil_r in Ho.
  destruct (JSON.stringify payload) as [|c t]; [contradiction|].
  cbn [Utf8.encode]. unfold Utf8.encodeChar.
  destruct (N_of_ascii c <? 128)%N; cbn [app];
    [destruct (Utf8.encode t) as [|y [|z b]]|destruct (Utf8.encode t) as [|z b]];
    reflexivity.
Qed.

(** X13.  The challenge header is read back as it was written: decoding the
    base64 of the JSON text of a value gives that value when it is an object
    or an array, and [null] otherwise; and the requirement the interceptor
    takes from a response that carries this header is the first element of
    the value's [accepts], when there is one and it is truthy. *)
Theorem payment_required_roundtrip (payload : JSValue) :
  decodePaymentRequiredHeader (encodePaymentRequired payload) =
  Ok (if JSON.truthy payload && JSON.isObject payload then Some payload else None) /\
  (forall response,
     Headers.get "PAYMENT-REQUIRED" (Response.headers response) =
     Some (encodePaymentRequired payload) ->
     Client.requirementOf response =
     match JSON.first (JSON.prop payload "accepts") with
     | Some q =>
         if JSON.truthy q then bindO (readRequirement q) (fun r => Ok (Some r))
         else Ok None
     | None => Ok None
     end).
Proof.
  assert (H : decodePaymentRequiredHeader (encodePaymentRequired payload) =
              Ok (if JSON.truthy payload && JSON.isObject payload
                  then Some payload else None)).
  { unfold decodePaymentRequiredHeader, encodePaymentRequired.
    rewrite base64_roundtrip. cbn [bindO]. rewrite utf8_roundtrip. cbn [bindO].
    rewrite parse_stringify. cbn [bindO catchO].
    now destruct (JSON.truthy payload), (JSON.isObject payload). }
  split; [exact H|].
  intros response Hget. unfold Client.requirementOf.
  rewrite Hget, encodePaymentRequired_truthy, H. cbn [bindO].
  destruct payload as [ |b|n|s|items|props]; try reflexivity.
  - now destruct b.
  - cbn [JSON.truthy JSON.isObject andb]. now destruct (negb (n =? 0)).
  - cbn [JSON.truthy JSON.isObject andb]. now destruct (Str.truthy s).
Qed.

(** ** One interceptor, several requests *)


Section ClientSessions.

Variable W : Type.
Variable Date_now : W -> Z.
Variable baseFetch : RequestInfo -> option RequestInit.t -> W -> outcome Response.t * W.
Variable newURL : string -> option string -> option URL.t.
Variable input : Input.t W.

#[local] Abbreviation bind := (Client.bind W).
#[local] Abbreviation ret := (Client.ret W).
#[local] Abbreviation getFactory := (Client.getFactory W baseFetch input).
#[local] Abbreviation sendWithPermit := (Client.sendWithPermit W Date_now baseFetch input).
#[local] Abbreviation afterInitial := (Client.afterInitial W Date_now baseFetch input).
#[local] Abbreviation wrappedFetch := (Client.wrappedFetch W Date_now baseFetch newURL input).
#[local] Abbreviation staticHeaderValue := (Client.staticHeaderValue W input).



End ClientSessions.

(** ** The router's base address *)

Fixpoint slashes (k : nat) : string :=
  match k with
  | O => EmptyString
  | S k' => String "/" (slashes k')
  end.

Lemma slashes_end (k : nat) : String "/" (slashes k) = slashes k ++ "/".
Proof. induction k as [|k IH]; [reflexivity|]. simpl. now rewrite <- IH. Qed.

Lemma endsWith_cons (c d p : ascii) (t : string) :
  Str.endsWith (String c (String d t)) (String p EmptyString) =
  Str.endsWith (String d t) (String p EmptyString).
Proof.
  unfold Str.endsWith. cbn [String.length Nat.leb Nat.sub].
  now rewrite Nat.sub_0_r.
Qed.

Lemma stripSlashes_end (s : string) : Str.endsWith (stripSlashes s) "/" = false.
Proof.
  induction s as [|c s IH]; [reflexivity|]. cbn [stripSlashes].
  destruct (stripSlashes s) as [|d t] eqn:E.
  - destruct (Ascii.eqb c "/") eqn:Ec; [reflexivity|].
    unfold Str.endsWith. cbn. now rewrite Ec.
  - now rewrite endsWith_cons.
Qed.

Lemma stripSlashes_slashes (s : string) :
  exists k, s = stripSlashes s ++ slashes k.
Proof.
  induction s as [|c s [k IH]]; [now exists O|]. cbn [stripSlashes].
  destruct (stripSlashes s) as [|d t] eqn:E.
  - destruct (Ascii.eqb c "/") eqn:Ec.
    + apply Ascii.eqb_eq in Ec. subst c. exists (S k). cbn [append] in *.
      now rewrite IH at 1.
    + exists k. cbn [append] in *. now rewrite IH at 1.
  - exists k. cbn [append] in *. now rewrite IH at 1.
Qed.

Lemma stripSlashes_fixed (s : string) :
  Str.endsWith s "/" = false -> stripSlashes s = s.
Proof.
  induction s as [|c s IH]; [reflexivity|]. cbn [stripSlashes].
  destruct s as [|d t].
  - destruct (Ascii.eqb c "/") eqn:Ec; [|reflexivity].
    apply Ascii.eqb_eq in Ec. subst c. discriminate.
  - rewrite endsWith_cons. intros H. rewrite (IH H). reflexivity.
Qed.

(** X15.  [createX402Fetch] throws exactly when the router's URL does not
    parse.  Otherwise its base address is the URL without the slashes at
    its end, and only without them: it does not end with a slash, stripping
    it again changes nothing, and a URL that does not end with a slash is
    its own base; the interceptor starts with no factory, no call made, and
    the configuration it was given. *)
Theorem createX402Fetch_base (W : Type)
  (newURL : string -> option string -> option URL.t) (input : Input.t W)
  (r : Run.t W) :
  let routerBase := stripSlashes (Input.routerUrl input) in
  (exists k, Input.routerUrl input = routerBase ++ slashes k) /\
  Str.endsWith routerBase "/" = false /\
  stripSlashes routerBase = routerBase /\
  (Str.endsWith (Input.routerUrl input) "/" = false ->
   routerBase = Input.routerUrl input) /\
  (newURL (Input.routerUrl input) None = None ->
   Client.createX402Fetch W newURL input r = Throw) /\
  (forall u,
     newURL (Input.routerUrl input) None = Some u ->
     Client.createX402Fetch W newURL input r =
     Ok (Closure.mk (URL.origin u) routerBase,
         Session.mk r [] (Input.initialConfig input) None)).
Proof.
  intros routerBase. split; [apply stripSlashes_slashes|].
  split; [apply stripSlashes_end|].
  split; [apply stripSlashes_fixed, stripSlashes_end|].
  split; [apply stripSlashes_fixed|].
  unfold Client.createX402Fetch. split; [now intros ->|now intros u ->].
Qed.

(** ** The request that is sent *)

Lemma joined_without_other (k name : string) (h : Headers.t) :
  k <> name -> Headers.joined k (Headers.without name h) = Headers.joined k h.
Proof.
  intros Hk. induction h as [|e h IH]; [reflexivity|].
  cbn [Headers.without filter Headers.joined].
  destruct (String.eqb (fst e) name) eqn:En; cbn [negb Headers.joined].
  - apply String.eqb_eq in En.
    assert (Hne : String.eqb (fst e) k = false).
    { apply String.eqb_neq. congruence. }
    rewrite Hne. exact IH.
  - fold (Headers.without name h). now rewrite IH.
Qed.

Lemma joined_replace_other (k name value : string) (h : Headers.t) :
  k <> name -> Headers.joined k (Headers.replace name value h) = Headers.joined k h.
Proof.
  intros Hk. induction h as [|e h IH]; [reflexivity|].
  cbn [Headers.replace].
  destruct (String.eqb (fst e) name) eqn:En.
  - apply String.eqb_eq in En. cbn [Headers.joined fst].
    assert (Hne : String.eqb name k = false) by (apply String.eqb_neq; congruence).
    rewrite En, Hne. now apply joined_without_other.
  - cbn [Headers.joined]. now rewrite IH.
Qed.

Lemma joined_append_other (k name value : string) (h : Headers.t) :
  k <> name -> Headers.joined k (h ++ [(name, value)])%list = Headers.joined k h.
Proof.
  intros Hk. induction h as [|e h IH]; cbn [app Headers.joined fst].
  - assert (Hne : String.eqb name k = false) by (apply String.eqb_neq; congruence).
    now rewrite Hne.
  - now rewrite IH.
Qed.

(** Setting a header leaves the others as they were. *)
Lemma get_set_other (k name value : string) (h0 hs : Headers.t) :
  Headers.set name value h0 = Ok hs ->
  Headers.lowerName k <> Headers.lowerName name ->
  Headers.get k hs = Headers.get k h0.
Proof.
  unfold Headers.set, Headers.get. destruct (_ && _); [|discriminate].
  intros H Hk. destruct (Headers.hasName _ h0); injection H as <-.
  - now apply joined_replace_other.
  - now apply joined_append_other.
Qed.

Section SentRequest.

Variable W : Type.
Variable Date_now : W -> Z.
Variable baseFetch : RequestInfo -> option RequestInit.t -> W -> outcome Response.t * W.
Variable input : Input.t W.

#[local] Abbreviation sendWithPermit := (Client.sendWithPermit W Date_now baseFetch input).

(** X16.  What an attempt sends is the caller's request with the payment
    header and nothing else changed: the same address, method and body, and
    a copy of the caller's headers in which the payment header of the
    attempt (the static pair, or the name and the value that [getHeader]
    returns for the attempt's cap and bound on the session's factory) has
    the payment value alone, replacing whatever the caller had put under that
    name in any letter case, and every other header reads as it did. *)
Theorem attempt_forwards_the_request (requestInfo : RequestInfo)
  (requestInit : option RequestInit.t) (capOverride : option string)
  (minDeadlineExclusive : option Num.t) (s s' : Session.t W) (res : outcome Sent.t)
  (e : RequestInfo * option RequestInit.t) :
  sendWithPermit requestInfo requestInit capOverride minDeadlineExclusive s = (res, s') ->
  Session.fetched s' = (Session.fetched s ++ [e])%list ->
  exists h0 hs name value,
    Client.isPaymentHeader W Date_now input capOverride minDeadlineExclusive s
      name value /\
    Headers.create (headersOf requestInit) = Ok h0 /\
    e = (requestInfo,
         Some (RequestInit.mk
                 (match requestInit with Some i => RequestInit.method i | None => None end)
                 (match requestInit with Some i => RequestInit.body i | None => None end)
                 (Some hs))) /\
    Headers.get name hs = Some (Headers.normalize value) /\
    (forall k,
       Headers.lowerName k <> Headers.lowerName name ->
       Headers.get k hs = Headers.get k h0).
Proof.
  intros Hsend Hlog.
  destruct (sendWithPermit_trace W Date_now baseFetch input _ _ _ _ _ _ _ Hsend)
    as [[Hsame _]|(e' & Hlog' & name & value & Hpay & h0 & hs & Hc & Hset & ->)].
  - rewrite Hsame in Hlog. symmetry in Hlog. now apply app_one_neq in Hlog.
  - rewrite Hlog' in Hlog. apply List.app_inj_tail in Hlog. destruct Hlog as [_ <-].
    exists h0, hs, name, value. split; [exact Hpay|]. split; [exact Hc|].
    split; [now destruct requestInit|].
    split; [exact (get_set _ _ _ _ Hset)|].
    intros k Hk. exact (get_set_other _ _ _ _ _ Hset Hk).
Qed.

End SentRequest.

(** ** The terms of the retry *)


Section RetryTerms.

Variable W : Type.
Variable Date_now : W -> Z.
Variable baseFetch : RequestInfo -> option RequestInit.t -> W -> outcome Response.t * W.
Variable input : Input.t W.

#[local] Abbreviation afterInitial := (Client.afterInitial W Date_now baseFetch input).
#[local] Abbreviation staticHeaderValue := (Client.staticHeaderValue W input).


End RetryTerms.

(** ** The settings *)

(** A variable that is not set, or set to the empty text. *)
Definition unset (v : option string) : Prop := v = None \/ v = Some EmptyString.

Lemma orElse_unset (a : option string) (b : string) : unset a -> orElse a b = b.
Proof. intros [-> | ->]; reflexivity. Qed.

Lemma orElse_set (a : option string) (b v : string) :
  a = Some v -> v <> EmptyString -> orElse a b = v.
Proof.
  intros -> Hv. simpl. apply truthy_true in Hv. now rewrite Hv.
Qed.

Lemma toLowerCase_truthy (s : string) :
  Str.truthy s = true -> Str.truthy (Str.toLowerCase s) = true.
Proof. now destruct s. Qed.

(** X18.  How the x402 settings are resolved: the process environment
    wins, then the environment file, then the default, and a variable set
    to the empty text counts as not set; so no setting is ever empty.  The
    router's address defaults to the OpenAI base address as resolved, not
    to a constant.  The provider is in lower case, and x402 is in use only
    when the variable that wins reads [true], in these letters. *)
Theorem x402_settings_resolve (env : Config.Env) :
  (forall key fallback v,
     Config.process_env env key = Some v -> v <> EmptyString ->
     Config.setting env key fallback = v) /\
  (forall key fallback v,
     unset (Config.process_env env key) ->
     Config.envConfig env key = Some v -> v <> EmptyString ->
     Config.setting env key fallback = v) /\
  (forall key fallback,
     unset (Config.process_env env key) -> unset (Config.envConfig env key) ->
     Config.setting env key fallback = fallback) /\
  (unset (Config.process_env env "X402_ROUTER_URL") ->
   unset (Config.envConfig env "X402_ROUTER_URL") ->
   Config.X402_ROUTER_URL env = Config.OPENAI_BASE_URL env) /\
  Config.X402_ROUTER_URL env <> EmptyString /\
  Config.X402_NETWORK env <> EmptyString /\
  Config.X402_PERMIT_CAP env <> EmptyString /\
  Config.X402_SIGNER_MODE env <> EmptyString /\
  Config.X402_PAYMENT_HEADER env <> EmptyString /\
  Config.AGENT_PROVIDER env <> EmptyString /\
  Config.AGENT_PROVIDER env = Str.toLowerCase (Config.AGENT_PROVIDER env) /\
  (Config.OPENAI_USE_X402 env = true <->
   Config.process_env env "OPENAI_USE_X402" = Some "true" \/
   unset (Config.process_env env "OPENAI_USE_X402") /\
   Config.envConfig env "OPENAI_USE_X402" = Some "true").
Proof.
  assert (Hne : forall key fallback,
            Str.truthy fallback = true ->
            Str.truthy (Config.setting env key fallback) = true).
  { intros key fallback Hf. unfold Config.setting. now apply orElse_truthy, orElse_truthy. }
  split; [|split; [|split; [|split]]].
  - intros key fallback v Hp Hv. unfold Config.setting. now apply orElse_set.
  - intros key fallback v Hp He Hv. unfold Config.setting.
    rewrite (orElse_unset _ _ Hp). now apply orElse_set.
  - intros key fallback Hp He. unfold Config.setting.
    now rewrite (orElse_unset _ _ Hp), (orElse_unset _ _ He).
  - intros Hp He. unfold Config.X402_ROUTER_URL, Config.setting.
    now rewrite (orElse_unset _ _ Hp), (orElse_unset _ _ He).
  - repeat split; try (apply truthy_true, Hne; reflexivity).
    + apply truthy_true, Hne, Hne. reflexivity.
    + apply truthy_true, toLowerCase_truthy, Hne. reflexivity.
    + unfold Config.AGENT_PROVIDER.
      generalize (Config.setting env "AGENT_PROVIDER" "claude"). intros s.
      induction s as [|c s IH]; [reflexivity|]. cbn [Str.toLowerCase].
      rewrite <- IH. f_equal.
      destruct c as [[] [] [] [] [] [] [] []]; reflexivity.
    + unfold Config.OPENAI_USE_X402, Config.flag, orOpt.
      destruct (Config.process_env env "OPENAI_USE_X402") as [v|].
      * destruct (Str.truthy v) eqn:Ev.
        -- intros H. apply String.eqb_eq in H. left. now rewrite H.
        -- apply truthy_false in Ev. subst v.
           destruct (Config.envConfig env "OPENAI_USE_X402") as [u|];
             [|discriminate].
           intros H. apply String.eqb_eq in H. right. split; [now right|].
           now rewrite H.
      * destruct (Config.envConfig env "OPENAI_USE_X402") as [u|]; [|discriminate].
        intros H. apply String.eqb_eq in H. right. split; [now left|].
        now rewrite H.
    + unfold Config.OPENAI_USE_X402, Config.flag, orOpt.
      intros [-> |[[-> | ->] ->]]; reflexivity.
Qed.

(** X19.  [MAX_CONCURRENT_CONTAINERS] is at least 1 whatever the
    environment holds: it is 5 when the variable is not set, is empty, does
    not start with a whole number, or reads as 0; it is 1 when the variable
    reads as a negative number; and it is the number read otherwise.  The
    timeouts have no such guard: a variable that is set and does not start
    with a whole number makes [CONTAINER_TIMEOUT] NaN.  What is read is a
    double: the text of an integer of at most 2^53 in magnitude gives that
    integer, and 9007199254740993 gives 9007199254740992. *)
Theorem container_limits (env : Config.Env) :
  let v := Config.process_env env "MAX_CONCURRENT_CONTAINERS" in
  let timeout (text : string) :=
    Config.CONTAINER_TIMEOUT
      (Config.mkEnv
         (fun k => if String.eqb k "CONTAINER_TIMEOUT" then Some text
                   else Config.process_env env k)
         (Config.envConfig env)) in
  (forall n, Config.MAX_CONCURRENT_CONTAINERS env = Ok n -> 1 <= n) /\
  (unset v -> Config.MAX_CONCURRENT_CONTAINERS env = Ok 5) /\
  (forall s,
     v = Some s -> s <> EmptyString ->
     Config.MAX_CONCURRENT_CONTAINERS env =
     match Num.parseInt s with
     | Ok (Num.Int n) => Ok (if n =? 0 then 5 else if n <? 0 then 1 else n)
     | Ok Num.NaN => Ok 5
     | Throw => Throw
     | Beyond => Beyond
     end) /\
  (forall s,
     v = Some s -> Num.readInt s = None ->
     Config.MAX_CONCURRENT_CONTAINERS env = Ok 5) /\
  (unset (Config.process_env env "CONTAINER_TIMEOUT") ->
   Config.CONTAINER_TIMEOUT env = Ok (Num.Int 1800000)) /\
  (forall s,
     Config.process_env env "CONTAINER_TIMEOUT" = Some s -> s <> EmptyString ->
     Config.CONTAINER_TIMEOUT env = Num.parseInt s) /\
  (forall s,
     s <> EmptyString -> Num.readInt s = None -> timeout s = Ok Num.NaN) /\
  (forall n, Z.abs n <= 2 ^ 53 -> timeout (Num.toString n) = Ok (Num.Int n)) /\
  timeout "9007199254740993" = Ok (Num.Int 9007199254740992).
Proof.
  intros v timeout. subst timeout.
  unfold Config.MAX_CONCURRENT_CONTAINERS, Config.CONTAINER_TIMEOUT,
    Config.number. fold v.
  split; [|split; [|split; [|split; [|split; [|split; [|split; [|split]]]]]]].
  - intros n. destruct (Num.parseInt _) as [[|m]| |]; cbn [bindO]; try discriminate;
      intros [= <-]; lia.
  - intros Hv. now rewrite (orElse_unset _ _ Hv).
  - intros s Hs Hne. rewrite (orElse_set _ _ _ Hs Hne).
    destruct (Num.parseInt s) as [[|n]| |]; try reflexivity. cbn [bindO]. f_equal.
    destruct (n =? 0) eqn:E0; [reflexivity|].
    destruct (n <? 0) eqn:E1; [apply Z.ltb_lt in E1|apply Z.ltb_ge in E1];
      apply Z.eqb_neq in E0; lia.
  - intros s Hs Hnone. destruct (String.eqb s EmptyString) eqn:E.
    + apply String.eqb_eq in E. subst s.
      rewrite (orElse_unset _ _ (or_intror Hs)). reflexivity.
    + apply String.eqb_neq in E. rewrite (orElse_set _ _ _ Hs E).
      unfold Num.parseInt. now rewrite Hnone.
  - intros Hv. now rewrite (orElse_unset _ _ Hv).
  - intros s Hs Hne. now rewrite (orElse_set _ _ _ Hs Hne).
  - intros s Hne Hnone. cbn [Config.process_env]. rewrite String.eqb_refl.
    rewrite (orElse_set _ _ s eq_refl Hne). unfold Num.parseInt. now rewrite Hnone.
  - intros n Hn. cbn [Config.process_env]. rewrite String.eqb_refl.
    rewrite (orElse_set _ _ (Num.toString n) eq_refl).
    + now apply parseInt_toString.
    + destruct (toString_head n) as (c & t & -> & _). discriminate.
  - reflexivity.
Qed.

(** ** Further runs *)

(** An interceptor in static-header mode, and one with nothing to pay
    with. *)
Definition staticInput : Input.t Mock.World :=
  Input.mk "https://router.example.com" "1000000" None (Some Mock.baseConfig) None
    (Some "PAYMENT-SIGNATURE") (Some "signed-static-header").

Definition bareInput : Input.t Mock.World :=
  Input.mk "https://router.example.com" "1000000" None (Some Mock.baseConfig) None
    None None.


Lemma nothing_is_sent_unsigned_witness :
  Client.wrappedFetch Mock.World Mock.Date_now Mock.baseFetch Mock.newURL
    bareInput closure chat post (session Mock.baseConfig staleWorld) =
  (Throw, session Mock.baseConfig staleWorld).
Proof.
  assert (Hp : Client.parseUrl Mock.newURL closure (Client.rawUrlOf chat) = Ok chatUrl)
    by (vm_compute; reflexivity).
  assert (Hpass : Client.passesThrough closure chatUrl = false)
    by (vm_compute; reflexivity).
  exact (proj1 (nothing_is_sent_unsigned Mock.World Mock.Date_now Mock.baseFetch
                  Mock.newURL bareInput closure chat post
                  (session Mock.baseConfig staleWorld) chatUrl Hp Hpass eq_refl)
           eq_refl).
Defined.

(** Two requests that are both served. *)
Definition servedTwice : Mock.World :=
  Mock.mk 1700000000000 [Mock.signed "0xsig" "1" 1700000600]
    [Ok okResponse; Ok okResponse].

Definition firstAttempt (w : Mock.World) : outcome Sent.t * Session.t Mock.World :=
  Client.bind Mock.World
    (Client.getFactory Mock.World Mock.baseFetch
       (testInput Mock.signatureFn Mock.baseConfig) closure)
    (fun _ =>
       Client.sendWithPermit Mock.World Mock.Date_now Mock.baseFetch
         (testInput Mock.signatureFn Mock.baseConfig) chat post None None)
    (session Mock.baseConfig w).



(** A request that brings headers of its own, one of them under the name
    of the payment header. *)
Definition callerInit : option RequestInit.t :=
  Some (RequestInit.mk (Some "POST") (Some "{}")
          (Some [("Content-Type", "application/json"); ("Payment-Signature", "stale")])).

Lemma attempt_forwards_the_request_witness :
  exists hs,
    Session.fetched
      (snd (Client.sendWithPermit Mock.World Mock.Date_now Mock.baseFetch staticInput
              chat callerInit None None (session Mock.baseConfig staleWorld))) =
    [(chat, Some (RequestInit.mk (Some "POST") (Some "{}") (Some hs)))] /\
    Headers.get "PAYMENT-SIGNATURE" hs = Some "signed-static-header" /\
    Headers.get "Content-Type" hs = Some "application/json".
Proof.
  set (run := Client.sendWithPermit Mock.World Mock.Date_now Mock.baseFetch staticInput
                chat callerInit None None (session Mock.baseConfig staleWorld)).
  assert (Hlog : Session.fetched (snd run) =
                 (Session.fetched (session Mock.baseConfig staleWorld) ++
                  [(chat,
                    Some (RequestInit.mk (Some "POST") (Some "{}")
                            (Some [("content-type", "application/json");
                                   ("payment-signature", "signed-static-header")])))])%list)
    by (vm_compute; reflexivity).
  destruct (attempt_forwards_the_request Mock.World Mock.Date_now Mock.baseFetch
              staticInput chat callerInit None None
              (session Mock.baseConfig staleWorld) (snd run) (fst run) _
              (surjective_pairing run) Hlog)
    as (h0 & hs & name & value & Hpay & Hc & He & Hget & Hother).
  destruct Hpay as [-> ->]. injection Hc as <-. injection He as <-.
  eexists. split; [exact Hlog|]. split; [exact Hget|].
  exact (Hother "Content-Type" ltac:(discriminate)).
Defined.


(** ** The env_pk signer behind the factory *)

Section EnvPermitLife.

Variable W : Type.
Variable Date_now : W -> Z.
Variable privateKeyToAccount : string -> outcome string.
Variable fetchPermitNonce : Chain -> string -> string -> W -> outcome Z * W.
Variable signTypedData : Chain -> string -> TypedData.t -> W -> outcome string * W.
Variable privateKey : string.

#[local] Abbreviation envSigner :=
  (createEnvPrivateKeySignatureFn W Date_now privateKeyToAccount fetchPermitNonce
     signTypedData privateKey).
#[local] Abbreviation getHeader := (HeaderFactory.getHeader W Date_now envSigner).

(** X20.  A permit of the env_pk signer serves for 59 minutes: a header
    the factory has just had signed, without a bound on the deadline, is
    valid for 3600 seconds from the second of signing, and a later call for
    the same cap under the same configuration answers it from the cache
    exactly while fewer than 3540 seconds have passed since. *)
Theorem env_permit_serves_59_minutes (options : option Options.t)
  (f f1 : Factory.t) (r r1 : Run.t W) (h : HeaderResult.t) :
  HeaderFactory.minDeadlineOf options = None ->
  HeaderFactory.cacheHit W Date_now options f (Run.world r) = false ->
  getHeader options f r = (Ok h, f1, r1) ->
  HeaderResult.deadline h = Num.Int (secondsOf (Date_now (Run.world r)) + 3600) /\
  forall r2,
    HeaderFactory.cacheHit W Date_now options f1 (Run.world r2) = true <->
    secondsOf (Date_now (Run.world r2)) - secondsOf (Date_now (Run.world r)) < 3540.
Proof.
  intros Hmde Hmiss Hg.
  destruct (getHeader_Ok_cached W Date_now envSigner _ _ _ _ _ _ Hg)
    as (Hcap & Hcfg & c & Hc & _ & Hdl & Hmax & Hn & Ha & Hp).
  assert (Hd : HeaderResult.deadline h =
               Num.Int (secondsOf (Date_now (Run.world r)) + 3600)).
  { rewrite (getHeader_miss W Date_now envSigner _ _ _ Hmiss) in Hg.
    destruct (refresh_Ok W envSigner _ _ _ _ _ _ Hg) as (sg & d & Hsg & Hparse & -> & _).
    apply envSignatureFn_deadline in Hsg. rewrite Hsg in Hparse.
    injection Hparse as <-. cbn [HeaderResult.deadline].
    unfold HeaderFactory.signatureInputOf. cbn [SignatureInput.minDeadlineExclusive].
    rewrite Hmde. reflexivity. }
  split; [exact Hd|]. intros r2. rewrite cacheHit_iff. split.
  - intros (c' & Hc' & _ & _ & _ & Hfar). rewrite Hc in Hc'. injection Hc' as <-.
    rewrite Hdl, Hd in Hfar. cbn [HeaderFactory.outsideWindow] in Hfar. lia.
  - intros Hnear. exists c. split; [exact Hc|]. unfold HeaderFactory.reusable.
    split; [exact Hmde|]. split.
    { rewrite Hmax. unfold HeaderFactory.capOf. now rewrite Hcap. }
    split; [now rewrite Hcfg|]. rewrite Hdl, Hd. cbn [HeaderFactory.outsideWindow]. lia.
Qed.

End EnvPermitLife.

Lemma env_permit_serves_59_minutes_witness :
  HeaderFactory.cacheHit Mock.World Mock.Date_now None envFactory
    (Mock.mk 1700003539999 [] []) = true /\
  HeaderFactory.cacheHit Mock.World Mock.Date_now None envFactory
    (Mock.mk 1700003540000 [] []) = false.
Proof.
  assert (Hg : HeaderFactory.getHeader Mock.World Mock.Date_now Mock.envSigner None
                 cachingFactory (Mock.start cachingWorld) =
               (Ok (HeaderResult.mk "PAYMENT-SIGNATURE"
                      (encodePaymentPayload
                         (buildPaymentPayload Mock.baseConfig Mock.account "1000000"
                            "0xsigned" "7" "1700003600"))
                      (Num.Int 1700003600)),
                envFactory,
                Run.mk cachingWorld
                  [HeaderFactory.signatureInputOf None cachingFactory]))
    by (vm_compute; reflexivity).
  destruct (env_permit_serves_59_minutes Mock.World Mock.Date_now
              Mock.privateKeyToAccount Mock.fetchPermitNonce Mock.signTypedData
              "0xaaaaaaaaaaaaaaaaaaaaaaaaaaaaaaaaaaaaaaaaaaaaaaaaaaaaaaaaaaaaaaaa"
              None cachingFactory envFactory (Mock.start cachingWorld) _ _
              eq_refl eq_refl Hg) as [_ Hlife].
  split.
  - apply (Hlife (Mock.start (Mock.mk 1700003539999 [] []))). vm_compute. reflexivity.
  - destruct (HeaderFactory.cacheHit Mock.World Mock.Date_now None envFactory
                (Mock.mk 1700003540000 [] [])) eqn:E; [|reflexivity].
    apply (Hlife (Mock.start (Mock.mk 1700003540000 [] []))) in E.
    vm_compute in E. discriminate E.
Defined.

(** ** Answers that are no challenge *)

Section OtherAnswers.

Variable W : Type.
Variable Date_now : W -> Z.
Variable baseFetch : RequestInfo -> option RequestInit.t -> W -> outcome Response.t * W.
Variable newURL : string -> option string -> option URL.t.
Variable input : Input.t W.

#[local] Abbreviation bind := (Client.bind W).
#[local] Abbreviation ret := (Client.ret W).
#[local] Abbreviation getFactory := (Client.getFactory W baseFetch input).
#[local] Abbreviation sendWithPermit := (Client.sendWithPermit W Date_now baseFetch input).
#[local] Abbreviation wrappedFetch := (Client.wrappedFetch W Date_now baseFetch newURL input).
#[local] Abbreviation staticHeaderValue := (Client.staticHeaderValue W input).

(** X21.  Only a 401 or a 402 is taken for a challenge: an answer with any
    other status is returned as it is after the one attempt, in either
    mode, whatever its body and its [PAYMENT-REQUIRED] header say; the
    factory keeps its configuration and its cached header, and nothing more
    is signed or sent. *)
Theorem other_statuses_are_returned (c : Closure.t) (requestInfo : RequestInfo)
  (requestInit : option RequestInit.t) (s s1 : Session.t W) (parsed : URL.t)
  (initial : Sent.t) :
  Client.parseUrl newURL c (Client.rawUrlOf requestInfo) = Ok parsed ->
  Client.passesThrough c parsed = false ->
  bind (match staticHeaderValue with
        | Some _ => ret tt
        | None => getFactory c
        end)
    (fun _ => sendWithPermit requestInfo requestInit None None) s = (Ok initial, s1) ->
  Response.status (Sent.response initial) <> 401 ->
  Response.status (Sent.response initial) <> 402 ->
  wrappedFetch c requestInfo requestInit s = (Ok (Sent.response initial), s1).
Proof.
  intros Hp Hpass Hfirst H401 H402.
  rewrite (wrappedFetch_charges W Date_now baseFetch newURL input _ _ _ _ _ Hp Hpass).
  apply (bind_inv W) in Hfirst.
  destruct Hfirst as [([] & sa & H1 & H2)|[[_ [=]]|[_ [=]]]].
  unfold Client.bind at 1. rewrite H1. unfold Client.bind at 1. rewrite H2.
  unfold Client.afterInitial.
  apply Z.eqb_neq in H401, H402. now rewrite H401, H402.
Qed.

End OtherAnswers.

(** A server error whose body and header read like a challenge. *)
Definition serverError : Response.t :=
  Response.mk 500 [("payment-required", encodePaymentRequired accepts)]
    (Ok capExhausted).

Lemma other_statuses_are_returned_witness :
  let after :=
    Client.wrappedFetch Mock.World Mock.Date_now Mock.baseFetch Mock.newURL
      (testInput Mock.signatureFn Mock.baseConfig) closure chat post
      (session Mock.baseConfig
         (Mock.mk 1700000000000 [Mock.signed "0xsig" "1" 1700000600]
            [Ok serverError; Ok okResponse])) in
  fst after = Ok serverError /\
  List.length (Session.fetched (snd after)) = 1%nat /\
  List.length (Run.signed (Session.run (snd after))) = 1%nat.
Proof.
  intros after.
  set (w := Mock.mk 1700000000000 [Mock.signed "0xsig" "1" 1700000600]
              [Ok serverError; Ok okResponse]) in *.
  assert (Hp : Client.parseUrl Mock.newURL closure (Client.rawUrlOf chat) = Ok chatUrl)
    by (vm_compute; reflexivity).
  assert (Hpass : Client.passesThrough closure chatUrl = false)
    by (vm_compute; reflexivity).
  assert (Hfirst : firstAttempt w =
                   (Ok (Sent.mk serverError (Some (Num.Int 1700000600))), snd (firstAttempt w)))
    by (vm_compute; reflexivity).
  pose proof (other_statuses_are_returned Mock.World Mock.Date_now Mock.baseFetch
                Mock.newURL (testInput Mock.signatureFn Mock.baseConfig) closure chat
                post (session Mock.baseConfig w) (snd (firstAttempt w)) chatUrl
                (Sent.mk serverError (Some (Num.Int 1700000600))) Hp Hpass Hfirst
                ltac:(discriminate) ltac:(discriminate)) as H.
  subst after. rewrite H. cbn [fst snd]. split; [reflexivity|].
  split; vm_compute; reflexivity.
Defined.

(** ** Challenges that cannot be read *)

Section UnreadableChallenge.

Variable W : Type.
Variable Date_now : W -> Z.
Variable baseFetch : RequestInfo -> option RequestInit.t -> W -> outcome Response.t * W.
Variable input : Input.t W.

#[local] Abbreviation afterInitial := (Client.afterInitial W Date_now baseFetch input).
#[local] Abbreviation staticHeaderValue := (Client.staticHeaderValue W input).

(** X22.  A 401 or 402 whose body is not JSON is not retried: reading the
    body throws, the error is taken for [null], and the answer is returned
    as it is, with nothing more signed or sent.  A requirement its
    [PAYMENT-REQUIRED] header carries is still applied to the factory's
    configuration, and the cached header is kept. *)
Theorem unreadable_challenge_is_returned (requestInfo : RequestInfo)
  (requestInit : option RequestInit.t) (initial : Sent.t) (s : Session.t W)
  (sign : SignatureInput.t -> W -> outcome SignatureOutput.t * W) (f : Factory.t)
  (requirement : option PaymentRequirement.t) :
  Input.signatureFn input = Some sign ->
  staticHeaderValue = None ->
  Session.headerFactoryPromise s = Some f ->
  Response.status (Sent.response initial) = 401 \/
  Response.status (Sent.response initial) = 402 ->
  Response.json (Sent.response initial) = Throw ->
  Client.requirementOf (Sent.response initial) = Ok requirement ->
  Client.extractErrorResponse (Sent.response initial) = Ok None /\
  afterInitial requestInfo requestInit initial s =
  (Ok (Sent.response initial),
   Session.mk (Session.run s) (Session.fetched s) (Session.configPromise s)
     (Some (Factory.mk (Factory.permitCap f)
              (applyPaymentRequirement (Factory.config f) requirement)
              (Factory.cached f)))).
Proof.
  intros Hsign Hstatic Hf Hstatus Hjson Hq.
  assert (He : Client.extractErrorResponse (Sent.response initial) = Ok None).
  { unfold Client.extractErrorResponse. now rewrite Hjson. }
  split; [exact He|].
  rewrite (afterInitial_challenge W Date_now baseFetch input _ _ _ _ sign f None
             requirement Hsign Hstatic Hf Hstatus He Hq).
  cbn [Client.retries]. unfold Session.withFactory. do 2 f_equal.
  destruct requirement as [q|]; [reflexivity|]. now destruct f.
Qed.

End UnreadableChallenge.

(** A 402 that carries the requirement and a body that is no JSON. *)
Definition unreadable : Response.t :=
  Response.mk 402 [("payment-required", encodePaymentRequired accepts)] Throw.

Lemma unreadable_challenge_is_returned_witness :
  fst (Client.afterInitial Mock.World Mock.Date_now Mock.baseFetch
         (testInput Mock.signatureFn Mock.baseConfig) chat post
         (Sent.mk unreadable (Some (Num.Int 1700003600)))
         (Session.withFactory envFactory (session Mock.baseConfig servedTwice))) =
  Ok unreadable.
Proof.
  assert (Hq : Client.requirementOf unreadable = Ok (Some accepted))
    by (vm_compute; reflexivity).
  destruct (unreadable_challenge_is_returned Mock.World Mock.Date_now Mock.baseFetch
              (testInput Mock.signatureFn Mock.baseConfig) chat post
              (Sent.mk unreadable (Some (Num.Int 1700003600)))
              (Session.withFactory envFactory (session Mock.baseConfig servedTwice))
              Mock.signatureFn envFactory (Some accepted)
              eq_refl eq_refl eq_refl (or_intror eq_refl) eq_refl Hq) as [_ H].
  now rewrite H.
Defined.
